(** * dsclock: property bags, themes and the hand renderer

    A shallow embedding of [property_bag.py], [theme.py], [settings.py], of
    the hand-drawing part of [dsclock.py], of the hand set picker of
    [dialogs.py] and of [validate_hand_images.py].

    - Python values are an inductive type; [float] is IEEE binary64, which
      is what Rocq's primitive floats compute with.
    - A [dict] keyed by strings is a [gmap string _].
    - Methods that mutate [self] return the new object; methods that touch
      the disk take and return the file system.
    - A raised exception is [None] in an [option] result; where the object
      or the disk is changed before the exception, they are returned next
      to it. *)

From Stdlib Require Import ZArith Floats Lia Ascii String.
From stdpp Require Import gmap strings list fin_maps sorting.

Set Warnings "-inexact-float".
#[local] Open Scope Z_scope.

(** ** Python values *)

Module Py.

(** What a property can hold: [None], [bool], [int], [float], [str], and
    tuples or lists of these (the colour triples). *)
#[warning="-register-all"]
Inductive Value : Type :=
| VNone
| VBool (b : bool)
| VInt (z : Z)
| VFloat (f : float)
| VStr (s : string)
| VTuple (items : list Value)
| VList (items : list Value).

(** The induction principle that reaches inside tuples and lists. *)
Section ValueInd.
Variable P : Value -> Prop.
Hypothesis HNone : P VNone.
Hypothesis HBool : forall b, P (VBool b).
Hypothesis HInt : forall z, P (VInt z).
Hypothesis HFloat : forall f, P (VFloat f).
Hypothesis HStr : forall s, P (VStr s).
Hypothesis HTuple : forall l, Forall P l -> P (VTuple l).
Hypothesis HList : forall l, Forall P l -> P (VList l).

Fixpoint Value_nested_ind (v : Value) : P v :=
  let fix all (l : list Value) : Forall P l :=
    match l with
    | [] => @List.Forall_nil _ P
    | x :: r => @List.Forall_cons _ P x r (Value_nested_ind x) (all r)
    end in
  match v with
  | VNone => HNone
  | VBool b => HBool b
  | VInt z => HInt z
  | VFloat f => HFloat f
  | VStr s => HStr s
  | VTuple l => HTuple l (all l)
  | VList l => HList l (all l)
  end.
End ValueInd.

(** An [int] as a [float]: correctly rounded, as CPython's conversion is.
    CPython raises OverflowError where the rounded value is out of range,
    which is where this gives an infinity. *)
Definition float_of_Z (z : Z) : float :=
  SF2Prim (binary_normalize prec emax z 0 false).

(** Numbers compare by their exact mathematical value: an [int] equals a
    [float] only when the float holds exactly that integer. *)
Definition Z_eq_float (z : Z) (f : float) : bool :=
  match Prim2SF f with
  | S754_zero _ => z =? 0
  | S754_finite s m e =>
      let v := if s then Z.neg m else Z.pos m in
      if 0 <=? e then z =? v * 2 ^ e
      else (v mod 2 ^ (- e) =? 0) && (z =? v / 2 ^ (- e))
  | _ => false
  end.

(** [bool] is a subclass of [int]: [True == 1]. *)
Definition Z_of_bool (b : bool) : Z := if b then 1 else 0.

(** [a == b].  Sequences compare element by element and a tuple never
    equals a list.  (CPython first tests elements of a sequence for
    identity; values here have no identity, so a NaN inside a sequence is
    unequal to itself as it is outside one.) *)
Fixpoint py_eq (a b : Value) : bool :=
  let fix seq_eq (l m : list Value) : bool :=
    match l with
    | [] => match m with [] => true | _ :: _ => false end
    | x :: l' =>
        match m with
        | [] => false
        | y :: m' => py_eq x y && seq_eq l' m'
        end
    end in
  match a with
  | VNone => match b with VNone => true | _ => false end
  | VBool x =>
      match b with
      | VBool y => Z_of_bool x =? Z_of_bool y
      | VInt y => Z_of_bool x =? y
      | VFloat y => Z_eq_float (Z_of_bool x) y
      | _ => false
      end
  | VInt x =>
      match b with
      | VBool y => x =? Z_of_bool y
      | VInt y => x =? y
      | VFloat y => Z_eq_float x y
      | _ => false
      end
  | VFloat x =>
      match b with
      | VBool y => Z_eq_float (Z_of_bool y) x
      | VInt y => Z_eq_float y x
      | VFloat y => PrimFloat.eqb x y
      | _ => false
      end
  | VStr s => match b with VStr t => bool_decide (s = t) | _ => false end
  | VTuple l => match b with VTuple m => seq_eq l m | _ => false end
  | VList l => match b with VList m => seq_eq l m | _ => false end
  end.

(** [a != b] *)
Definition py_ne (a b : Value) : bool := negb (py_eq a b).

(** Truth value of an object, as [if x:] and [not x] take it. *)
Definition truthy (v : Value) : bool :=
  match v with
  | VNone => false
  | VBool b => b
  | VInt z => negb (z =? 0)
  | VFloat f => negb (PrimFloat.eqb f 0%float)
  | VStr s => negb (bool_decide (s = ""%string))
  | VTuple l | VList l => match l with [] => false | _ => true end
  end.

(** A value used as a float operand; [None] is the TypeError of a
    non-number, or the OverflowError of an [int] too large for a float. *)
Definition as_float (v : Value) : option float :=
  match v with
  | VBool b => Some (float_of_Z (Z_of_bool b))
  | VInt z => if is_infinity (float_of_Z z) then None else Some (float_of_Z z)
  | VFloat f => Some f
  | _ => None
  end.

End Py.

(** ** JSON documents, as the [json] module encodes and decodes them *)

Module Json.
Import Py.

(** The value of one key of a profile file. *)
#[warning="-register-all"]
Inductive t : Type :=
| JNull
| JBool (b : bool)
| JInt (z : Z)
| JFloat (f : float)
| JStr (s : string)
| JArr (items : list t).

(** The nested induction principle of JSON values. *)
Section JsonInd.
Variable P : t -> Prop.
Hypothesis HNull : P JNull.
Hypothesis HBool : forall b, P (JBool b).
Hypothesis HInt : forall z, P (JInt z).
Hypothesis HFloat : forall f, P (JFloat f).
Hypothesis HStr : forall s, P (JStr s).
Hypothesis HArr : forall l, Forall P l -> P (JArr l).

Fixpoint nested_ind (j : t) : P j :=
  let fix all (l : list t) : Forall P l :=
    match l with
    | [] => @List.Forall_nil _ P
    | x :: r => @List.Forall_cons _ P x r (nested_ind x) (all r)
    end in
  match j with
  | JNull => HNull
  | JBool b => HBool b
  | JInt z => HInt z
  | JFloat f => HFloat f
  | JStr s => HStr s
  | JArr l => HArr l (all l)
  end.
End JsonInd.

(** [json.dump]: tuples and lists both become arrays. *)
Fixpoint encode (v : Value) : t :=
  match v with
  | VNone => JNull
  | VBool b => JBool b
  | VInt z => JInt z
  | VFloat f => JFloat f
  | VStr s => JStr s
  | VTuple l => JArr (map encode l)
  | VList l => JArr (map encode l)
  end.

(** [json.load]: an array always becomes a list. *)
Fixpoint decode (j : t) : Value :=
  match j with
  | JNull => VNone
  | JBool b => VBool b
  | JInt z => VInt z
  | JFloat f => VFloat f
  | JStr s => VStr s
  | JArr l => VList (map decode l)
  end.

(** What a value looks like after a trip through a file: every tuple in
    it has become a list. *)
Fixpoint as_lists (v : Value) : Value :=
  match v with
  | VTuple l => VList (map as_lists l)
  | VList l => VList (map as_lists l)
  | _ => v
  end.

(** No tuple anywhere in the value. *)
Fixpoint tuple_free (v : Value) : bool :=
  match v with
  | VTuple _ => false
  | VList l => forallb tuple_free l
  | _ => true
  end.

End Json.

(** ** Paths and the file system *)

Module Os.

#[local] Open Scope string_scope.

(** The part of [p] up to and including its last slash; [None] when [p]
    has no slash. *)
Fixpoint head_to_last_slash (p : string) : option string :=
  match p with
  | EmptyString => None
  | String c r =>
      match head_to_last_slash r with
      | Some h => Some (String c h)
      | None => if Ascii.eqb c "/"%char then Some (String c EmptyString) else None
      end
  end.

(** [s.rstrip('/')] *)
Fixpoint rstrip_slash (s : string) : string :=
  match s with
  | EmptyString => EmptyString
  | String c r =>
      match rstrip_slash r with
      | EmptyString => if Ascii.eqb c "/"%char then EmptyString else String c EmptyString
      | r' => String c r'
      end
  end.

(** [posixpath.dirname]: the head, without its trailing slashes unless it
    is made of slashes only. *)
Definition dirname (p : string) : string :=
  let head := default "" (head_to_last_slash p) in
  match rstrip_slash head with
  | EmptyString => head
  | stripped => stripped
  end.

(** [s.endswith('/')] *)
Fixpoint ends_with_slash (s : string) : bool :=
  match s with
  | EmptyString => false
  | String c EmptyString => Ascii.eqb c "/"%char
  | String _ r => ends_with_slash r
  end.

(** [posixpath.join(a, b)] *)
Definition join (a b : string) : string :=
  match b with
  | String c _ =>
      if Ascii.eqb c "/"%char then b
      else if bool_decide (a = "") || ends_with_slash a then a +:+ b
      else a +:+ "/" +:+ b
  | EmptyString =>
      if bool_decide (a = "") || ends_with_slash a then a else a +:+ "/"
  end.

(** What a file holds, as far as [json.load] can tell: text that does not
    parse (an empty or half-written file included), a JSON object, bytes
    that are not text in the encoding [open] reads with, a JSON text that
    is [null], [true], [false] or a number, or a JSON string.  (A file that
    holds a JSON array is left out: [dict.update] would take its items for
    key-value pairs, and a key that is not a string has no place in the
    store below. So is an object that holds an object.) *)
Inductive content : Type :=
| Unparsable
| Document (doc : gmap string Json.t)
| Undecodable
| Atom
| Text (s : string).

(** The disk: its files, its directories, and the files that can be
    opened for writing but not written (no space left on the device, a
    quota, an I/O error). *)
Record filesystem : Type := {
  files : gmap string content;
  dirs : gset string;
  write_errors : gset string
}.

(** [os.path.exists] *)
Definition path_exists (fs : filesystem) (p : string) : bool :=
  bool_decide (is_Some (files fs !! p)) || bool_decide (p ∈ dirs fs).

(** [d] and the directories above it, nearest first. *)
Fixpoint lineage (fuel : nat) (d : string) : list string :=
  match fuel with
  | O => []
  | S n =>
      if bool_decide (d = "") then []
      else if bool_decide (dirname d = d) then [d]
      else d :: lineage n (dirname d)
  end.

(** [os.makedirs(d, exist_ok=True)]: [None] is the OSError raised for the
    empty name or when a regular file is in the way. *)
Definition makedirs (d : string) (fs : filesystem) : option filesystem :=
  if bool_decide (d = "") then None
  else
    let chain := lineage (S (String.length d)) d in
    if existsb (fun a => bool_decide (is_Some (files fs !! a))) chain then None
    else Some {| files := files fs; dirs := dirs fs ∪ list_to_set chain;
                 write_errors := write_errors fs |}.

(** [open(p, 'w')]: the file is created or cut to length zero at once.
    [None] is the OSError raised when [p] is a directory or its directory
    is missing. *)
Definition open_w (p : string) (fs : filesystem) : option filesystem :=
  if bool_decide (p ∈ dirs fs) then None
  else if negb (bool_decide (dirname p = "")) && negb (bool_decide (dirname p ∈ dirs fs))
  then None
  else Some {| files := <[p := Unparsable]> (files fs); dirs := dirs fs;
               write_errors := write_errors fs |}.

(** The state once [json.dump] has written the whole object and the file
    is closed. *)
Definition dumped (p : string) (doc : gmap string Json.t) (fs : filesystem)
  : filesystem :=
  {| files := <[p := Document doc]> (files fs); dirs := dirs fs;
     write_errors := write_errors fs |}.

(** The object that [open(p, 'r')] followed by [json.load] gives, when
    they give one. *)
Definition read_json (p : string) (fs : filesystem) : option (gmap string Json.t) :=
  if bool_decide (p ∈ dirs fs) then None
  else match files fs !! p with
       | Some (Document doc) => Some doc
       | _ => None
       end.

(** What [open(p, 'r')] followed by [json.load] gives: a dict; [None], a
    bool or a number; a string; the IOError or JSONDecodeError that the
    callers catch; or the UnicodeDecodeError that they do not. *)
Inductive loaded : Type :=
| Dict (doc : gmap string Json.t)
| NotIterable
| Str (s : string)
| Rejected
| Garbled.

Definition json_load (p : string) (fs : filesystem) : loaded :=
  if bool_decide (p ∈ dirs fs) then Rejected
  else match files fs !! p with
       | Some (Document doc) => Dict doc
       | Some Atom => NotIterable
       | Some (Text s) => Str s
       | Some Undecodable => Garbled
       | Some Unparsable | None => Rejected
       end.

End Os.

(** ** property_bag.py *)

Module PropertyBag.
Import Py.

#[local] Open Scope string_scope.

Record t : Type := {
  file_path : option string;
  _properties : gmap string Value;
  _dirty : bool
}.

(** [not self.file_path]: no path, or the empty string. *)
Definition no_path (self : t) : bool :=
  match file_path self with
  | None => true
  | Some p => bool_decide (p = "")
  end.

Section Class.
(** The class attribute [DEFAULTS] of the subclass. *)
Variable DEFAULTS : gmap string Value.

Definition __init__ (path : option string) : t :=
  {| file_path := path; _properties := DEFAULTS; _dirty := false |}.

(** [self._properties = self.DEFAULTS.copy(); self._dirty = False] *)
Definition reset (self : t) : t :=
  {| file_path := file_path self; _properties := DEFAULTS; _dirty := false |}.

(** [self._properties.get(key)] *)
Definition stored (self : t) (key : string) : Value :=
  default VNone (_properties self !! key).

(** [set]: [None] is the AssertionError for an undeclared key.  (Where
    [value] is the stored object itself and holds a NaN inside a tuple or
    a list, CPython finds the two equal by identity and leaves the store
    alone; see [py_eq].) *)
Definition set (key : string) (value : Value) (self : t) : option t :=
  match DEFAULTS !! key with
  | None => None
  | Some _ =>
      if py_ne (stored self key) value then
        Some {| file_path := file_path self;
                _properties := <[key := value]> (_properties self);
                _dirty := true |}
      else Some self
  end.

(** [get(key, default=None)]; [fallback] is the [default] argument. *)
Definition get (key : string) (fallback : Value) (self : t) : option Value :=
  match DEFAULTS !! key with
  | None => None
  | Some d =>
      match fallback with
      | VNone => Some (default d (_properties self !! key))
      | _ => Some (default fallback (_properties self !! key))
      end
  end.

Definition is_dirty (self : t) : bool := _dirty self.

(** [self._properties = self.DEFAULTS.copy()] with the dirty flag left as
    it is: where [load] stands when [update] raises. *)
Definition defaults_only (self : t) : t :=
  {| file_path := file_path self; _properties := DEFAULTS; _dirty := _dirty self |}.

(** [load]: the object afterwards and the returned flag; no flag when an
    exception escapes.  The [except] clause catches IOError and
    JSONDecodeError only: a UnicodeDecodeError leaves the object as it
    was, and the TypeError or ValueError of [update], on a value that is
    no dict, leaves it with the defaults and the dirty flag it had.
    ([update] takes an empty string for no pairs at all.) *)
Definition load (fs : Os.filesystem) (self : t) : t * option bool :=
  match file_path self with
  | None => (reset self, Some false)
  | Some p =>
      if bool_decide (p = "") || negb (Os.path_exists fs p) then (reset self, Some false)
      else
        match Os.json_load p fs with
        | Os.Dict loaded =>
            ({| file_path := file_path self;
                _properties := (Json.decode <$> loaded) ∪ DEFAULTS;
                _dirty := false |}, Some true)
        | Os.Str EmptyString => (reset self, Some true)
        | Os.Str _ | Os.NotIterable => (defaults_only self, None)
        | Os.Rejected => (reset self, Some false)
        | Os.Garbled => (self, None)
        end
  end.

(** [save]: the disk afterwards, the new object and the returned flag.
    A write that fails after the [open] is caught like the other IOErrors
    and leaves the file cut. *)
Definition save (fs : Os.filesystem) (self : t) : Os.filesystem * t * bool :=
  match file_path self with
  | None => (fs, self, false)
  | Some p =>
      if bool_decide (p = "") then (fs, self, false)
      else
        match Os.makedirs (Os.dirname p) fs with
        | None => (fs, self, false)
        | Some fs1 =>
            match Os.open_w p fs1 with
            | None => (fs1, self, false)
            | Some fs2 =>
                if bool_decide (p ∈ Os.write_errors fs2) then (fs2, self, false)
                else
                  (Os.dumped p (Json.encode <$> _properties self) fs2,
                   {| file_path := file_path self;
                      _properties := _properties self;
                      _dirty := false |},
                   true)
            end
        end
  end.

(** The disks an interrupted [save] can leave behind: before it wrote
    anything, after [makedirs], and after [open] has cut the file while
    [json.dump] has not finished. *)
Definition save_interrupted (fs : Os.filesystem) (self : t) : list Os.filesystem :=
  match file_path self with
  | None => [fs]
  | Some p =>
      if bool_decide (p = "") then [fs]
      else
        match Os.makedirs (Os.dirname p) fs with
        | None => [fs]
        | Some fs1 =>
            match Os.open_w p fs1 with
            | None => [fs; fs1]
            | Some fs2 => [fs; fs1; fs2]
            end
        end
  end.

Definition get_all (self : t) : gmap string Value := _properties self.

(** Whether the constructor of the class has a parameter [file_path]:
    [PropertyBag.__init__] has; [Settings.__init__(self, settings_file)]
    and [Theme.__init__(self, name, themes_dir)] have not. *)
Variable init_takes_file_path : bool.

(** [duplicate]: [None] is the TypeError of
    [self.__class__(file_path=None)] in a class whose constructor has no
    such parameter. *)
Definition duplicate (self : t) : option t :=
  if init_takes_file_path then
    Some {| file_path := None; _properties := _properties self; _dirty := true |}
  else None.

End Class.

End PropertyBag.

(** ** settings.py *)

Module Settings.
Import Py.

#[local] Open Scope string_scope.

Definition DEFAULTS : gmap string Value :=
  list_to_map [
    ("window_x", VNone);
    ("window_y", VNone);
    ("width", VInt 400);
    ("height", VInt 460);
    ("clock_size", VInt 400);
    ("show_date_box", VBool true);
    ("show_second_hand", VBool true);
    ("minute_hand_snap", VBool true);
    ("always_on_top", VBool false);
    ("active_theme_name", VStr "default")
  ].

Definition __init__ (settings_file : option string) : PropertyBag.t :=
  PropertyBag.__init__ DEFAULTS settings_file.

Definition get := PropertyBag.get DEFAULTS.
Definition set := PropertyBag.set DEFAULTS.
Definition load := PropertyBag.load DEFAULTS.
Definition save := PropertyBag.save.
Definition duplicate := PropertyBag.duplicate false.

End Settings.

(** ** theme.py *)

Module Theme.
Import Py.

#[local] Open Scope string_scope.

(** A colour triple of the defaults: a tuple of three floats. *)
Definition rgb (r g b : float) : Value := VTuple [VFloat r; VFloat g; VFloat b].

Definition DEFAULTS : gmap string Value :=
  list_to_map [
    ("show_numbers", VBool true);
    ("show_hour_ticks", VBool true);
    ("show_minute_ticks", VBool true);
    ("background_color", rgb 1.0 1.0 1.0);
    ("background_opacity", VFloat 0.7);
    ("face_texture_source", VStr "builtin");
    ("face_texture_name", VNone);
    ("enable_face_color", VBool true);
    ("enable_face_texture", VBool false);
    ("face_color_opacity", VFloat 0.85);
    ("face_texture_opacity", VFloat 1.0);
    ("rim_width", VFloat 0.01);
    ("rim_opacity", VFloat 1.0);
    ("rim_color", rgb 0.0 0.0 0.0);
    ("hour_tick_size", VFloat 0.022);
    ("hour_tick_position", VFloat 0.975);
    ("hour_tick_style", VStr "square");
    ("hour_tick_aspect_ratio", VFloat 1.0);
    ("minute_tick_size", VFloat 0.018);
    ("minute_tick_position", VFloat 0.975);
    ("minute_tick_style", VStr "rectangular");
    ("minute_tick_aspect_ratio", VFloat 0.2871745887492587);
    ("number_position", VFloat 0.823);
    ("number_size", VFloat 0.155);
    ("number_font", VStr "Sans");
    ("number_bold", VBool true);
    ("use_roman_numerals", VBool false);
    ("show_cardinal_numbers_only", VBool false);
    ("hour_hand_length", VFloat 0.509);
    ("hour_hand_tail", VFloat 0.099);
    ("hour_hand_width", VFloat 0.041);
    ("hour_hand_image_width", VFloat 1.0);
    ("hour_hand_image_source", VStr "none");
    ("hour_hand_image_name", VNone);
    ("minute_hand_length", VFloat 0.74);
    ("minute_hand_tail", VFloat 0.16);
    ("minute_hand_width", VFloat 0.025);
    ("minute_hand_image_width", VFloat 1.0);
    ("minute_hand_image_source", VStr "none");
    ("minute_hand_image_name", VNone);
    ("second_hand_length", VFloat 0.88);
    ("second_hand_tail", VFloat 0.2);
    ("second_hand_width", VFloat 0.01);
    ("second_hand_image_width", VFloat 1.0);
    ("second_hand_image_source", VStr "none");
    ("second_hand_image_name", VNone);
    ("center_dot_radius", VFloat 0.04);
    ("date_box_width", VFloat 1.18);
    ("date_box_height", VFloat 0.24);
    ("date_box_margin", VFloat 0.12);
    ("date_format", VStr "%a, %d %b");
    ("date_font_size", VFloat 0.1);
    ("date_font", VStr "Sans");
    ("date_bold", VBool false);
    ("hands_color", rgb 0.0 0.0 0.0);
    ("numbers_color", rgb 0.0 0.0 0.0);
    ("ticks_color", rgb 0.0 0.0 0.0);
    ("minute_ticks_color", rgb 0.0 0.0 0.0);
    ("border_color", rgb 0.0 0.0 0.0);
    ("second_hand_color", rgb 1.0 0.0 0.0);
    ("date_text_color", rgb 0.0 0.0 0.0)
  ].

(** The three hands, named in the source by the strings ['hour'],
    ['minute'] and ['second']. *)
Inductive hand_type : Type := hour | minute | second.

Definition hand_name (h : hand_type) : string :=
  match h with
  | hour => "hour"
  | minute => "minute"
  | second => "second"
  end.

(** [f'{hand_type}_hand_image_width'] and [f'{hand_type}_hand_width'] *)
Definition image_width_key (h : hand_type) : string := hand_name h +:+ "_hand_image_width".
Definition width_key (h : hand_type) : string := hand_name h +:+ "_hand_width".

Record t : Type := {
  name : string;
  themes_dir : option string;
  bag : PropertyBag.t
}.

(** The path a theme is kept at: none for ['default'] or without a themes
    directory. *)
Definition theme_path (name : string) (themes_dir : option string) : option string :=
  match themes_dir with
  | None => None
  | Some d =>
      if bool_decide (name = "default") || bool_decide (d = "") then None
      else Some (Os.join d (name +:+ ".json"))
  end.

Definition __init__ (name : string) (themes_dir : option string) : t :=
  {| name := name;
     themes_dir := themes_dir;
     bag := PropertyBag.__init__ DEFAULTS (theme_path name themes_dir) |}.

Definition with_bag (self : t) (b : PropertyBag.t) : t :=
  {| name := name self; themes_dir := themes_dir self; bag := b |}.

Definition get (key : string) (self : t) : option Value :=
  PropertyBag.get DEFAULTS key VNone (bag self).

Definition set (key : string) (value : Value) (self : t) : option t :=
  with_bag self <$> PropertyBag.set DEFAULTS key value (bag self).

(** The body of the migration loop for one hand: a file without the
    image-width key gets 1.0 for it. *)
Definition migrate_hand (loaded : gmap string Value) (props : gmap string Value)
    (h : hand_type) : gmap string Value :=
  match loaded !! image_width_key h with
  | None => <[image_width_key h := VFloat 1.0]> props
  | Some _ => props
  end.

(** [for hand_type in ['hour', 'minute', 'second']: ...] *)
Definition migrate (loaded props : gmap string Value) : gmap string Value :=
  foldl (migrate_hand loaded) props [hour; minute; second].

(** [load]: as the base class's, with the migration loop after [update];
    for the loop an empty string has no key in it, like an empty dict. *)
Definition load (fs : Os.filesystem) (self : t) : t * option bool :=
  if bool_decide (name self = "default") then
    (with_bag self (PropertyBag.reset DEFAULTS (bag self)), Some true)
  else
    match PropertyBag.file_path (bag self) with
    | None => (with_bag self (PropertyBag.reset DEFAULTS (bag self)), Some false)
    | Some p =>
        if bool_decide (p = "") || negb (Os.path_exists fs p) then
          (with_bag self (PropertyBag.reset DEFAULTS (bag self)), Some false)
        else
          match Os.json_load p fs with
          | Os.Dict doc =>
              let loaded := Json.decode <$> doc in
              (with_bag self
                 {| PropertyBag.file_path := PropertyBag.file_path (bag self);
                    PropertyBag._properties := migrate loaded (loaded ∪ DEFAULTS);
                    PropertyBag._dirty := false |}, Some true)
          | Os.Str EmptyString =>
              (with_bag self
                 {| PropertyBag.file_path := PropertyBag.file_path (bag self);
                    PropertyBag._properties := migrate ∅ DEFAULTS;
                    PropertyBag._dirty := false |}, Some true)
          | Os.Str _ | Os.NotIterable =>
              (with_bag self (PropertyBag.defaults_only DEFAULTS (bag self)), None)
          | Os.Rejected =>
              (with_bag self (PropertyBag.reset DEFAULTS (bag self)), Some false)
          | Os.Garbled => (self, None)
          end
    end.

Definition save (fs : Os.filesystem) (self : t) : Os.filesystem * t * bool :=
  if bool_decide (name self = "default") then (fs, self, false)
  else
    let '(fs', b, ok) := PropertyBag.save fs (bag self) in
    (fs', with_bag self b, ok).

Definition duplicate (new_name : string) (self : t) : t :=
  let fresh := __init__ new_name (themes_dir self) in
  with_bag fresh
    {| PropertyBag.file_path := PropertyBag.file_path (bag fresh);
       PropertyBag._properties := PropertyBag._properties (bag self);
       PropertyBag._dirty := true |}.

End Theme.

(** ** dsclock.py: the hands *)

Module Clock.
Import Py.

#[local] Open Scope string_scope.
#[local] Open Scope Z_scope.

(** *** [math] *)

(** [math.pi] *)
Definition pi : float := 0x1.921fb54442d18p+1%float.

(** [math.radians]: CPython multiplies by the constant [pi / 180]. *)
Definition radians (x : float) : float := (x * (pi / 180))%float.

(** [a / b] on two ints that a float holds exactly (the components of a
    time of day, the sides of an image): there the division of the two
    floats is CPython's correctly rounded quotient. *)
Definition int_truediv (a b : Z) : float := (float_of_Z a / float_of_Z b)%float.

(** The angle of the hour hand, as both drawing modes compute it:
    [math.radians((hours + minutes / 60) * 30 - 90)]. *)
Definition hour_angle (hours minutes : Z) : float :=
  radians ((float_of_Z hours + int_truediv minutes 60) * 30 - 90)%float.

(** [math.radians(minutes * 6 - 90)] when snapping (integer arithmetic up
    to the conversion), else
    [math.radians((minutes + seconds / 60) * 6 - 90)]. *)
Definition minute_angle (snap : bool) (minutes seconds : Z) : float :=
  if snap then radians (float_of_Z (minutes * 6 - 90))
  else radians ((float_of_Z minutes + int_truediv seconds 60) * 6 - 90)%float.

(** [math.radians(seconds * 6 - 90)] *)
Definition second_angle (seconds : Z) : float :=
  radians (float_of_Z (seconds * 6 - 90)).

(** *** Pixbufs *)

Record Pixbuf : Type := {
  get_width : Z;
  get_height : Z;
  get_rowstride : Z;
  get_n_channels : Z;
  get_has_alpha : bool;
  get_pixels : list Z
}.

(** [pixels[i]]: [None] is the IndexError; a negative index counts from
    the end. *)
Definition getitem (pixels : list Z) (i : Z) : option Z :=
  let n := Z.of_nat (length pixels) in
  if i <? 0 then
    if 0 <=? n + i then pixels !! Z.to_nat (n + i) else None
  else pixels !! Z.to_nat i.

(** A coordinate is an [int] (a pixel found by the scan) or a [float]
    (half a dimension). *)
Inductive num : Type :=
| NInt (z : Z)
| NFloat (f : float).

Definition num_to_float (n : num) : float :=
  match n with
  | NInt z => float_of_Z z
  | NFloat f => f
  end.

(** [n > 0] *)
Definition num_positive (n : num) : bool :=
  match n with
  | NInt z => 0 <? z
  | NFloat f => (0 <? f)%float
  end.

(** The inner loop of [_find_red_pixel], for the [todo] columns from [x]
    on.  [Some (Some p)] returns [p], [Some None] falls out of the loop,
    [None] is an IndexError. *)
Fixpoint scan_row (pb : Pixbuf) (y x : Z) (todo : nat) : option (option (Z * Z)) :=
  match todo with
  | O => Some None
  | S n =>
      let pos := y * get_rowstride pb + x * get_n_channels pb in
      r ← getitem (get_pixels pb) pos;
      g ← getitem (get_pixels pb) (pos + 1);
      b ← getitem (get_pixels pb) (pos + 2);
      if (r =? 255) && (g =? 0) && (b =? 0) then
        if get_has_alpha pb then
          a ← getitem (get_pixels pb) (pos + 3);
          if a =? 255 then Some (Some (x, y)) else scan_row pb y (x + 1) n
        else Some (Some (x, y))
      else scan_row pb y (x + 1) n
  end.

(** The outer loop, for the [todo] rows from [y] on. *)
Fixpoint scan_rows (pb : Pixbuf) (y : Z) (todo : nat) : option (option (Z * Z)) :=
  match todo with
  | O => Some None
  | S n =>
      match scan_row pb y 0 (Z.to_nat (get_width pb)) with
      | Some None => scan_rows pb (y + 1) n
      | found_or_error => found_or_error
      end
  end.

Definition _find_red_pixel (pb : Pixbuf) : option (option (Z * Z)) :=
  scan_rows pb 0 (Z.to_nat (get_height pb)).

(** *** Surfaces *)

(** A pixel of an ARGB32 surface, kept unpremultiplied: its colour, as
    the channel values cairo was given, and its alpha from 0 to 255. *)
Record pixel : Type := {
  px_color : float * float * float;
  px_alpha : Z
}.

Record Surface : Type := {
  surface_width : Z;
  surface_height : Z;
  surface_rows : list (list pixel)
}.

Definition surface_at (s : Surface) (x y : Z) : option pixel :=
  if (x <? 0) || (y <? 0) then None
  else row ← surface_rows s !! Z.to_nat y; row !! Z.to_nat x.

(** The four bytes of the source pixel at [(x, y)], alpha read as 255
    when the pixbuf has no alpha channel. *)
Definition source_pixel (pb : Pixbuf) (x y : Z) : option (Z * Z * Z * Z) :=
  let pos := y * get_rowstride pb + x * get_n_channels pb in
  r ← getitem (get_pixels pb) pos;
  g ← getitem (get_pixels pb) (pos + 1);
  b ← getitem (get_pixels pb) (pos + 2);
  a ← (if get_has_alpha pb then getitem (get_pixels pb) (pos + 3) else Some 255);
  Some (r, g, b, a).

(** The alpha the pixbuf paints at [(x, y)]. *)
Definition source_alpha (pb : Pixbuf) (x y : Z) : Z :=
  match source_pixel pb x y with
  | Some (_, _, _, a) => a
  | None => 0
  end.

(** The two [paint] calls of the colorization pass: the pixbuf painted
    on a fresh surface, then the hand colour painted with IN, which keeps
    the alpha already there and replaces every colour by the source's. *)
Definition colorize (pb : Pixbuf) (color : float * float * float) : Surface :=
  {| surface_width := get_width pb;
     surface_height := get_height pb;
     surface_rows :=
       (fun y => (fun x => {| px_color := color; px_alpha := source_alpha pb x y |})
                   <$> seqZ 0 (get_width pb))
       <$> seqZ 0 (get_height pb) |}.

(** *** The cairo context *)

(** The calls made on the target context, in order. *)
Inductive cairo_op : Type :=
| save
| restore
| translate (tx ty : float)
| rotate (angle : float)
| scale (sx sy : float)
| set_source_rgba (r g b a : float)
| set_line_width (w : float)
| set_line_cap_round
| move_to (x y : float)
| line_to (x y : float)
| stroke
| set_source_surface (s : Surface) (x y : float)
| paint.

(** *** The hand image cache *)

(** [(image_path, tuple(hand_color))] *)
Definition cache_key : Type := string * list Value.

(** Two keys are the same dictionary key when the paths are equal and the
    colour tuples compare equal. *)
Definition key_eq (stored probe : cache_key) : bool :=
  bool_decide (stored.1 = probe.1) && py_eq (VTuple stored.2) (VTuple probe.2).

Definition pivot_point : Type := (num * num)%type.

(** [self._hand_image_cache], most recent entry first. *)
Definition cache : Type := list (cache_key * (Surface * pivot_point)).

Definition cache_lookup (c : cache) (k : cache_key) : option (Surface * pivot_point) :=
  snd <$> List.find (fun e => key_eq e.1 k) c.

Definition clear_hand_image_cache (c : cache) : cache := [].

(** [tuple(x)]: [None] is the TypeError of a value that cannot be
    iterated. *)
Definition to_tuple (v : Value) : option (list Value) :=
  match v with
  | VTuple l | VList l => Some l
  | VStr s => Some ((fun c => VStr (String c EmptyString)) <$> list_ascii_of_string s)
  | _ => None
  end.

(** Whether a value can be part of a dictionary key. *)
Fixpoint hashable (v : Value) : bool :=
  match v with
  | VList _ => false
  | VTuple l => forallb hashable l
  | _ => true
  end.

(** [x[i]] on a sequence. *)
Definition item (v : Value) (i : nat) : option Value :=
  l ← to_tuple v; l !! i.

(** The three channels handed to [set_source_rgba]. *)
Definition channels (color : Value) : option (float * float * float) :=
  r ← item color 0 ≫= as_float;
  g ← item color 1 ≫= as_float;
  b ← item color 2 ≫= as_float;
  Some (r, g, b).

(** [a / d] for a float [a]: [None] is the ZeroDivisionError, raised when
    the divisor is the int 0 or a float equal to 0.0. *)
Definition num_is_zero (d : num) : bool :=
  match d with
  | NInt z => z =? 0
  | NFloat f => (f =? 0)%float
  end.

Definition float_div (a : float) (d : num) : option float :=
  if num_is_zero d then None else Some (a / num_to_float d)%float.

(** [-n], handed to cairo as a double. *)
Definition num_neg (n : num) : float :=
  match n with
  | NInt z => float_of_Z (- z)
  | NFloat f => (- f)%float
  end.

(** The scale factors of an image hand: [(scale_x, scale_y)]. *)
Definition hand_scale (radius hand_length hand_width : float) (pivot_y : num)
  : option (float * float) :=
  let distance_to_top := pivot_y in
  let target_length := (radius * hand_length)%float in
  scale_y ← (if num_positive distance_to_top
             then float_div target_length distance_to_top
             else Some 1.0%float);
  let base_width_scale := scale_y in
  let scale_x := (base_width_scale * hand_width)%float in
  Some (scale_x, scale_y).

(** What one call of a hand-drawing method leaves behind: the cache, the
    calls made on the context, and how many colorization passes ran. *)
Record drawn : Type := {
  cache_after : cache;
  ops : list cairo_op;
  colorizations : nat
}.

Section Rendering.
(** [math.cos] and [math.sin] *)
Variables cos sin : float -> float.
(** [os.path.exists] for the hand assets *)
Variable path_exists : string -> bool.
(** [GdkPixbuf.Pixbuf.new_from_file]; [None] when it raises *)
Variable new_from_file : string -> option Pixbuf.
(** [self.get_user_hands_dir()] and the directory of [dsclock.py] *)
Variables user_hands_dir module_dir : string.

(** [resolve_hand_image_path]: [Some None] returns [None]; the outer
    [None] is an exception (a name that is not a string). *)
Definition resolve_hand_image_path (theme : Theme.t) (h : Theme.hand_type)
  : option (option string) :=
  source ← Theme.get (Theme.hand_name h +:+ "_hand_image_source") theme;
  name ← Theme.get (Theme.hand_name h +:+ "_hand_image_name") theme;
  if py_eq source (VStr "none") || negb (truthy name) then Some None
  else
    match name with
    | VStr n =>
        let hand_dir :=
          if py_eq source (VStr "user") then Os.join user_hands_dir n
          else Os.join (Os.join (Os.join module_dir "assets") "hands") n in
        let file := Theme.hand_name h +:+ ".png" in
        let processed_path := Os.join (Os.join hand_dir "processed") file in
        if path_exists processed_path then Some (Some processed_path)
        else
          let original_path := Os.join (Os.join hand_dir "original") file in
          if path_exists original_path then Some (Some original_path)
          else
            let legacy_path := Os.join hand_dir file in
            Some (if path_exists legacy_path then Some legacy_path else None)
    | _ => None
    end.

(** The colour of a hand: the second hand has its own, the other two
    share one. *)
Definition hand_color (theme : Theme.t) (h : Theme.hand_type) : option Value :=
  match h with
  | Theme.second => Theme.get "second_hand_color" theme
  | _ => Theme.get "hands_color" theme
  end.

(** The first half of [_draw_hand_image]: the coloured surface and the
    pivot for [(image_path, hand_color)], from the cache or built and
    cached.  The flag tells whether the colorization pass ran.  [None]
    is an exception; the cache is then as it was. *)
Definition hand_surface (c : cache) (image_path : string) (hand_color : Value)
  : option (cache * Surface * pivot_point * bool) :=
  key_color ← to_tuple hand_color;
  if negb (forallb hashable key_color) then None
  else
    let key := (image_path, key_color) in
    match cache_lookup c key with
    | Some (colored_surface, pivot) => Some (c, colored_surface, pivot, false)
    | None =>
        pixbuf ← new_from_file image_path;
        found ← _find_red_pixel pixbuf;
        let pivot :=
          match found with
          | Some (x, y) => (NInt x, NInt y)
          | None => (NFloat (int_truediv (get_width pixbuf) 2),
                     NFloat (int_truediv (get_height pixbuf) 2))
          end in
        rgb ← channels hand_color;
        let colored_surface := colorize pixbuf rgb in
        Some ((key, (colored_surface, pivot)) :: c, colored_surface, pivot, true)
    end.

(** The angle [_draw_hand_image] computes for its hand. *)
Definition image_angle (settings : PropertyBag.t) (h : Theme.hand_type)
    (hours minutes seconds : Z) : option float :=
  match h with
  | Theme.hour => Some (hour_angle hours minutes)
  | Theme.minute =>
      minute_hand_snap ← Settings.get "minute_hand_snap" VNone settings;
      Some (minute_angle (truthy minute_hand_snap) minutes seconds)
  | Theme.second => Some (second_angle seconds)
  end.

(** The second half of [_draw_hand_image]: angle, scale factors and the
    calls that paint the surface. *)
Definition hand_transform (theme : Theme.t) (settings : PropertyBag.t)
    (cx cy radius : float) (colored_surface : Surface) (pivot : pivot_point)
    (hours minutes : Z) (h : Theme.hand_type) (seconds : Z)
  : option (list cairo_op) :=
  let '(pivot_x, pivot_y) := pivot in
  angle ← image_angle settings h hours minutes seconds;
  hand_length ← Theme.get (Theme.hand_name h +:+ "_hand_length") theme;
  hand_width ← Theme.get (Theme.image_width_key h) theme;
  len ← as_float hand_length;
  width ← as_float hand_width;
  '(scale_x, scale_y) ← hand_scale radius len width pivot_y;
  Some [save;
        translate cx cy;
        rotate (angle + pi / 2)%float;
        scale scale_x scale_y;
        translate (num_neg pivot_x) (num_neg pivot_y);
        set_source_surface colored_surface 0 0;
        paint;
        restore].

(** [_draw_hand_image]: its [try] catches every exception, after which
    nothing more is done. *)
Definition _draw_hand_image (c : cache) (theme : Theme.t) (settings : PropertyBag.t)
    (cx cy radius : float) (image_path : string) (hours minutes : Z)
    (h : Theme.hand_type) (seconds : Z) : drawn :=
  match hand_color theme h ≫= hand_surface c image_path with
  | None => {| cache_after := c; ops := []; colorizations := 0 |}
  | Some (c', colored_surface, pivot, built) =>
      {| cache_after := c';
         ops := default [] (hand_transform theme settings cx cy radius
                              colored_surface pivot hours minutes h seconds);
         colorizations := if built : bool then 1%nat else 0%nat |}
  end.

(** The geometric stroke the three [draw_*_hand] methods share, up to
    the keys they read.  [None] is an exception, which nothing here
    catches. *)
Definition vector_hand (theme : Theme.t) (color_key : string) (h : Theme.hand_type)
    (cx cy radius angle : float) : option (list cairo_op) :=
  color ← Theme.get color_key theme;
  hand_length ← Theme.get (Theme.hand_name h +:+ "_hand_length") theme ≫= as_float;
  hand_tail ← Theme.get (Theme.hand_name h +:+ "_hand_tail") theme ≫= as_float;
  hand_width ← Theme.get (Theme.width_key h) theme ≫= as_float;
  let length := (radius * hand_length)%float in
  let tail_length := (radius * hand_tail)%float in
  let x_tip := (cx + length * cos angle)%float in
  let y_tip := (cy + length * sin angle)%float in
  let x_tail := (cx - tail_length * cos angle)%float in
  let y_tail := (cy - tail_length * sin angle)%float in
  '(r, g, b) ← channels color;
  Some [set_source_rgba r g b 0.9;
        set_line_width (radius * hand_width)%float;
        set_line_cap_round;
        move_to x_tail y_tail;
        line_to x_tip y_tip;
        stroke].

(** [if hand_image_path:] *)
Definition configured (path : option string) : option string :=
  match path with
  | Some p => if bool_decide (p = "") then None else Some p
  | None => None
  end.

Definition geometric (c : cache) (stroke_ops : option (list cairo_op)) : option drawn :=
  o ← stroke_ops; Some {| cache_after := c; ops := o; colorizations := 0 |}.

Definition draw_hour_hand (c : cache) (theme : Theme.t) (settings : PropertyBag.t)
    (cx cy radius : float) (hours minutes : Z) : option drawn :=
  hand_image_path ← resolve_hand_image_path theme Theme.hour;
  match configured hand_image_path with
  | Some path =>
      Some (_draw_hand_image c theme settings cx cy radius path hours minutes Theme.hour 0)
  | None =>
      geometric c (vector_hand theme "hands_color" Theme.hour cx cy radius
                     (hour_angle hours minutes))
  end.

Definition draw_minute_hand (c : cache) (theme : Theme.t) (settings : PropertyBag.t)
    (cx cy radius : float) (minutes seconds : Z) : option drawn :=
  hand_image_path ← resolve_hand_image_path theme Theme.minute;
  match configured hand_image_path with
  | Some path =>
      Some (_draw_hand_image c theme settings cx cy radius path 0 minutes Theme.minute seconds)
  | None =>
      minute_hand_snap ← Settings.get "minute_hand_snap" VNone settings;
      geometric c (vector_hand theme "hands_color" Theme.minute cx cy radius
                     (minute_angle (truthy minute_hand_snap) minutes seconds))
  end.

Definition draw_second_hand (c : cache) (theme : Theme.t) (settings : PropertyBag.t)
    (cx cy radius : float) (seconds : Z) : option drawn :=
  hand_image_path ← resolve_hand_image_path theme Theme.second;
  match configured hand_image_path with
  | Some path =>
      Some (_draw_hand_image c theme settings cx cy radius path 0 0 Theme.second seconds)
  | None =>
      geometric c (vector_hand theme "second_hand_color" Theme.second cx cy radius
                     (second_angle seconds))
  end.

End Rendering.

End Clock.

(** ** Concrete profiles and disks used below *)

Module Scenario.
Import Py.

#[local] Open Scope string_scope.

Definition empty_disk : Os.filesystem :=
  {| Os.files := ∅; Os.dirs := ∅; Os.write_errors := ∅ |}.

Definition themes_dir : string := "/home/user/.config/dsclock/themes".

(** A settings object kept in memory only, with one edited field. *)
Definition edited_settings : PropertyBag.t :=
  default (Settings.__init__ None) (Settings.set "width" (VInt 500) (Settings.__init__ None)).

(** Settings kept at a path under the configuration directory. *)
Definition stored_settings : PropertyBag.t :=
  Settings.__init__ (Some "/home/user/.config/dsclock/settings.json").

(** A theme other than the built-in one, still holding the defaults. *)
Definition night : Theme.t := Theme.__init__ "night" (Some themes_dir).

Definition night_path : string := "/home/user/.config/dsclock/themes/night.json".

(** A disk whose [night.json] sets one declared key and one key that no
    version of the program declares. *)
Definition disk_with_extra_key : Os.filesystem :=
  {| Os.files :=
       {[ night_path :=
            Os.Document (list_to_map [("rim_width", Json.JFloat 0.05);
                                      ("glow", Json.JInt 7)]) ]};
     Os.dirs := list_to_set (Os.lineage 64 themes_dir);
     Os.write_errors := ∅ |}.

(** A theme file written before the image-width keys existed. *)
Definition old_theme_doc : gmap string Json.t :=
  list_to_map [("hour_hand_width", Json.JFloat 0.08);
               ("minute_hand_width", Json.JFloat 0.05);
               ("second_hand_width", Json.JFloat 0.02)].

Definition disk_with_old_theme : Os.filesystem :=
  {| Os.files := {[ night_path := Os.Document old_theme_doc ]};
     Os.dirs := list_to_set (Os.lineage 64 themes_dir);
     Os.write_errors := ∅ |}.

Definition settings_path : string := "/home/user/.config/dsclock/settings.json".

(** A disk that already holds a readable [settings.json]. *)
Definition disk_with_settings : Os.filesystem :=
  {| Os.files :=
       {[ settings_path := Os.Document (list_to_map [("width", Json.JInt 640)]) ]};
     Os.dirs := list_to_set (Os.lineage 64 "/home/user/.config/dsclock");
     Os.write_errors := ∅ |}.

(** The stored settings after an edit that was not saved. *)
Definition edited_stored_settings : PropertyBag.t :=
  default stored_settings (Settings.set "width" (VInt 500) stored_settings).

(** A disk whose [settings.json] holds bytes that are not text. *)
Definition disk_with_garbled_settings : Os.filesystem :=
  {| Os.files := {[ settings_path := Os.Undecodable ]};
     Os.dirs := list_to_set (Os.lineage 64 "/home/user/.config/dsclock");
     Os.write_errors := ∅ |}.

(** A disk whose [settings.json] holds the JSON text [null]. *)
Definition disk_with_null_settings : Os.filesystem :=
  {| Os.files := {[ settings_path := Os.Atom ]};
     Os.dirs := list_to_set (Os.lineage 64 "/home/user/.config/dsclock");
     Os.write_errors := ∅ |}.

(** The disk with a readable [settings.json], now full: the file can be
    opened but not written. *)
Definition full_disk : Os.filesystem :=
  {| Os.files := Os.files disk_with_settings;
     Os.dirs := Os.dirs disk_with_settings;
     Os.write_errors := {[ settings_path ]} |}.

(** Where the program and the user's hand sets live. *)
Definition module_dir : string := "/opt/dsclock".
Definition user_hands_dir : string := "/home/user/.config/dsclock/hands".

(** The processed hour hand of the built-in hand set [classic]. *)
Definition hour_png : string := "/opt/dsclock/assets/hands/classic/processed/hour.png".

(** The four bytes of the pixel at [(x, y)] of the hand drawing below. *)
Definition marker_image_pixel (x y : Z) : list Z :=
  if ((x =? 10) && (y =? 40))%Z then [255; 0; 0; 255]
  else if ((x =? 10) && (y <? 40))%Z then [0; 0; 0; 255]
  else [0; 0; 0; 0].

(** A 20 x 50 RGBA drawing of a hand: an opaque black line up from the
    red marker pixel at [(10, 40)], everything else transparent. *)
Definition marker_image : Clock.Pixbuf :=
  {| Clock.get_width := 20;
     Clock.get_height := 50;
     Clock.get_rowstride := 80;
     Clock.get_n_channels := 4;
     Clock.get_has_alpha := true;
     Clock.get_pixels :=
       y ← seqZ 0 50; x ← seqZ 0 20; marker_image_pixel x y |}.

(** A disk on which only [hour_png] exists. *)
Definition only_hour_png (p : string) : bool := bool_decide (p = hour_png).

(** [hour_png] decodes to the drawing above. *)
Definition decodes (p : string) : option Clock.Pixbuf :=
  if bool_decide (p = hour_png) then Some marker_image else None.

(** [hour_png] exists but is not an image [GdkPixbuf] can decode. *)
Definition corrupt (p : string) : option Clock.Pixbuf := None.

(** [theme.set] for each pair in turn. *)
Definition with_values (t : Theme.t) (kvs : list (string * Value)) : Theme.t :=
  foldl (fun t kv => default t (Theme.set kv.1 kv.2 t)) t kvs.

(** [night] with the hour hand drawn from the hand set [classic], half a
    radius long and twice as wide as the drawing. *)
Definition image_theme : Theme.t :=
  with_values night
    [("hour_hand_image_source", VStr "builtin");
     ("hour_hand_image_name", VStr "classic");
     ("hour_hand_length", VFloat 0.5);
     ("hour_hand_image_width", VFloat 2.0)].

(** The same theme after the hands were made red in the colour picker. *)
Definition red_image_theme : Theme.t :=
  with_values image_theme [("hands_color", Theme.rgb 1.0 0.0 0.0)].

Definition settings : PropertyBag.t := Settings.__init__ None.

(** A disk with a complete hand set [classic] whose files are of the three
    generations: a processed hour hand, an original minute hand and a
    second hand in the old flat layout. *)
Definition mixed_set (p : string) : bool :=
  bool_decide (p ∈ ["/opt/dsclock/assets/hands/classic/processed/hour.png";
                    "/opt/dsclock/assets/hands/classic/original/minute.png";
                    "/opt/dsclock/assets/hands/classic/second.png"]).

End Scenario.

(** ** Vocabulary of the properties *)

Module Spec.
Import Py.

#[local] Open Scope string_scope.

(** Every stored field is found again in [after], with its tuples turned
    into lists; a field without tuples is found exactly as it was. *)
Definition reproduces (before after : gmap string Value) : Prop :=
  forall k v, before !! k = Some v ->
    after !! k = Some (Json.as_lists v)
    /\ (Json.tuple_free v = true -> after !! k = Some v).

(** [after] is the file laid over the defaults: every key of the file,
    declared or not, holds the file's value, and every other key is as in
    the defaults. *)
Definition overlays (doc : gmap string Json.t) (DEFAULTS after : gmap string Value) : Prop :=
  (forall k j, doc !! k = Some j -> after !! k = Some (Json.decode j))
  /\ (forall k, doc !! k = None -> after !! k = DEFAULTS !! k).

(** The angles of the three hands in degrees, as the specification
    writes them. *)
Definition hour_degrees (h m : Z) : float :=
  ((float_of_Z h + float_of_Z m / 60) * 30 - 90)%float.

Definition minute_degrees (snap : bool) (m s : Z) : float :=
  if snap then (float_of_Z m * 6 - 90)%float
  else ((float_of_Z m + float_of_Z s / 60) * 6 - 90)%float.

Definition second_degrees (s : Z) : float := (float_of_Z s * 6 - 90)%float.

(** The calls are a stroke along the direction [angle], measured from the
    positive x axis: from the point [tail_length] behind [(cx, cy)] to
    the point [length] ahead of it. *)
Definition is_stroke_at (cos sin : float -> float) (cx cy angle : float)
    (length tail_length : float) (o : list Clock.cairo_op) : Prop :=
  exists r g b w,
    o = [Clock.set_source_rgba r g b 0.9;
         Clock.set_line_width w;
         Clock.set_line_cap_round;
         Clock.move_to (cx - tail_length * cos angle) (cy - tail_length * sin angle);
         Clock.line_to (cx + length * cos angle) (cy + length * sin angle);
         Clock.stroke]%float.

(** The calls paint an upright image turned to the direction [angle]
    about [(cx, cy)], scaled by [(scale_x, scale_y)], with its [pivot] on
    [(cx, cy)]. *)
Definition is_image_at (cx cy angle : float) (scale_x scale_y : float)
    (pivot : Clock.pivot_point) (o : list Clock.cairo_op) : Prop :=
  exists surface,
    o = [Clock.save;
         Clock.translate cx cy;
         Clock.rotate (angle + Clock.pi / 2)%float;
         Clock.scale scale_x scale_y;
         Clock.translate (Clock.num_neg pivot.1) (Clock.num_neg pivot.2);
         Clock.set_source_surface surface 0 0;
         Clock.paint;
         Clock.restore].

(** What is drawn for the hand [h] of [theme] is drawn at [angle]: a
    stroke that reaches the theme's hand length times the radius ahead of
    the centre and its tail length times the radius behind it, or the
    hand's image, turned to [angle] about its pivot and scaled to the
    theme's hand length and image width. *)
Definition drawn_at (cos sin : float -> float) (theme : Theme.t) (h : Theme.hand_type)
    (cx cy radius angle : float) (o : list Clock.cairo_op) : Prop :=
  exists hand_length,
    Theme.get (Theme.hand_name h +:+ "_hand_length") theme ≫= as_float = Some hand_length
    /\ ((exists hand_tail,
           Theme.get (Theme.hand_name h +:+ "_hand_tail") theme ≫= as_float
           = Some hand_tail
           /\ is_stroke_at cos sin cx cy angle
                (radius * hand_length)%float (radius * hand_tail)%float o)
        \/ (exists hand_width pivot scale_x scale_y,
              Theme.get (Theme.image_width_key h) theme ≫= as_float = Some hand_width
              /\ Clock.hand_scale radius hand_length hand_width pivot.2
                 = Some (scale_x, scale_y)
              /\ is_image_at cx cy angle scale_x scale_y pivot o)).

End Spec.

(** ** Vocabulary of the pivot search *)

Module Marker.

#[local] Open Scope Z_scope.

(** The pixel at [(x, y)] is the marker: pure red and fully opaque. *)
Definition is_marker (pb : Clock.Pixbuf) (x y : Z) : Prop :=
  Clock.source_pixel pb x y = Some (255, 0, 0, 255).

(** [(x', y')] is read before [(x, y)] in a scan by rows. *)
Definition earlier (x' y' x y : Z) : Prop := y' < y \/ (y' = y /\ x' < x).

(** What the scan answers with [found], over an image [w] wide and [h]
    high: the first marker in reading order, or that there is none. *)
Definition first_marker (pb : Clock.Pixbuf) (found : option (Z * Z)) : Prop :=
  match found with
  | Some (x, y) =>
      0 <= x < Clock.get_width pb /\ 0 <= y < Clock.get_height pb
      /\ is_marker pb x y
      /\ forall x' y', 0 <= x' < Clock.get_width pb -> 0 <= y' < Clock.get_height pb ->
           earlier x' y' x y -> ~ is_marker pb x' y'
  | None =>
      forall x y, 0 <= x < Clock.get_width pb -> 0 <= y < Clock.get_height pb ->
        ~ is_marker pb x y
  end.

End Marker.

(** ** dialogs.py: the hand set picker *)

Module Dialogs.

#[local] Open Scope string_scope.

Section HandSets.
(** [os.path.exists] *)
Variable path_exists : string -> bool.

(** One turn of the loop of [_get_hand_set_paths]: the path stored for the
    hand, or [None] when the method gives up and returns [None]. *)
Definition hand_path (hand_dir : string) (h : Theme.hand_type) : option string :=
  let file := Theme.hand_name h +:+ ".png" in
  let processed_path := Os.join (Os.join hand_dir "processed") file in
  if path_exists processed_path then Some processed_path
  else
    let original_path := Os.join (Os.join hand_dir "original") file in
    if path_exists original_path then Some original_path
    else
      let legacy_path := Os.join hand_dir file in
      if path_exists legacy_path then Some legacy_path else None.

(** [_get_hand_set_paths]: the dictionary from hand type to path, or
    [None] for an incomplete set. *)
Definition _get_hand_set_paths (hand_dir : string) : option (gmap string string) :=
  paths ← foldl (fun acc h =>
                   paths ← acc;
                   p ← hand_path hand_dir h;
                   Some (<[Theme.hand_name h := p]> paths))
                (Some ∅) [Theme.hour; Theme.minute; Theme.second];
  if bool_decide (size paths = 3%nat) then Some paths else None.

End HandSets.

End Dialogs.

(** ** Where a hand set is kept *)

Module HandSet.

#[local] Open Scope string_scope.

(** The directory of the hand set [name]: under the user's hands
    directory for the source ['user'], under [assets/hands] of the
    program for any other source. *)
Definition hand_dir_of (user_hands_dir module_dir source name : string) : string :=
  if bool_decide (source = "user") then Os.join user_hands_dir name
  else Os.join (Os.join (Os.join module_dir "assets") "hands") name.

End HandSet.

(** ** Vocabulary of the store *)

Module Store.
Import Py.

(** Every declared key has a value in the store. *)
Definition complete (DEFAULTS : gmap string Value) (b : PropertyBag.t) : Prop :=
  forall k, is_Some (DEFAULTS !! k) -> is_Some (PropertyBag._properties b !! k).

End Store.

(** ** theme.py: the list of themes *)

Module ThemeList.

#[local] Open Scope string_scope.

(** [s.endswith(suffix)] *)
Definition endswith (s suffix : string) : bool :=
  bool_decide (list_ascii_of_string suffix `suffix_of` list_ascii_of_string s).

(** [s[:-k]] *)
Definition drop_last (k : nat) (s : string) : string :=
  let chars := list_ascii_of_string s in
  string_of_list_ascii (take (length chars - k) chars).

(** The order [sorted] puts strings in: character by character, by code. *)
Definition str_le (a b : string) : Prop := String.leb a b = true.

#[global] Instance str_le_dec a b : Decision (str_le a b).
Proof. unfold str_le. apply _. Defined.

(** [sorted(themes)] *)
Definition sorted (themes : list string) : list string := merge_sort str_le themes.

(** One turn of the loop over the directory listing. *)
Definition add_theme (themes : list string) (filename : string) : list string :=
  if endswith filename ".json" then
    let theme_name := drop_last 5 filename in
    if bool_decide (theme_name = "default") then themes else themes ++ [theme_name]
  else themes.

Section Disk.
(** [os.path.exists] and [os.listdir]; [None] is the OSError. *)
Variable path_exists : string -> bool.
Variable listdir : string -> option (list string).

Definition list_available_themes (themes_dir : option string) : list string :=
  let themes := ["default"] in
  match themes_dir with
  | None => themes
  | Some d =>
      if bool_decide (d = "") || negb (path_exists d) then themes
      else
        match listdir d with
        | Some filenames => sorted (foldl add_theme themes filenames)
        | None => sorted themes
        end
  end.

End Disk.

End ThemeList.

(** ** validate_hand_images.py *)

Module Validator.

#[local] Open Scope Z_scope.

(** A pixel as PIL hands it out: a tuple of three or of four channels. *)
Inductive pil_pixel : Type :=
| RGB (r g b : Z)
| RGBA (r g b a : Z).

(** An image with its pixel access object: [pixels[x, y]]. *)
Record Image : Type := {
  size : Z * Z;
  pixels : gmap (Z * Z) pil_pixel
}.

(** The channels of a pixel, alpha 255 for a tuple of three. *)
Definition channels (pixel : pil_pixel) : Z * Z * Z * Z :=
  match pixel with
  | RGB r g b => (r, g, b, 255)
  | RGBA r g b a => (r, g, b, a)
  end.

(** [r == 255 and g == 0 and b == 0 and a == 255] *)
Definition is_red (pixel : pil_pixel) : bool :=
  let '(r, g, b, a) := channels pixel in
  (r =? 255) && (g =? 0) && (b =? 0) && (a =? 255).

(** [find_red_pixel]: the coordinates of every red pixel, in the order
    the two loops meet them.  [None] is an IndexError. *)
Definition find_red_pixel (image : Image) : option (list (Z * Z)) :=
  let '(width, height) := size image in
  foldl (fun red_pixels y =>
           foldl (fun red_pixels x =>
                    found ← red_pixels;
                    pixel ← pixels image !! (x, y);
                    if is_red pixel then Some (found ++ [(x, y)]) else Some found)
                 red_pixels (seqZ 0 width))
        (Some []) (seqZ 0 height).

Definition is_black_pixel (r g b tolerance : Z) : bool :=
  (r <=? tolerance) && (g <=? tolerance) && (b <=? tolerance).

(** The body of the processing loop at [(x, y)], on the pixels as they
    are at that moment.  [None] is an exception: an index out of range,
    or a pixel that is not a tuple of four.  (The three counters of the
    loop are only printed and are left out.) *)
Definition process_pixel (tolerance : Z) (pixels : gmap (Z * Z) pil_pixel) (x y : Z)
  : option (gmap (Z * Z) pil_pixel) :=
  pixel ← pixels !! (x, y);
  match pixel with
  | RGBA r g b a =>
      if (r =? 255) && (g =? 0) && (b =? 0) && (a =? 255) then Some pixels
      else if is_black_pixel r g b tolerance then Some (<[(x, y) := RGBA 0 0 0 a]> pixels)
      else Some (<[(x, y) := RGBA 0 0 0 0]> pixels)
  | RGB _ _ _ => None
  end.

(** The processing loop of [process_image]. *)
Definition process_pixels (tolerance : Z) (img : Image) : option Image :=
  let '(width, height) := size img in
  after ← foldl (fun state y =>
                   foldl (fun state x => pixels ← state; process_pixel tolerance pixels x y)
                         state (seqZ 0 width))
                (Some (pixels img)) (seqZ 0 height);
  Some {| size := size img; pixels := after |}.

(** [process_image] from the search for the red pixel to the end of the
    loop, on the image converted to RGBA: the image that is then saved,
    or [None] when the function returns [False]. *)
Definition process_image (tolerance : Z) (img : Image) : option Image :=
  red_pixels ← find_red_pixel img;
  match red_pixels with
  | [] => None
  | [_] => process_pixels tolerance img
  | _ => None
  end.

(** What a pixel becomes in the loop. *)
Definition processed (tolerance : Z) (pixel : pil_pixel) : pil_pixel :=
  match pixel with
  | RGBA r g b a =>
      if (r =? 255) && (g =? 0) && (b =? 0) && (a =? 255) then pixel
      else if is_black_pixel r g b tolerance then RGBA 0 0 0 a
      else RGBA 0 0 0 0
  | RGB _ _ _ => pixel
  end.

(** Whether the pixel at a coordinate is there and red. *)
Definition red_at (pixels : gmap (Z * Z) pil_pixel) (c : Z * Z) : bool :=
  from_option is_red false (pixels !! c).

(** The coordinates of an image in the order the loops visit them. *)
Definition reading_order (width height : Z) : list (Z * Z) :=
  y ← seqZ 0 height; x ← seqZ 0 width; [(x, y)].

(** The pixel access object has an RGBA pixel at every coordinate of the
    image. *)
Definition is_rgba (img : Image) : Prop :=
  forall x y, 0 <= x < (size img).1 -> 0 <= y < (size img).2 ->
    exists r g b a, pixels img !! (x, y) = Some (RGBA r g b a).

End Validator.
(** ** A hand image for the validator *)

Module ValidatorScenario.

#[local] Open Scope Z_scope.

(** Two by two: the marker, a near-black pixel, a light pixel and a
    transparent one. *)
Definition hand_image : Validator.Image :=
  {| Validator.size := (2, 2);
     Validator.pixels :=
       list_to_map [((0, 0), Validator.RGBA 255 0 0 255);
                    ((1, 0), Validator.RGBA 10 20 30 200);
                    ((0, 1), Validator.RGBA 200 200 200 255);
                    ((1, 1), Validator.RGBA 0 0 0 0)] |}.

(** What the validator saves for it at the default tolerance. *)
Definition hand_image_processed : Validator.Image :=
  {| Validator.size := (2, 2);
     Validator.pixels :=
       list_to_map [((0, 0), Validator.RGBA 255 0 0 255);
                    ((1, 0), Validator.RGBA 0 0 0 200);
                    ((0, 1), Validator.RGBA 0 0 0 0);
                    ((1, 1), Validator.RGBA 0 0 0 0)] |}.

End ValidatorScenario.

(** * Properties *)

(** ** JSON round trip of a single value *)

Module JsonFacts.
Import Py.

Lemma decode_encode (v : Value) : Json.decode (Json.encode v) = Json.as_lists v.
Proof.
  induction v as [ | | | | | l IH | l IH ] using Value_nested_ind;
    simpl; try reflexivity.
  all: f_equal; rewrite <- list_fmap_compose; apply Forall_fmap_ext_1;
    exact IH.
Qed.

Lemma as_lists_tuple_free (v : Value) : Json.tuple_free v = true -> Json.as_lists v = v.
Proof.
  induction v as [ | | | | | l IH | l IH ] using Value_nested_ind;
    simpl; intros Hfree; try reflexivity; try discriminate.
  f_equal. rewrite <- (list_fmap_id l) at 2.
  apply Forall_fmap_ext_1.
  rewrite forallb_forall in Hfree.
  rewrite Forall_forall in IH |- *.
  intros x Hx. apply IH; [exact Hx | ].
  apply Hfree. apply list_elem_of_In. exact Hx.
Qed.

Lemma decode_encode_map (m : gmap string Value) :
  Json.decode <$> (Json.encode <$> m) = Json.as_lists <$> m.
Proof.
  rewrite <- map_fmap_compose. apply map_fmap_ext.
  intros k v _. apply decode_encode.
Qed.

End JsonFacts.

(** ** The property bag *)

Module PropertyBagFacts.
Import Py.

#[local] Open Scope string_scope.

Section Class.
Variable DEFAULTS : gmap string Value.

Lemma set_unchanged k v b :
  is_Some (DEFAULTS !! k) ->
  py_eq (PropertyBag.stored b k) v = true ->
  PropertyBag.set DEFAULTS k v b = Some b.
Proof.
  intros [d Hd] Heq. unfold PropertyBag.set, py_ne.
  rewrite Hd, Heq. reflexivity.
Qed.

Lemma set_changed k v b :
  is_Some (DEFAULTS !! k) ->
  py_eq (PropertyBag.stored b k) v = false ->
  exists b', PropertyBag.set DEFAULTS k v b = Some b'
             /\ PropertyBag._dirty b' = true
             /\ PropertyBag._properties b' !! k = Some v
             /\ PropertyBag.file_path b' = PropertyBag.file_path b.
Proof.
  intros [d Hd] Hne. unfold PropertyBag.set, py_ne.
  rewrite Hd, Hne. simpl. eexists. split; [reflexivity | ].
  simpl. rewrite lookup_insert_eq. auto.
Qed.

Lemma load_returned_clean fs b r :
  (PropertyBag.load DEFAULTS fs b).2 = Some r ->
  PropertyBag._dirty (PropertyBag.load DEFAULTS fs b).1 = false.
Proof.
  unfold PropertyBag.load.
  destruct (PropertyBag.file_path b) as [p | ]; [ | reflexivity].
  destruct (bool_decide (p = "") || negb (Os.path_exists fs p)); [reflexivity | ].
  destruct (Os.json_load p fs) as [loaded | | [ | c s] | | ];
    cbn [fst snd]; try reflexivity; discriminate.
Qed.

Lemma load_raised_dirty fs b :
  (PropertyBag.load DEFAULTS fs b).2 = None ->
  PropertyBag._dirty (PropertyBag.load DEFAULTS fs b).1 = PropertyBag._dirty b.
Proof.
  unfold PropertyBag.load.
  destruct (PropertyBag.file_path b) as [p | ]; [ | discriminate].
  destruct (bool_decide (p = "") || negb (Os.path_exists fs p)); [discriminate | ].
  destruct (Os.json_load p fs) as [loaded | | [ | c s] | | ];
    cbn [fst snd]; try reflexivity; discriminate.
Qed.

Lemma save_failed fs b :
  (PropertyBag.save fs b).2 = false -> (PropertyBag.save fs b).1.2 = b.
Proof.
  unfold PropertyBag.save.
  destruct (PropertyBag.file_path b) as [p | ]; [ | reflexivity].
  destruct (bool_decide (p = "")); [reflexivity | ].
  destruct (Os.makedirs (Os.dirname p) fs) as [fs1 | ]; [ | reflexivity].
  destruct (Os.open_w p fs1) as [fs2 | ]; [ | reflexivity].
  destruct (bool_decide (p ∈ Os.write_errors fs2)); [reflexivity | ].
  simpl. discriminate.
Qed.

Lemma save_succeeded fs b :
  (PropertyBag.save fs b).2 = true ->
  PropertyBag._dirty (PropertyBag.save fs b).1.2 = false
  /\ PropertyBag._properties (PropertyBag.save fs b).1.2 = PropertyBag._properties b.
Proof.
  unfold PropertyBag.save.
  destruct (PropertyBag.file_path b) as [p | ]; [ | discriminate].
  destruct (bool_decide (p = "")); [discriminate | ].
  destruct (Os.makedirs (Os.dirname p) fs) as [fs1 | ]; [ | discriminate].
  destruct (Os.open_w p fs1) as [fs2 | ]; [ | discriminate].
  destruct (bool_decide (p ∈ Os.write_errors fs2)); [discriminate | ].
  simpl. auto.
Qed.

Lemma save_without_path fs b :
  PropertyBag.no_path b = true -> PropertyBag.save fs b = (fs, b, false).
Proof.
  unfold PropertyBag.no_path, PropertyBag.save.
  destruct (PropertyBag.file_path b) as [p | ]; [ | reflexivity].
  intros ->. reflexivity.
Qed.

End Class.

Lemma theme_load_returned_clean fs t r :
  (Theme.load fs t).2 = Some r ->
  PropertyBag._dirty (Theme.bag (Theme.load fs t).1) = false.
Proof.
  unfold Theme.load.
  destruct (bool_decide (Theme.name t = "default")); [reflexivity | ].
  destruct (PropertyBag.file_path (Theme.bag t)) as [p | ]; [ | reflexivity].
  destruct (bool_decide (p = "") || negb (Os.path_exists fs p)); [reflexivity | ].
  destruct (Os.json_load p fs) as [loaded | | [ | c s] | | ];
    cbn [fst snd]; try reflexivity; discriminate.
Qed.

Lemma theme_load_raised_dirty fs t :
  (Theme.load fs t).2 = None ->
  PropertyBag._dirty (Theme.bag (Theme.load fs t).1) = PropertyBag._dirty (Theme.bag t).
Proof.
  unfold Theme.load.
  destruct (bool_decide (Theme.name t = "default")); [discriminate | ].
  destruct (PropertyBag.file_path (Theme.bag t)) as [p | ]; [ | discriminate].
  destruct (bool_decide (p = "") || negb (Os.path_exists fs p)); [discriminate | ].
  destruct (Os.json_load p fs) as [loaded | | [ | c s] | | ];
    cbn [fst snd]; try reflexivity; discriminate.
Qed.

(** C1, as the code has it.  For a declared key [k]: [set] leaves the
    object as it was when the stored value equals the new one under [==],
    and otherwise (for a new value that equals itself, so that no NaN is
    in it) stores the value and marks the object dirty.  A [load] that
    returns, [True] or [False], leaves the object clean, and a [load]
    that raises leaves the dirty flag as it was; so do [Theme.load]'s.  A
    [save] that returns [True] leaves the object clean and a [save] that
    returns [False] leaves the object, its dirty flag included, as it
    was. *)
Theorem dirty_flag_transitions (DEFAULTS : gmap string Value)
    (b : PropertyBag.t) (k : string) (v : Value) (fs : Os.filesystem) (t : Theme.t) :
  is_Some (DEFAULTS !! k) ->
  (py_eq (PropertyBag.stored b k) v = true ->
     PropertyBag.set DEFAULTS k v b = Some b)
  /\ (py_eq (PropertyBag.stored b k) v = false -> py_eq v v = true ->
        exists b', PropertyBag.set DEFAULTS k v b = Some b'
                   /\ PropertyBag._dirty b' = true
                   /\ PropertyBag._properties b' !! k = Some v)
  /\ (forall r, (PropertyBag.load DEFAULTS fs b).2 = Some r ->
        PropertyBag._dirty (PropertyBag.load DEFAULTS fs b).1 = false)
  /\ ((PropertyBag.load DEFAULTS fs b).2 = None ->
        PropertyBag._dirty (PropertyBag.load DEFAULTS fs b).1 = PropertyBag._dirty b)
  /\ (forall r, (Theme.load fs t).2 = Some r ->
        PropertyBag._dirty (Theme.bag (Theme.load fs t).1) = false)
  /\ ((Theme.load fs t).2 = None ->
        PropertyBag._dirty (Theme.bag (Theme.load fs t).1)
        = PropertyBag._dirty (Theme.bag t))
  /\ ((PropertyBag.save fs b).2 = true ->
        PropertyBag._dirty (PropertyBag.save fs b).1.2 = false)
  /\ ((PropertyBag.save fs b).2 = false -> (PropertyBag.save fs b).1.2 = b).
Proof.
  intros Hk.
  split; [apply set_unchanged, Hk | ].
  split.
  { intros Hne _. destruct (set_changed DEFAULTS k v b Hk Hne) as (b' & ? & ? & ? & _).
    eauto. }
  split; [intros r; apply load_returned_clean | ].
  split; [apply load_raised_dirty | ].
  split; [intros r; apply theme_load_returned_clean | ].
  split; [apply theme_load_raised_dirty | ].
  split; [intros Hok; apply (save_succeeded fs b Hok) | apply save_failed].
Qed.

(** The transitions at settings whose width was edited to 500 and not
    saved: setting 500 again, setting 400, loading with no file to read
    (which returns [False]), loading a file that is not text and a file
    that holds [null] (which both raise), saving over the file on disk,
    and saving on a full disk. *)
Lemma dirty_flag_transitions_witness :
  PropertyBag.set Settings.DEFAULTS "width" (VInt 500) Scenario.edited_stored_settings
  = Some Scenario.edited_stored_settings
  /\ (exists b', PropertyBag.set Settings.DEFAULTS "width" (VInt 400)
                   Scenario.edited_stored_settings = Some b'
                 /\ PropertyBag._dirty b' = true
                 /\ PropertyBag._properties b' !! "width" = Some (VInt 400))
  /\ PropertyBag._dirty
       (PropertyBag.load Settings.DEFAULTS Scenario.empty_disk
          Scenario.edited_stored_settings).1 = false
  /\ PropertyBag._dirty
       (PropertyBag.load Settings.DEFAULTS Scenario.disk_with_garbled_settings
          Scenario.edited_stored_settings).1 = true
  /\ PropertyBag._dirty
       (PropertyBag.load Settings.DEFAULTS Scenario.disk_with_null_settings
          Scenario.edited_stored_settings).1 = true
  /\ PropertyBag._dirty
       (PropertyBag.save Scenario.disk_with_settings Scenario.edited_stored_settings).1.2
     = false
  /\ (PropertyBag.save Scenario.full_disk Scenario.edited_stored_settings).1.2
     = Scenario.edited_stored_settings.
Proof.
  assert (Hk : is_Some (Settings.DEFAULTS !! "width")) by (vm_compute; eauto).
  split.
  { apply (dirty_flag_transitions Settings.DEFAULTS Scenario.edited_stored_settings
             "width" (VInt 500) Scenario.empty_disk Scenario.night Hk).
    reflexivity. }
  split.
  { apply (dirty_flag_transitions Settings.DEFAULTS Scenario.edited_stored_settings
             "width" (VInt 400) Scenario.empty_disk Scenario.night Hk); reflexivity. }
  split.
  { apply (dirty_flag_transitions Settings.DEFAULTS Scenario.edited_stored_settings
             "width" (VInt 400) Scenario.empty_disk Scenario.night Hk) with (r := false).
    reflexivity. }
  split.
  { destruct (dirty_flag_transitions Settings.DEFAULTS Scenario.edited_stored_settings
                "width" (VInt 400) Scenario.disk_with_garbled_settings Scenario.night Hk)
      as (_ & _ & _ & Hraised & _).
    rewrite Hraised; reflexivity. }
  split.
  { destruct (dirty_flag_transitions Settings.DEFAULTS Scenario.edited_stored_settings
                "width" (VInt 400) Scenario.disk_with_null_settings Scenario.night Hk)
      as (_ & _ & _ & Hraised & _).
    rewrite Hraised; reflexivity. }
  split.
  { apply (dirty_flag_transitions Settings.DEFAULTS Scenario.edited_stored_settings
             "width" (VInt 400) Scenario.disk_with_settings Scenario.night Hk).
    vm_compute. reflexivity. }
  apply (dirty_flag_transitions Settings.DEFAULTS Scenario.edited_stored_settings
           "width" (VInt 400) Scenario.full_disk Scenario.night Hk).
  vm_compute. reflexivity.
Defined.

(** C1 as stated fails: a [load] that returns [False] still clears the
    dirty flag.  The edited in-memory settings are dirty, have no file to
    load, and are clean afterwards. *)
Lemma failed_load_clears_dirty :
  ~ (forall (DEFAULTS : gmap string Value) (fs : Os.filesystem) (b : PropertyBag.t),
       (PropertyBag.load DEFAULTS fs b).2 = Some false ->
       PropertyBag._dirty b = true ->
       PropertyBag._dirty (PropertyBag.load DEFAULTS fs b).1 = true).
Proof.
  intros Hclaim.
  specialize (Hclaim Settings.DEFAULTS Scenario.empty_disk Scenario.edited_settings
                eq_refl eq_refl).
  discriminate Hclaim.
Qed.

End PropertyBagFacts.

(** ** The disk *)

Module OsFacts.

#[local] Open Scope string_scope.

Lemma read_json_exists p fs doc :
  Os.read_json p fs = Some doc ->
  Os.path_exists fs p = true /\ Os.files fs !! p = Some (Os.Document doc) /\ p ∉ Os.dirs fs.
Proof.
  unfold Os.read_json, Os.path_exists. intros Hread.
  case_bool_decide as Hdir; [discriminate | ].
  destruct (Os.files fs !! p) as [[ | doc' | | | s] | ] eqn:Hfile; try discriminate.
  injection Hread as ->. split; [ | split; [reflexivity | exact Hdir]].
  apply orb_true_iff. left. apply bool_decide_eq_true. eauto.
Qed.

(** A file that holds an object loads as a dict. *)
Lemma read_json_loaded p fs doc :
  Os.read_json p fs = Some doc -> Os.json_load p fs = Os.Dict doc.
Proof.
  unfold Os.read_json, Os.json_load.
  destruct (bool_decide (p ∈ Os.dirs fs)); [discriminate | ].
  destruct (Os.files fs !! p) as [[ | doc' | | | s] | ]; try discriminate.
  intros [= ->]. reflexivity.
Qed.

Lemma lineage_head n d : d <> "" -> d ∈ Os.lineage (S n) d.
Proof.
  intros Hd. simpl. rewrite bool_decide_eq_false_2 by exact Hd.
  case_bool_decide; set_solver.
Qed.

Lemma makedirs_dirs d fs fs1 :
  Os.makedirs d fs = Some fs1 ->
  Os.files fs1 = Os.files fs
  /\ Os.dirs fs1 = Os.dirs fs ∪ list_to_set (Os.lineage (S (String.length d)) d)
  /\ d ∈ Os.dirs fs1.
Proof.
  unfold Os.makedirs. case_bool_decide as Hd; [discriminate | ].
  destruct (existsb _ _); [discriminate | ].
  intros [= <-]. simpl. split; [reflexivity | split; [reflexivity | ]].
  apply elem_of_union_r, elem_of_list_to_set, lineage_head, Hd.
Qed.

Lemma open_w_files p fs1 fs2 :
  Os.open_w p fs1 = Some fs2 ->
  Os.files fs2 = <[p := Os.Unparsable]> (Os.files fs1)
  /\ Os.dirs fs2 = Os.dirs fs1
  /\ p ∉ Os.dirs fs1.
Proof.
  unfold Os.open_w. case_bool_decide as Hdir; [discriminate | ].
  destruct (negb _ && negb _); [discriminate | ].
  intros [= <-]. simpl. auto.
Qed.

End OsFacts.

(** ** Saving and loading *)

Module Persistence.
Import Py.

#[local] Open Scope string_scope.

Lemma encode_decode (j : Json.t) : Json.encode (Json.decode j) = j.
Proof.
  induction j as [ | | | | | l IH ] using Json.nested_ind; simpl; try reflexivity.
  f_equal. rewrite <- list_fmap_compose. rewrite <- (list_fmap_id l) at 2.
  apply Forall_fmap_ext_1. exact IH.
Qed.

(** What a [save] that returned [True] did. *)
Lemma save_ok fs b :
  (PropertyBag.save fs b).2 = true ->
  exists p fs1 fs2,
    PropertyBag.file_path b = Some p /\ p <> ""
    /\ Os.makedirs (Os.dirname p) fs = Some fs1
    /\ Os.open_w p fs1 = Some fs2
    /\ PropertyBag.save fs b
       = (Os.dumped p (Json.encode <$> PropertyBag._properties b) fs2,
          {| PropertyBag.file_path := PropertyBag.file_path b;
             PropertyBag._properties := PropertyBag._properties b;
             PropertyBag._dirty := false |},
          true).
Proof.
  unfold PropertyBag.save.
  destruct (PropertyBag.file_path b) as [p | ]; [ | discriminate].
  case_bool_decide as Hp; [discriminate | ].
  destruct (Os.makedirs (Os.dirname p) fs) as [fs1 | ] eqn:Hmk; [ | discriminate].
  destruct (Os.open_w p fs1) as [fs2 | ] eqn:Hopen; [ | discriminate].
  destruct (bool_decide (p ∈ Os.write_errors fs2)); [discriminate | ].
  intros _. exists p, fs1, fs2. auto.
Qed.

(** The file a successful [save] leaves can be read back. *)
Lemma saved_file_readable fs b p :
  (PropertyBag.save fs b).2 = true ->
  PropertyBag.file_path b = Some p ->
  Os.read_json p (PropertyBag.save fs b).1.1
  = Some (Json.encode <$> PropertyBag._properties b).
Proof.
  intros Hok Hpath.
  destruct (save_ok fs b Hok) as (p' & fs1 & fs2 & Hp' & _ & _ & Hopen & ->).
  rewrite Hpath in Hp'. injection Hp' as <-.
  destruct (OsFacts.open_w_files p fs1 fs2 Hopen) as (_ & Hdirs & Hnodir).
  unfold Os.read_json, Os.dumped. simpl.
  rewrite Hdirs, bool_decide_eq_false_2 by exact Hnodir.
  rewrite lookup_insert_eq. reflexivity.
Qed.

(** [PropertyBag.load] on a file that parses. *)
Lemma load_parsed DEFAULTS fs b p doc :
  PropertyBag.file_path b = Some p -> p <> "" ->
  Os.read_json p fs = Some doc ->
  PropertyBag.load DEFAULTS fs b
  = ({| PropertyBag.file_path := Some p;
        PropertyBag._properties := (Json.decode <$> doc) ∪ DEFAULTS;
        PropertyBag._dirty := false |}, Some true).
Proof.
  intros Hpath Hp Hread. unfold PropertyBag.load. rewrite Hpath.
  destruct (OsFacts.read_json_exists p fs doc Hread) as (Hex & _).
  rewrite Hex, bool_decide_eq_false_2 by exact Hp. simpl.
  rewrite (OsFacts.read_json_loaded p fs doc Hread). reflexivity.
Qed.

(** The migration loop leaves alone every key the file has. *)
Lemma migrate_present (loaded props : gmap string Value) k :
  is_Some (loaded !! k) -> Theme.migrate loaded props !! k = props !! k.
Proof.
  intros [x Hx]. unfold Theme.migrate. simpl.
  assert (Hstep : forall h m,
             Theme.migrate_hand loaded m h !! k = m !! k).
  { intros h m. unfold Theme.migrate_hand.
    destruct (loaded !! Theme.image_width_key h) eqn:Hh; [reflexivity | ].
    apply lookup_insert_ne. congruence. }
  rewrite !Hstep. reflexivity.
Qed.

(** For a key the file lacks, the migration loop yields the built-in
    default: it only ever writes 1.0 under the three image-width keys,
    whose defaults are 1.0. *)
Lemma migrate_absent (loaded : gmap string Value) k :
  loaded !! k = None ->
  Theme.migrate loaded (loaded ∪ Theme.DEFAULTS) !! k = Theme.DEFAULTS !! k.
Proof.
  intros Hk.
  assert (Hstep : forall h m,
             m !! k = Theme.DEFAULTS !! k ->
             Theme.migrate_hand loaded m h !! k = Theme.DEFAULTS !! k).
  { intros h m Hm. unfold Theme.migrate_hand.
    destruct (loaded !! Theme.image_width_key h) eqn:Hh; [exact Hm | ].
    destruct (decide (Theme.image_width_key h = k)) as [<- | Hne].
    - rewrite lookup_insert_eq. destruct h; reflexivity.
    - rewrite lookup_insert_ne by exact Hne. exact Hm. }
  unfold Theme.migrate. simpl. do 3 apply Hstep.
  rewrite lookup_union_r by exact Hk. reflexivity.
Qed.

(** [Theme.load] on a file that parses. *)
Lemma theme_load_parsed fs t p doc :
  Theme.name t <> "default" ->
  PropertyBag.file_path (Theme.bag t) = Some p -> p <> "" ->
  Os.read_json p fs = Some doc ->
  Theme.load fs t
  = (Theme.with_bag t
       {| PropertyBag.file_path := Some p;
          PropertyBag._properties :=
            Theme.migrate (Json.decode <$> doc) ((Json.decode <$> doc) ∪ Theme.DEFAULTS);
          PropertyBag._dirty := false |}, Some true).
Proof.
  intros Hname Hpath Hp Hread. unfold Theme.load.
  rewrite bool_decide_eq_false_2 by exact Hname. rewrite Hpath.
  destruct (OsFacts.read_json_exists p fs doc Hread) as (Hex & _).
  rewrite Hex, bool_decide_eq_false_2 by exact Hp. simpl.
  rewrite (OsFacts.read_json_loaded p fs doc Hread). reflexivity.
Qed.

Lemma reproduces_overlay (m D : gmap string Value) :
  Spec.reproduces m ((Json.decode <$> (Json.encode <$> m)) ∪ D).
Proof.
  intros k v Hk. rewrite JsonFacts.decode_encode_map.
  assert (Hget : ((Json.as_lists <$> m) ∪ D) !! k = Some (Json.as_lists v)).
  { apply lookup_union_Some_l. rewrite lookup_fmap, Hk. reflexivity. }
  split; [exact Hget | ].
  intros Hfree. rewrite Hget, (JsonFacts.as_lists_tuple_free v Hfree). reflexivity.
Qed.

(** C2, as the code has it.  After a [save] that returned [True], [load]
    on the same path (the base class's, and [Theme.load] for a theme that
    is not the built-in one) returns [True] and finds every stored field
    again, none left out: a field whose value holds no tuple is exactly
    what it was, and a tuple has become a list of the same elements. *)
Theorem save_then_load (DEFAULTS : gmap string Value) (fs : Os.filesystem)
    (b : PropertyBag.t) (name : string) (dir : option string) :
  (PropertyBag.save fs b).2 = true ->
  let fs' := (PropertyBag.save fs b).1.1 in
  let b' := (PropertyBag.save fs b).1.2 in
  let t' := {| Theme.name := name; Theme.themes_dir := dir; Theme.bag := b' |} in
  ((PropertyBag.load DEFAULTS fs' b').2 = Some true
   /\ Spec.reproduces (PropertyBag._properties b)
        (PropertyBag._properties (PropertyBag.load DEFAULTS fs' b').1))
  /\ (name <> "default" ->
      (Theme.load fs' t').2 = Some true
      /\ Spec.reproduces (PropertyBag._properties b)
           (PropertyBag._properties (Theme.bag (Theme.load fs' t').1))).
Proof.
  intros Hok fs' b' t'.
  destruct (save_ok fs b Hok) as (p & fs1 & fs2 & Hpath & Hp & _ & _ & Hsave).
  pose proof (saved_file_readable fs b p Hok Hpath) as Hread.
  assert (Hpath' : PropertyBag.file_path b' = Some p).
  { subst b'. rewrite Hsave. simpl. exact Hpath. }
  fold fs' in Hread. split.
  - rewrite (load_parsed DEFAULTS fs' b' p _ Hpath' Hp Hread). simpl.
    split; [reflexivity | apply reproduces_overlay].
  - intros Hname.
    rewrite (theme_load_parsed fs' t' p _ Hname Hpath' Hp Hread). simpl.
    split; [reflexivity | ].
    intros k v Hk.
    rewrite migrate_present.
    + apply reproduces_overlay, Hk.
    + rewrite !lookup_fmap, Hk. simpl. eauto.
Qed.

(** The round trip of the theme [night], saved on an empty disk. *)
Lemma save_then_load_witness :
  let fs' := (PropertyBag.save Scenario.empty_disk (Theme.bag Scenario.night)).1.1 in
  let b' := (PropertyBag.save Scenario.empty_disk (Theme.bag Scenario.night)).1.2 in
  let t' := {| Theme.name := "night"; Theme.themes_dir := Some Scenario.themes_dir;
               Theme.bag := b' |} in
  ((PropertyBag.load Theme.DEFAULTS fs' b').2 = Some true
   /\ Spec.reproduces (PropertyBag._properties (Theme.bag Scenario.night))
        (PropertyBag._properties (PropertyBag.load Theme.DEFAULTS fs' b').1))
  /\ ("night" <> "default" ->
      (Theme.load fs' t').2 = Some true
      /\ Spec.reproduces (PropertyBag._properties (Theme.bag Scenario.night))
           (PropertyBag._properties (Theme.bag (Theme.load fs' t').1))).
Proof.
  apply (save_then_load Theme.DEFAULTS Scenario.empty_disk (Theme.bag Scenario.night)
           "night" (Some Scenario.themes_dir)).
  vm_compute. reflexivity.
Defined.

(** C2 as stated fails: the background colour of [night] is the tuple
    [(1.0, 1.0, 1.0)] before it is saved and the list [[1.0, 1.0, 1.0]]
    after it is loaded again. *)
Lemma saved_tuple_comes_back_as_list :
  ~ (forall (fs : Os.filesystem) (t : Theme.t) (k : string),
       (Theme.save fs t).2 = true ->
       Theme.get k (Theme.load (Theme.save fs t).1.1 (Theme.save fs t).1.2).1
       = Theme.get k t).
Proof.
  intros Hclaim.
  specialize (Hclaim Scenario.empty_disk Scenario.night "background_color" eq_refl).
  vm_compute in Hclaim. discriminate Hclaim.
Qed.

(** C3, as the code has it.  When the file parses, [load] (the base
    class's, and [Theme.load] for a theme other than the built-in one)
    lays the file over the defaults: every key of the file enters the
    value map, declared or not, and every key the file lacks has its
    default.  An undeclared key cannot be read or written through [get]
    and [set], and a later [save] that returns [True] writes it back with
    the value the file had. *)
Theorem load_overlays_file (DEFAULTS : gmap string Value) (fs : Os.filesystem)
    (b : PropertyBag.t) (name : string) (dir : option string)
    (p : string) (doc : gmap string Json.t) :
  PropertyBag.file_path b = Some p -> p <> "" ->
  Os.read_json p fs = Some doc ->
  let b' := (PropertyBag.load DEFAULTS fs b).1 in
  let t := {| Theme.name := name; Theme.themes_dir := dir; Theme.bag := b |} in
  Spec.overlays doc DEFAULTS (PropertyBag._properties b')
  /\ (name <> "default" ->
      Spec.overlays doc Theme.DEFAULTS
        (PropertyBag._properties (Theme.bag (Theme.load fs t).1)))
  /\ (forall k v, DEFAULTS !! k = None ->
        PropertyBag.get DEFAULTS k VNone b' = None
        /\ PropertyBag.set DEFAULTS k v b' = None)
  /\ (forall fs0, (PropertyBag.save fs0 b').2 = true ->
        exists doc',
          Os.read_json p (PropertyBag.save fs0 b').1.1 = Some doc'
          /\ forall k j, doc !! k = Some j -> doc' !! k = Some j).
Proof.
  intros Hpath Hp Hread b' t.
  subst b'. rewrite (load_parsed DEFAULTS fs b p doc Hpath Hp Hread). simpl.
  assert (Hover : Spec.overlays doc DEFAULTS ((Json.decode <$> doc) ∪ DEFAULTS)).
  { split.
    - intros k j Hk. apply lookup_union_Some_l. rewrite lookup_fmap, Hk. reflexivity.
    - intros k Hk. apply lookup_union_r. rewrite lookup_fmap, Hk. reflexivity. }
  split; [exact Hover | ]. split; [ | split].
  - intros Hname.
    rewrite (theme_load_parsed fs t p doc Hname Hpath Hp Hread). simpl. split.
    + intros k j Hk. rewrite migrate_present.
      * apply lookup_union_Some_l. rewrite lookup_fmap, Hk. reflexivity.
      * rewrite lookup_fmap, Hk. simpl. eauto.
    + intros k Hk. apply migrate_absent. rewrite lookup_fmap, Hk. reflexivity.
  - intros k v Hk. unfold PropertyBag.get, PropertyBag.set. rewrite Hk. auto.
  - intros fs0 Hok. eexists. split.
    + apply (saved_file_readable fs0 _ p Hok). reflexivity.
    + intros k j Hk. simpl. rewrite lookup_fmap.
      destruct Hover as [Hin _]. rewrite (Hin k j Hk). simpl.
      rewrite encode_decode. reflexivity.
Qed.

(** The overlay at the disk whose [night.json] has an undeclared key. *)
Lemma load_overlays_file_witness :
  let doc : gmap string Json.t :=
    list_to_map [("rim_width", Json.JFloat 0.05); ("glow", Json.JInt 7)] in
  let b := Theme.bag Scenario.night in
  let b' := (PropertyBag.load Theme.DEFAULTS Scenario.disk_with_extra_key b).1 in
  let t := {| Theme.name := "night"; Theme.themes_dir := Some Scenario.themes_dir;
              Theme.bag := b |} in
  Spec.overlays doc Theme.DEFAULTS (PropertyBag._properties b')
  /\ ("night" <> "default" ->
      Spec.overlays doc Theme.DEFAULTS
        (PropertyBag._properties (Theme.bag (Theme.load Scenario.disk_with_extra_key t).1)))
  /\ (forall k v, Theme.DEFAULTS !! k = None ->
        PropertyBag.get Theme.DEFAULTS k VNone b' = None
        /\ PropertyBag.set Theme.DEFAULTS k v b' = None)
  /\ (forall fs0, (PropertyBag.save fs0 b').2 = true ->
        exists doc',
          Os.read_json Scenario.night_path (PropertyBag.save fs0 b').1.1 = Some doc'
          /\ forall k j, doc !! k = Some j -> doc' !! k = Some j).
Proof.
  apply (load_overlays_file Theme.DEFAULTS Scenario.disk_with_extra_key
           (Theme.bag Scenario.night) "night" (Some Scenario.themes_dir)
           Scenario.night_path).
  - vm_compute. reflexivity.
  - discriminate.
  - vm_compute. reflexivity.
Defined.

(** C3 as stated fails: the undeclared key [glow] of [night.json] is in
    the value map after [load]. *)
Lemma undeclared_key_enters_store :
  ~ (forall (fs : Os.filesystem) (t : Theme.t) (k : string),
       Theme.DEFAULTS !! k = None ->
       PropertyBag._properties (Theme.bag (Theme.load fs t).1) !! k = None).
Proof.
  intros Hclaim.
  specialize (Hclaim Scenario.disk_with_extra_key Scenario.night "glow" eq_refl).
  vm_compute in Hclaim. discriminate Hclaim.
Qed.

(** C4, as the code has it.  Without a file path [save] returns [False]
    and touches nothing.  A [save] that returns [True] has created the
    directory of the file and the directories above it and has left the
    full value set in the file; but it writes the file in place: between
    [open], which cuts the file to length zero, and the end of
    [json.dump], the disk holds a file that does not parse, from which
    [load] falls back to the defaults and returns [False]. *)
Theorem save_writes_in_place (DEFAULTS : gmap string Value) (fs : Os.filesystem)
    (b : PropertyBag.t) (p : string) :
  PropertyBag.file_path b = Some p ->
  (PropertyBag.save fs b).2 = true ->
  (forall fs0 b0, PropertyBag.no_path b0 = true ->
     PropertyBag.save fs0 b0 = (fs0, b0, false))
  /\ Os.read_json p (PropertyBag.save fs b).1.1
     = Some (Json.encode <$> PropertyBag._properties b)
  /\ (forall d, d ∈ Os.lineage (S (String.length (Os.dirname p))) (Os.dirname p) ->
        d ∈ Os.dirs (PropertyBag.save fs b).1.1)
  /\ (exists cut, last (PropertyBag.save_interrupted fs b) = Some cut
        /\ Os.files cut !! p = Some Os.Unparsable
        /\ PropertyBag.load DEFAULTS cut b = (PropertyBag.reset DEFAULTS b, Some false)).
Proof.
  intros Hpath Hok.
  split; [intros fs0 b0; apply PropertyBagFacts.save_without_path | ].
  split; [apply (saved_file_readable fs b p Hok Hpath) | ].
  destruct (save_ok fs b Hok) as (p' & fs1 & fs2 & Hp' & Hp & Hmk & Hopen & Hsave).
  rewrite Hpath in Hp'. injection Hp' as <-.
  destruct (OsFacts.makedirs_dirs _ _ _ Hmk) as (_ & Hdirs1 & _).
  destruct (OsFacts.open_w_files _ _ _ Hopen) as (Hfiles2 & Hdirs2 & Hnodir).
  split.
  - intros d Hd. rewrite Hsave. simpl. rewrite Hdirs2, Hdirs1.
    apply elem_of_union_r, elem_of_list_to_set, Hd.
  - exists fs2.
    assert (Hcut : Os.files fs2 !! p = Some Os.Unparsable).
    { rewrite Hfiles2. apply lookup_insert_eq. }
    split; [ | split; [exact Hcut | ]].
    + unfold PropertyBag.save_interrupted.
      rewrite Hpath, bool_decide_eq_false_2, Hmk, Hopen by exact Hp. reflexivity.
    + unfold PropertyBag.load, Os.path_exists, Os.json_load.
      rewrite Hpath, Hcut, bool_decide_eq_false_2 by exact Hp.
      rewrite (bool_decide_eq_true_2 (is_Some (Some Os.Unparsable))) by eauto.
      simpl. destruct (bool_decide (p ∈ Os.dirs fs2)); reflexivity.
Qed.

(** Saving the stored settings over the [settings.json] already on disk. *)
Lemma save_writes_in_place_witness :
  (forall fs0 b0, PropertyBag.no_path b0 = true ->
     PropertyBag.save fs0 b0 = (fs0, b0, false))
  /\ Os.read_json Scenario.settings_path
       (PropertyBag.save Scenario.disk_with_settings Scenario.stored_settings).1.1
     = Some (Json.encode <$> PropertyBag._properties Scenario.stored_settings)
  /\ (forall d,
        d ∈ Os.lineage (S (String.length (Os.dirname Scenario.settings_path)))
              (Os.dirname Scenario.settings_path) ->
        d ∈ Os.dirs (PropertyBag.save Scenario.disk_with_settings
                       Scenario.stored_settings).1.1)
  /\ (exists cut,
        last (PropertyBag.save_interrupted Scenario.disk_with_settings
                Scenario.stored_settings) = Some cut
        /\ Os.files cut !! Scenario.settings_path = Some Os.Unparsable
        /\ PropertyBag.load Settings.DEFAULTS cut Scenario.stored_settings
           = (PropertyBag.reset Settings.DEFAULTS Scenario.stored_settings, Some false)).
Proof.
  apply (save_writes_in_place Settings.DEFAULTS Scenario.disk_with_settings
           Scenario.stored_settings Scenario.settings_path).
  - reflexivity.
  - vm_compute. reflexivity.
Defined.

(** C4 as stated fails: [settings.json] holds a readable version before
    the save, and an interrupted save can leave it unreadable. *)
Lemma interrupted_save_loses_previous_version :
  ~ (forall (fs : Os.filesystem) (b : PropertyBag.t) (p : string)
            (old : gmap string Json.t) (left : Os.filesystem),
       PropertyBag.file_path b = Some p ->
       Os.read_json p fs = Some old ->
       left ∈ PropertyBag.save_interrupted fs b ->
       Os.read_json p left = Some old).
Proof.
  intros Hclaim.
  pose (cut := default Scenario.empty_disk
                 (last (PropertyBag.save_interrupted Scenario.disk_with_settings
                          Scenario.stored_settings))).
  assert (Hlast : last (PropertyBag.save_interrupted Scenario.disk_with_settings
                          Scenario.stored_settings) = Some cut).
  { vm_compute. reflexivity. }
  specialize (Hclaim Scenario.disk_with_settings Scenario.stored_settings
                Scenario.settings_path
                (list_to_map [("width", Json.JInt 640)]) cut eq_refl).
  assert (Hread : Os.read_json Scenario.settings_path Scenario.disk_with_settings
                  = Some (list_to_map [("width", Json.JInt 640)])).
  { vm_compute. reflexivity. }
  specialize (Hclaim Hread (last_Some_elem_of _ _ Hlast)).
  vm_compute in Hclaim. discriminate Hclaim.
Qed.

Lemma theme_get_stored (t : Theme.t) k v :
  is_Some (Theme.DEFAULTS !! k) ->
  PropertyBag._properties (Theme.bag t) !! k = Some v ->
  Theme.get k t = Some v.
Proof.
  intros [d Hd] Hv. unfold Theme.get, PropertyBag.get. rewrite Hd, Hv. reflexivity.
Qed.

Lemma width_key_declared h : is_Some (Theme.DEFAULTS !! Theme.width_key h).
Proof. destruct h; vm_compute; eauto. Qed.

Lemma image_width_key_declared h : is_Some (Theme.DEFAULTS !! Theme.image_width_key h).
Proof. destruct h; vm_compute; eauto. Qed.

Lemma image_width_default h :
  Theme.DEFAULTS !! Theme.image_width_key h = Some (VFloat 1.0).
Proof. destruct h; reflexivity. Qed.

(** C6.  Loading the file of a theme other than the built-in one, for
    each hand: the vector width read back is the file's value; the image
    width is 1.0 when the file has no such key and the file's value when
    it has one. *)
Theorem additive_migration (fs : Os.filesystem) (t : Theme.t) (p : string)
    (doc : gmap string Json.t) (h : Theme.hand_type) (jw : Json.t) :
  Theme.name t <> "default" ->
  PropertyBag.file_path (Theme.bag t) = Some p -> p <> "" ->
  Os.read_json p fs = Some doc ->
  doc !! Theme.width_key h = Some jw ->
  let t' := (Theme.load fs t).1 in
  (Theme.load fs t).2 = Some true
  /\ Theme.get (Theme.width_key h) t' = Some (Json.decode jw)
  /\ (doc !! Theme.image_width_key h = None ->
        Theme.get (Theme.image_width_key h) t' = Some (VFloat 1.0))
  /\ (forall ji, doc !! Theme.image_width_key h = Some ji ->
        Theme.get (Theme.image_width_key h) t' = Some (Json.decode ji)).
Proof.
  intros Hname Hpath Hp Hread Hw t'. subst t'.
  rewrite (theme_load_parsed fs t p doc Hname Hpath Hp Hread). simpl.
  split; [reflexivity | ].
  assert (Hfile : forall k j, doc !! k = Some j ->
            Theme.migrate (Json.decode <$> doc) ((Json.decode <$> doc) ∪ Theme.DEFAULTS) !! k
            = Some (Json.decode j)).
  { intros k j Hk. rewrite migrate_present.
    - apply lookup_union_Some_l. rewrite lookup_fmap, Hk. reflexivity.
    - rewrite lookup_fmap, Hk. simpl. eauto. }
  split; [ | split].
  - apply theme_get_stored; [apply width_key_declared | ].
    simpl. apply Hfile, Hw.
  - intros Hnone. apply theme_get_stored; [apply image_width_key_declared | ].
    simpl. rewrite migrate_absent by (rewrite lookup_fmap, Hnone; reflexivity).
    apply image_width_default.
  - intros ji Hi. apply theme_get_stored; [apply image_width_key_declared | ].
    simpl. apply Hfile, Hi.
Qed.

(** The hour hand of a theme file that only has the three vector widths. *)
Lemma additive_migration_witness :
  let t' := (Theme.load Scenario.disk_with_old_theme Scenario.night).1 in
  (Theme.load Scenario.disk_with_old_theme Scenario.night).2 = Some true
  /\ Theme.get "hour_hand_width" t' = Some (VFloat 0.08)
  /\ (Scenario.old_theme_doc !! "hour_hand_image_width" = None ->
        Theme.get "hour_hand_image_width" t' = Some (VFloat 1.0))
  /\ (forall ji, Scenario.old_theme_doc !! "hour_hand_image_width" = Some ji ->
        Theme.get "hour_hand_image_width" t' = Some (Json.decode ji)).
Proof.
  apply (additive_migration Scenario.disk_with_old_theme Scenario.night
           Scenario.night_path Scenario.old_theme_doc Theme.hour (Json.JFloat 0.08)).
  - discriminate.
  - vm_compute. reflexivity.
  - discriminate.
  - vm_compute. reflexivity.
  - vm_compute. reflexivity.
Defined.

End Persistence.

(** ** The hands *)

Module ClockFacts.
Import Py.

#[local] Open Scope string_scope.
#[local] Open Scope Z_scope.

(** *** Floats *)


(** A float above zero is not zero. *)
Lemma float_positive_nonzero (f : float) :
  (0 <? f)%float = true -> (f =? 0)%float = false.
Proof.
  rewrite FloatAxioms.ltb_spec, FloatAxioms.eqb_spec.
  change (Prim2SF 0) with (S754_zero false).
  destruct (Prim2SF f) as [s | s | | s m e]; simpl; try discriminate;
    destruct s; simpl; try discriminate; reflexivity.
Qed.

(** A float equal to zero is not above zero. *)
Lemma float_zero_not_positive (f : float) :
  (f =? 0)%float = true -> (0 <? f)%float = false.
Proof.
  intros Hz. destruct (0 <? f)%float eqn:Hpos; [ | reflexivity].
  rewrite (float_positive_nonzero f Hpos) in Hz. discriminate.
Qed.

Lemma num_positive_nonzero (d : Clock.num) :
  Clock.num_positive d = true -> Clock.num_is_zero d = false.
Proof.
  destruct d as [z | f]; simpl.
  - intros Hz. apply Z.ltb_lt in Hz. apply Z.eqb_neq. lia.
  - apply float_positive_nonzero.
Qed.

Lemma num_zero_not_positive (d : Clock.num) :
  Clock.num_is_zero d = true -> Clock.num_positive d = false.
Proof.
  destruct d as [z | f]; simpl.
  - intros Hz. apply Z.eqb_eq in Hz. apply Z.ltb_ge. lia.
  - apply float_zero_not_positive.
Qed.

(** *** Angles *)

Lemma hour_angle_spec (h m : Z) :
  Clock.hour_angle h m = Clock.radians (Spec.hour_degrees h m).
Proof. reflexivity. Qed.

Lemma minute_angle_smooth_spec (m s : Z) :
  Clock.minute_angle false m s = Clock.radians (Spec.minute_degrees false m s).
Proof. reflexivity. Qed.

(** On the face of a clock the integer arithmetic of the snapped minute
    hand and of the second hand is exact, so converting before or after
    it makes no difference. *)
Lemma sixty_steps (n : Z) :
  0 <= n < 60 -> float_of_Z (n * 6 - 90) = (float_of_Z n * 6 - 90)%float.
Proof.
  intros Hn.
  assert (Hnat : exists k : nat, n = Z.of_nat k /\ (k < 60)%nat).
  { exists (Z.to_nat n). lia. }
  destruct Hnat as (k & -> & Hk).
  do 60 (destruct k as [ | k]; [vm_compute; reflexivity | ]).
  lia.
Qed.

Lemma minute_angle_snap_spec (m s : Z) :
  0 <= m < 60 ->
  Clock.minute_angle true m s = Clock.radians (Spec.minute_degrees true m s).
Proof.
  intros Hm. unfold Clock.minute_angle, Spec.minute_degrees.
  rewrite (sixty_steps m Hm). reflexivity.
Qed.

Lemma second_angle_spec (s : Z) :
  0 <= s < 60 -> Clock.second_angle s = Clock.radians (Spec.second_degrees s).
Proof.
  intros Hs. unfold Clock.second_angle, Spec.second_degrees.
  rewrite (sixty_steps s Hs). reflexivity.
Qed.

(** *** How a hand is drawn *)

Section Rendering.
Variables cos sin : float -> float.
Variable path_exists : string -> bool.
Variable new_from_file : string -> option Clock.Pixbuf.
Variables user_hands_dir module_dir : string.

#[local] Abbreviation draw_hour_hand :=
  (Clock.draw_hour_hand cos sin path_exists new_from_file user_hands_dir module_dir).
#[local] Abbreviation draw_minute_hand :=
  (Clock.draw_minute_hand cos sin path_exists new_from_file user_hands_dir module_dir).
#[local] Abbreviation draw_second_hand :=
  (Clock.draw_second_hand cos sin path_exists new_from_file user_hands_dir module_dir).
#[local] Abbreviation _draw_hand_image := (Clock._draw_hand_image new_from_file).

Lemma vector_hand_stroke theme color_key h cx cy radius angle o :
  Clock.vector_hand cos sin theme color_key h cx cy radius angle = Some o ->
  Spec.drawn_at cos sin theme h cx cy radius angle o.
Proof.
  unfold Clock.vector_hand. intros Hdraw.
  apply bind_Some in Hdraw as (color & _ & Hdraw).
  apply bind_Some in Hdraw as (len & Hlen & Hdraw).
  apply bind_Some in Hdraw as (tail & Htail & Hdraw).
  apply bind_Some in Hdraw as (width & _ & Hdraw).
  apply bind_Some in Hdraw as ([[r g] b] & _ & Hdraw).
  injection Hdraw as <-.
  exists len. split; [exact Hlen | ]. left.
  exists tail. split; [exact Htail | ].
  exists r, g, b, (radius * width)%float. reflexivity.
Qed.

Lemma hand_transform_image theme settings cx cy radius surface pivot hours minutes h seconds o :
  Clock.hand_transform theme settings cx cy radius surface pivot hours minutes h seconds
  = Some o ->
  exists angle,
    Clock.image_angle settings h hours minutes seconds = Some angle
    /\ Spec.drawn_at cos sin theme h cx cy radius angle o.
Proof.
  unfold Clock.hand_transform. destruct pivot as [pivot_x pivot_y]. intros Hdraw.
  apply bind_Some in Hdraw as (angle & Hangle & Hdraw).
  apply bind_Some in Hdraw as (hand_length & Hlength & Hdraw).
  apply bind_Some in Hdraw as (hand_width & Hwidth & Hdraw).
  apply bind_Some in Hdraw as (len & Hlen & Hdraw).
  apply bind_Some in Hdraw as (width & Hwid & Hdraw).
  apply bind_Some in Hdraw as ([sx sy] & Hscale & Hdraw).
  injection Hdraw as <-.
  exists angle. split; [exact Hangle | ].
  exists len. split; [rewrite Hlength; exact Hlen | ]. right.
  exists width, (pivot_x, pivot_y), sx, sy.
  split; [rewrite Hwidth; exact Hwid | ]. split; [exact Hscale | ].
  exists surface. reflexivity.
Qed.

Lemma image_hand_drawn c theme settings cx cy radius path hours minutes h seconds :
  Clock.ops (_draw_hand_image c theme settings cx cy radius path hours minutes h seconds)
  <> [] ->
  exists angle,
    Clock.image_angle settings h hours minutes seconds = Some angle
    /\ Spec.drawn_at cos sin theme h cx cy radius angle
         (Clock.ops (_draw_hand_image c theme settings cx cy radius path
                       hours minutes h seconds)).
Proof.
  unfold Clock._draw_hand_image.
  destruct (Clock.hand_color theme h ≫= Clock.hand_surface new_from_file c path)
    as [[[[c' surface] pivot] built] | ]; cbn [Clock.ops]; [ | congruence].
  destruct (Clock.hand_transform theme settings cx cy radius surface pivot
              hours minutes h seconds) as [o | ] eqn:Hdraw; cbn [default];
    [ | congruence].
  intros _. apply (hand_transform_image _ _ _ _ _ _ _ _ _ _ _ _ Hdraw).
Qed.

(** The three [draw_*_hand] methods share their shape: resolve the image
    path, then paint the image or stroke the line. *)
Lemma drawn_either_way theme h c settings cx cy radius hours minutes seconds
    color_key angle (stroke_ops : option (list Clock.cairo_op)) d :
  Clock.image_angle settings h hours minutes seconds = Some angle ->
  stroke_ops = Clock.vector_hand cos sin theme color_key h cx cy radius angle
  \/ stroke_ops = None ->
  (hand_image_path ← Clock.resolve_hand_image_path path_exists user_hands_dir
                       module_dir theme h;
   match Clock.configured hand_image_path with
   | Some path =>
       Some (_draw_hand_image c theme settings cx cy radius path hours minutes h seconds)
   | None => Clock.geometric c stroke_ops
   end) = Some d ->
  Clock.ops d <> [] ->
  Spec.drawn_at cos sin theme h cx cy radius angle (Clock.ops d).
Proof.
  intros Hangle Hstroke Hdraw Hops.
  apply bind_Some in Hdraw as (resolved & _ & Hdraw).
  destruct (Clock.configured resolved) as [path | ].
  - injection Hdraw as <-.
    destruct (image_hand_drawn _ _ _ _ _ _ _ _ _ _ _ Hops) as (a & Ha & Himg).
    rewrite Hangle in Ha. injection Ha as <-. exact Himg.
  - unfold Clock.geometric in Hdraw.
    apply bind_Some in Hdraw as (o & Hvec & Hdraw). injection Hdraw as <-.
    destruct Hstroke as [-> | ->]; [ | discriminate].
    apply (vector_hand_stroke _ _ _ _ _ _ _ _ Hvec).
Qed.

Lemma hour_hand_angle c theme settings cx cy radius h m d :
  draw_hour_hand c theme settings cx cy radius h m = Some d ->
  Clock.ops d <> [] ->
  Spec.drawn_at cos sin theme Theme.hour cx cy radius (Clock.hour_angle h m) (Clock.ops d).
Proof.
  unfold Clock.draw_hour_hand. intros Hdraw Hops.
  apply (drawn_either_way theme Theme.hour c settings cx cy radius h m 0
           "hands_color" _ _ d eq_refl (or_introl eq_refl) Hdraw Hops).
Qed.

Lemma minute_hand_angle c theme settings cx cy radius m s d snap :
  Settings.get "minute_hand_snap" VNone settings = Some snap ->
  draw_minute_hand c theme settings cx cy radius m s = Some d ->
  Clock.ops d <> [] ->
  Spec.drawn_at cos sin theme Theme.minute cx cy radius
    (Clock.minute_angle (truthy snap) m s) (Clock.ops d).
Proof.
  unfold Clock.draw_minute_hand. intros Hsnap Hdraw Hops.
  rewrite Hsnap in Hdraw.
  refine (drawn_either_way theme Theme.minute c settings cx cy radius 0 m s
            "hands_color" _ _ d _ (or_introl eq_refl) Hdraw Hops).
  unfold Clock.image_angle. rewrite Hsnap. reflexivity.
Qed.

Lemma second_hand_angle c theme settings cx cy radius s d :
  draw_second_hand c theme settings cx cy radius s = Some d ->
  Clock.ops d <> [] ->
  Spec.drawn_at cos sin theme Theme.second cx cy radius (Clock.second_angle s) (Clock.ops d).
Proof.
  unfold Clock.draw_second_hand. intros Hdraw Hops.
  apply (drawn_either_way theme Theme.second c settings cx cy radius 0 0 s
           "second_hand_color" _ _ d eq_refl (or_introl eq_refl) Hdraw Hops).
Qed.

End Rendering.

(** C7.  At every time of day, whatever mode a hand is in, what is drawn
    for it is drawn at the angle the formula gives, converted to radians
    and measured from the 3 o'clock direction: the hour hand at
    [(h + m/60) * 30 - 90] degrees, the minute hand at [m * 6 - 90] when
    it snaps and at [(m + s/60) * 6 - 90] otherwise, the second hand at
    [s * 6 - 90].  Drawn at an angle means: the stroke runs from the
    theme's tail length times the radius behind the centre to its hand
    length times the radius ahead of it along that angle, and the image
    is turned to that angle about its pivot, which is put on the centre.
    At 3:00 the hour hand, and at 15 minutes the snapped minute hand, are
    at angle 0.  (The hours, minutes and seconds are those of a time of
    day, which floats hold exactly.) *)
Theorem hand_angles (cos sin : float -> float) (path_exists : string -> bool)
    (new_from_file : string -> option Clock.Pixbuf) (user_hands_dir module_dir : string)
    (c : Clock.cache) (theme : Theme.t) (settings : PropertyBag.t)
    (cx cy radius : float) (h m s : Z) (snap : Value) :
  0 <= h < 24 -> 0 <= m < 60 -> 0 <= s < 60 ->
  Settings.get "minute_hand_snap" VNone settings = Some snap ->
  (forall d,
     Clock.draw_hour_hand cos sin path_exists new_from_file user_hands_dir module_dir
       c theme settings cx cy radius h m = Some d ->
     Clock.ops d <> [] ->
     Spec.drawn_at cos sin theme Theme.hour cx cy radius
       (Clock.radians (Spec.hour_degrees h m)) (Clock.ops d))
  /\ (forall d,
        Clock.draw_minute_hand cos sin path_exists new_from_file user_hands_dir module_dir
          c theme settings cx cy radius m s = Some d ->
        Clock.ops d <> [] ->
        Spec.drawn_at cos sin theme Theme.minute cx cy radius
          (Clock.radians (Spec.minute_degrees (truthy snap) m s)) (Clock.ops d))
  /\ (forall d,
        Clock.draw_second_hand cos sin path_exists new_from_file user_hands_dir module_dir
          c theme settings cx cy radius s = Some d ->
        Clock.ops d <> [] ->
        Spec.drawn_at cos sin theme Theme.second cx cy radius
          (Clock.radians (Spec.second_degrees s)) (Clock.ops d))
  /\ Clock.radians (Spec.hour_degrees 3 0) = 0%float
  /\ Clock.radians (Spec.minute_degrees true 15 s) = 0%float.
Proof.
  intros _ Hm Hs Hsnap. repeat split.
  - intros d Hdraw Hops. rewrite <- hour_angle_spec.
    apply (hour_hand_angle _ _ _ _ _ _ _ _ _ _ _ _ _ _ _ Hdraw Hops).
  - intros d Hdraw Hops.
    replace (Clock.radians (Spec.minute_degrees (truthy snap) m s))
      with (Clock.minute_angle (truthy snap) m s).
    + apply (minute_hand_angle _ _ _ _ _ _ _ _ _ _ _ _ _ _ _ _ Hsnap Hdraw Hops).
    + destruct (truthy snap);
        [apply minute_angle_snap_spec, Hm | apply minute_angle_smooth_spec].
  - intros d Hdraw Hops. rewrite <- (second_angle_spec s Hs).
    apply (second_hand_angle _ _ _ _ _ _ _ _ _ _ _ _ _ _ Hdraw Hops).
Qed.

(** The hands at 3:00:07 for the theme whose hour hand is an image and
    whose other hands are strokes: each is drawn, the hour hand as its
    image and the other two as strokes, at the angle of the formula. *)
Lemma hand_angles_witness :
  (exists d,
     Clock.draw_hour_hand (fun x => x) (fun x => x) Scenario.only_hour_png Scenario.decodes
       Scenario.user_hands_dir Scenario.module_dir
       [] Scenario.image_theme Scenario.settings 200 200 100 3 0 = Some d
     /\ Spec.drawn_at (fun x => x) (fun x => x) Scenario.image_theme Theme.hour 200 200 100
          (Clock.radians (Spec.hour_degrees 3 0)) (Clock.ops d))
  /\ (exists d,
        Clock.draw_minute_hand (fun x => x) (fun x => x) Scenario.only_hour_png
          Scenario.decodes Scenario.user_hands_dir Scenario.module_dir
          [] Scenario.image_theme Scenario.settings 200 200 100 0 7 = Some d
        /\ Spec.drawn_at (fun x => x) (fun x => x) Scenario.image_theme Theme.minute
             200 200 100 (Clock.radians (Spec.minute_degrees true 0 7)) (Clock.ops d))
  /\ (exists d,
        Clock.draw_second_hand (fun x => x) (fun x => x) Scenario.only_hour_png
          Scenario.decodes Scenario.user_hands_dir Scenario.module_dir
          [] Scenario.image_theme Scenario.settings 200 200 100 7 = Some d
        /\ Spec.drawn_at (fun x => x) (fun x => x) Scenario.image_theme Theme.second
             200 200 100 (Clock.radians (Spec.second_degrees 7)) (Clock.ops d)).
Proof.
  destruct (hand_angles (fun x => x) (fun x => x) Scenario.only_hour_png Scenario.decodes
              Scenario.user_hands_dir Scenario.module_dir [] Scenario.image_theme
              Scenario.settings 200 200 100 3 0 7 (VBool true))
    as (Hhour & Hminute & Hsecond & _); [lia | lia | lia | reflexivity | ].
  split; [ | split].
  - destruct (Clock.draw_hour_hand (fun x => x) (fun x => x) Scenario.only_hour_png
                Scenario.decodes Scenario.user_hands_dir Scenario.module_dir
                [] Scenario.image_theme Scenario.settings 200 200 100 3 0)
      as [d | ] eqn:Hdraw; [ | vm_compute in Hdraw; discriminate Hdraw].
    exists d. split; [reflexivity | ]. apply (Hhour d eq_refl).
    vm_compute in Hdraw. injection Hdraw as <-. discriminate.
  - destruct (Clock.draw_minute_hand (fun x => x) (fun x => x) Scenario.only_hour_png
                Scenario.decodes Scenario.user_hands_dir Scenario.module_dir
                [] Scenario.image_theme Scenario.settings 200 200 100 0 7)
      as [d | ] eqn:Hdraw; [ | vm_compute in Hdraw; discriminate Hdraw].
    exists d. split; [reflexivity | ]. apply (Hminute d eq_refl).
    vm_compute in Hdraw. injection Hdraw as <-. discriminate.
  - destruct (Clock.draw_second_hand (fun x => x) (fun x => x) Scenario.only_hour_png
                Scenario.decodes Scenario.user_hands_dir Scenario.module_dir
                [] Scenario.image_theme Scenario.settings 200 200 100 7)
      as [d | ] eqn:Hdraw; [ | vm_compute in Hdraw; discriminate Hdraw].
    exists d. split; [reflexivity | ]. apply (Hsecond d eq_refl).
    vm_compute in Hdraw. injection Hdraw as <-. discriminate.
Defined.

(** *** Scale factors of an image hand *)



(** C10.  With the pivot on the top edge there is nothing to divide by
    and the length factor is 1.0; for no pivot at all does the
    computation raise. *)
Theorem hand_scale_top_edge (radius hand_length hand_width : float) (pivot_y : Clock.num) :
  Clock.num_is_zero pivot_y = true ->
  Clock.hand_scale radius hand_length hand_width pivot_y
  = Some ((1.0 * hand_width)%float, 1.0%float)
  /\ forall other : Clock.num,
       is_Some (Clock.hand_scale radius hand_length hand_width other).
Proof.
  intros Hzero. split.
  - unfold Clock.hand_scale. rewrite (num_zero_not_positive pivot_y Hzero). reflexivity.
  - intros other. unfold Clock.hand_scale, Clock.float_div.
    destruct (Clock.num_positive other) eqn:Hpos; simpl; [ | eauto].
    rewrite (num_positive_nonzero other Hpos). simpl. eauto.
Qed.

(** A marker in the top row of the image. *)
Lemma hand_scale_top_edge_witness :
  Clock.hand_scale 100 0.5 2 (Clock.NInt 0) = Some ((1.0 * 2)%float, 1.0%float)
  /\ forall other : Clock.num, is_Some (Clock.hand_scale 100 0.5 2 other).
Proof.
  apply (hand_scale_top_edge 100 0.5 2 (Clock.NInt 0)). reflexivity.
Defined.

End ClockFacts.

(** ** The hand image cache *)

Module CacheFacts.
Import Py.

#[local] Open Scope string_scope.
#[local] Open Scope Z_scope.

Lemma cache_lookup_head (c : Clock.cache) k v k' :
  Clock.key_eq k k' = true -> Clock.cache_lookup ((k, v) :: c) k' = Some v.
Proof.
  intros Heq. unfold Clock.cache_lookup. cbn [List.find fst]. rewrite Heq. reflexivity.
Qed.

Lemma cache_lookup_skip (c : Clock.cache) k v k' :
  Clock.key_eq k k' = false ->
  Clock.cache_lookup ((k, v) :: c) k' = Clock.cache_lookup c k'.
Proof.
  intros Hne. unfold Clock.cache_lookup. cbn [List.find fst]. rewrite Hne. reflexivity.
Qed.

(** Every pixel of a colorized surface has the hand colour and the alpha
    of the source pixel. *)
Lemma colorize_pixel (pb : Clock.Pixbuf) (color : float * float * float) (x y : Z) :
  0 <= x < Clock.get_width pb -> 0 <= y < Clock.get_height pb ->
  Clock.surface_at (Clock.colorize pb color) x y
  = Some {| Clock.px_color := color; Clock.px_alpha := Clock.source_alpha pb x y |}.
Proof.
  intros Hx Hy. unfold Clock.surface_at, Clock.colorize. cbn [Clock.surface_rows].
  replace ((x <? 0) || (y <? 0)) with false
    by (symmetry; apply orb_false_iff; split; apply Z.ltb_ge; lia).
  rewrite list_lookup_fmap.
  rewrite (proj2 (lookup_seqZ 0 (Clock.get_height pb) (Z.to_nat y) y)) by lia.
  cbn [fmap option_fmap option_map mbind option_bind].
  rewrite list_lookup_fmap.
  rewrite (proj2 (lookup_seqZ 0 (Clock.get_width pb) (Z.to_nat x) x)) by lia.
  reflexivity.
Qed.

Section Rendering.
Variable new_from_file : string -> option Clock.Pixbuf.

#[local] Abbreviation hand_surface := (Clock.hand_surface new_from_file).
#[local] Abbreviation _draw_hand_image := (Clock._draw_hand_image new_from_file).

(** What [hand_surface] can return: the cache as it was, on a hit; the
    cache with one new entry in front, after a colorization pass. *)
Lemma hand_surface_cases c path color c' surface pivot built :
  hand_surface c path color = Some (c', surface, pivot, built) ->
  exists key_color,
    Clock.to_tuple color = Some key_color
    /\ if built
       then Clock.cache_lookup c (path, key_color) = None
            /\ c' = ((path, key_color), (surface, pivot)) :: c
            /\ exists pb rgb,
                 new_from_file path = Some pb
                 /\ Clock.channels color = Some rgb
                 /\ surface = Clock.colorize pb rgb
       else Clock.cache_lookup c (path, key_color) = Some (surface, pivot) /\ c' = c.
Proof.
  unfold Clock.hand_surface. intros Hsurf.
  apply bind_Some in Hsurf as (key_color & Hkey & Hsurf).
  exists key_color. split; [exact Hkey | ].
  destruct (negb (forallb Clock.hashable key_color)); [discriminate | ].
  destruct (Clock.cache_lookup c (path, key_color)) as [[s p] | ] eqn:Hlook.
  - injection Hsurf as <- <- <- <-. auto.
  - apply bind_Some in Hsurf as (pb & Hload & Hsurf).
    apply bind_Some in Hsurf as (found & _ & Hsurf).
    apply bind_Some in Hsurf as (rgb & Hrgb & Hsurf).
    injection Hsurf as <- <- <- <-.
    split; [reflexivity | ]. split; [reflexivity | ]. eauto.
Qed.

Lemma hand_surface_hit c path color key_color surface pivot :
  Clock.to_tuple color = Some key_color ->
  forallb Clock.hashable key_color = true ->
  Clock.cache_lookup c (path, key_color) = Some (surface, pivot) ->
  hand_surface c path color = Some (c, surface, pivot, false).
Proof.
  intros Hkey Hhash Hlook. unfold Clock.hand_surface.
  rewrite Hkey. cbn [mbind option_bind]. rewrite Hhash, Hlook. reflexivity.
Qed.

Lemma draw_cases c theme settings cx cy radius path hours minutes h seconds :
  let d := _draw_hand_image c theme settings cx cy radius path hours minutes h seconds in
  (Clock.colorizations d = 0%nat /\ Clock.cache_after d = c)
  \/ (Clock.colorizations d = 1%nat
      /\ exists key_color entry,
           Clock.cache_after d = ((path, key_color), entry) :: c
           /\ Clock.cache_lookup c (path, key_color) = None).
Proof.
  unfold Clock._draw_hand_image.
  destruct (Clock.hand_color theme h ≫= hand_surface c path)
    as [[[[c' surface] pivot] [ | ]] | ] eqn:Hsurf; cbn; [ | | auto].
  - apply bind_Some in Hsurf as (color & _ & Hsurf).
    destruct (hand_surface_cases _ _ _ _ _ _ _ Hsurf) as (key_color & _ & Hmiss & -> & _).
    right. eauto.
  - apply bind_Some in Hsurf as (color & _ & Hsurf).
    destruct (hand_surface_cases _ _ _ _ _ _ _ Hsurf) as (key_color & _ & _ & ->).
    auto.
Qed.

(** One call adds at most one entry, in front, under a key that was not
    there, and removes or replaces none. *)
Theorem cache_only_grows c theme settings cx cy radius path hours minutes h seconds :
  let d := _draw_hand_image c theme settings cx cy radius path hours minutes h seconds in
  (Clock.colorizations d = 0%nat /\ Clock.cache_after d = c)
  \/ (Clock.colorizations d = 1%nat
      /\ exists key_color entry,
           Clock.cache_after d = ((path, key_color), entry) :: c
           /\ Clock.cache_lookup c (path, key_color) = None).
Proof.
  unfold Clock._draw_hand_image.
  destruct (Clock.hand_color theme h ≫= hand_surface c path)
    as [[[[c' surface] pivot] built] | ] eqn:Hsurf; cbn; [ | auto].
  apply bind_Some in Hsurf as (color & _ & Hsurf).
  destruct (hand_surface_cases _ _ _ _ _ _ _ Hsurf) as (key_color & _ & Hcase).
  destruct built.
  - destruct Hcase as (Hmiss & -> & _). right. eauto.
  - destruct Hcase as (_ & ->). auto.
Qed.

Lemma draw_built c theme settings cx cy radius path hours minutes h seconds :
  Clock.colorizations
    (_draw_hand_image c theme settings cx cy radius path hours minutes h seconds) = 1%nat ->
  exists color key_color entry,
    Clock.hand_color theme h = Some color
    /\ Clock.to_tuple color = Some key_color
    /\ Clock.cache_after
         (_draw_hand_image c theme settings cx cy radius path hours minutes h seconds)
       = ((path, key_color), entry) :: c.
Proof.
  unfold Clock._draw_hand_image.
  destruct (Clock.hand_color theme h ≫= hand_surface c path)
    as [[[[c' surface] pivot] built] | ] eqn:Hsurf; cbn; [ | discriminate].
  destruct built; [intros _ | discriminate].
  apply bind_Some in Hsurf as (color & Hcolor & Hsurf).
  destruct (hand_surface_cases _ _ _ _ _ _ _ Hsurf) as (key_color & Hkey & _ & -> & _).
  eauto 6.
Qed.

Lemma draw_hit c theme settings cx cy radius path hours minutes h seconds
    color key_color entry :
  Clock.hand_color theme h = Some color ->
  Clock.to_tuple color = Some key_color ->
  Clock.cache_lookup c (path, key_color) = Some entry ->
  Clock.colorizations
    (_draw_hand_image c theme settings cx cy radius path hours minutes h seconds) = 0%nat
  /\ Clock.cache_after
       (_draw_hand_image c theme settings cx cy radius path hours minutes h seconds) = c.
Proof.
  intros Hcolor Hkey Hlook. unfold Clock._draw_hand_image.
  rewrite Hcolor. cbn [mbind option_bind].
  unfold Clock.hand_surface. rewrite Hkey. cbn [mbind option_bind].
  destruct (forallb Clock.hashable key_color); cbn [negb]; [ | cbn; auto].
  rewrite Hlook. destruct entry as [surface pivot]. cbn. auto.
Qed.

(** The alpha painted for a source pixel is its own. *)
Lemma source_alpha_of (pb : Clock.Pixbuf) (x y r g b a : Z) :
  Clock.source_pixel pb x y = Some (r, g, b, a) -> Clock.source_alpha pb x y = a.
Proof. unfold Clock.source_alpha. intros ->. reflexivity. Qed.

(** C8.  Drawing a hand twice from the same image path under colours that
    compare equal runs the colorization pass at most once: if the first
    call ran it, the second finds the entry and leaves the cache alone.
    After a draw in one colour, a colour that compares unequal to it and
    was not cached before is still not cached; and drawing in a colour
    that is not cached, from an image that loads, runs the pass once and
    puts in front of the cache a surface of the image's size whose every
    pixel has the hand colour and the alpha of the source pixel: a pixel
    that was opaque black is opaque in exactly the new colour, and a
    pixel that was fully transparent is fully transparent.  The pivot
    stored with it is the marker pixel found, or the centre of the image
    when there is none. *)
Theorem colorized_once_per_colour (c : Clock.cache) (path : string) (h : Theme.hand_type)
    (cx cy radius : float) :
  (forall theme1 theme2 settings1 settings2
          hours1 minutes1 seconds1 hours2 minutes2 seconds2 (key1 key2 : list Value),
     Clock.hand_color theme1 h ≫= Clock.to_tuple = Some key1 ->
     Clock.hand_color theme2 h ≫= Clock.to_tuple = Some key2 ->
     py_eq (VTuple key1) (VTuple key2) = true ->
     let d1 := _draw_hand_image c theme1 settings1 cx cy radius path
                 hours1 minutes1 h seconds1 in
     let d2 := _draw_hand_image (Clock.cache_after d1) theme2 settings2 cx cy radius path
                 hours2 minutes2 h seconds2 in
     (Clock.colorizations d1 + Clock.colorizations d2 <= 1)%nat
     /\ (Clock.colorizations d1 = 1%nat ->
         Clock.colorizations d2 = 0%nat /\ Clock.cache_after d2 = Clock.cache_after d1))
  /\ (forall theme settings hours minutes seconds (key1 key2 : list Value),
        Clock.hand_color theme h ≫= Clock.to_tuple = Some key1 ->
        py_eq (VTuple key1) (VTuple key2) = false ->
        Clock.cache_lookup c (path, key2) = None ->
        Clock.cache_lookup
          (Clock.cache_after
             (_draw_hand_image c theme settings cx cy radius path hours minutes h seconds))
          (path, key2) = None)
  /\ (forall theme settings hours minutes seconds color key_color pb found rgb,
        Clock.hand_color theme h = Some color ->
        Clock.to_tuple color = Some key_color ->
        forallb Clock.hashable key_color = true ->
        Clock.cache_lookup c (path, key_color) = None ->
        new_from_file path = Some pb ->
        Clock._find_red_pixel pb = Some found ->
        Clock.channels color = Some rgb ->
        let d := _draw_hand_image c theme settings cx cy radius path
                   hours minutes h seconds in
        let pivot :=
          match found with
          | Some (x, y) => (Clock.NInt x, Clock.NInt y)
          | None => (Clock.NFloat (Clock.int_truediv (Clock.get_width pb) 2),
                     Clock.NFloat (Clock.int_truediv (Clock.get_height pb) 2))
          end in
        Clock.colorizations d = 1%nat
        /\ Clock.cache_after d = ((path, key_color), (Clock.colorize pb rgb, pivot)) :: c
        /\ (forall x y, 0 <= x < Clock.get_width pb -> 0 <= y < Clock.get_height pb ->
              Clock.surface_at (Clock.colorize pb rgb) x y
              = Some {| Clock.px_color := rgb;
                        Clock.px_alpha := Clock.source_alpha pb x y |})
        /\ (forall x y, 0 <= x < Clock.get_width pb -> 0 <= y < Clock.get_height pb ->
              Clock.source_pixel pb x y = Some (0, 0, 0, 255) ->
              Clock.surface_at (Clock.colorize pb rgb) x y
              = Some {| Clock.px_color := rgb; Clock.px_alpha := 255 |})
        /\ (forall x y r g b, 0 <= x < Clock.get_width pb -> 0 <= y < Clock.get_height pb ->
              Clock.source_pixel pb x y = Some (r, g, b, 0) ->
              Clock.surface_at (Clock.colorize pb rgb) x y
              = Some {| Clock.px_color := rgb; Clock.px_alpha := 0 |})).
Proof.
  split; [ | split].
  - intros theme1 theme2 settings1 settings2 hours1 minutes1 seconds1
           hours2 minutes2 seconds2 key1 key2 Hkey1 Hkey2 Heq d1 d2.
    assert (Hfirst : Clock.colorizations d1 = 1%nat ->
                     Clock.colorizations d2 = 0%nat
                     /\ Clock.cache_after d2 = Clock.cache_after d1).
    { intros Hran. subst d2.
      destruct (draw_built _ _ _ _ _ _ _ _ _ _ _ Hran)
        as (color1 & k1 & entry & Hcolor1 & Hk1 & Hcache).
      fold d1 in Hcache. rewrite Hcache.
      rewrite Hcolor1 in Hkey1. cbn [mbind option_bind] in Hkey1.
      rewrite Hk1 in Hkey1. injection Hkey1 as ->.
      apply bind_Some in Hkey2 as (color2 & Hcolor2 & Hk2).
      apply (draw_hit _ _ _ _ _ _ _ _ _ _ _ color2 key2 entry Hcolor2 Hk2).
      apply cache_lookup_head. unfold Clock.key_eq. cbn [fst snd].
      rewrite bool_decide_eq_true_2 by reflexivity. exact Heq. }
    split; [ | exact Hfirst].
    destruct (draw_cases c theme1 settings1 cx cy radius path
                hours1 minutes1 h seconds1) as [[H0 _] | [H1 _]].
    + fold d1 in H0.
      destruct (draw_cases (Clock.cache_after d1) theme2 settings2 cx cy radius path
                  hours2 minutes2 h seconds2) as [[H2 _] | [H2 _]];
        fold d2 in H2; lia.
    + fold d1 in H1. destruct (Hfirst H1) as [Hz _]. lia.
  - intros theme settings hours minutes seconds key1 key2 Hkey1 Hne Hmiss.
    destruct (draw_cases c theme settings cx cy radius path hours minutes h seconds)
      as [[_ ->] | [Hran _]]; [exact Hmiss | ].
    destruct (draw_built _ _ _ _ _ _ _ _ _ _ _ Hran)
      as (color & k1 & entry & Hcolor & Hk1 & ->).
    rewrite Hcolor in Hkey1. cbn [mbind option_bind] in Hkey1.
    rewrite Hk1 in Hkey1. injection Hkey1 as ->.
    rewrite cache_lookup_skip; [exact Hmiss | ].
    unfold Clock.key_eq. cbn [fst snd].
    rewrite bool_decide_eq_true_2 by reflexivity. exact Hne.
  - intros theme settings hours minutes seconds color key_color pb found rgb
           Hcolor Hkey Hhash Hmiss Hload Hfound Hrgb d pivot.
    assert (Hsurf : hand_surface c path color
                    = Some (((path, key_color), (Clock.colorize pb rgb, pivot)) :: c,
                            Clock.colorize pb rgb, pivot, true)).
    { unfold Clock.hand_surface. rewrite Hkey. cbn [mbind option_bind].
      rewrite Hhash, Hmiss. cbn [negb]. rewrite Hload. cbn [mbind option_bind].
      rewrite Hfound. cbn [mbind option_bind]. rewrite Hrgb. reflexivity. }
    subst d. unfold Clock._draw_hand_image. rewrite Hcolor. cbn [mbind option_bind].
    rewrite Hsurf. cbn [Clock.colorizations Clock.cache_after].
    split; [reflexivity | ]. split; [reflexivity | ].
    split; [intros x y Hx Hy; apply colorize_pixel; assumption | ].
    split.
    + intros x y Hx Hy Hpx. rewrite (colorize_pixel pb rgb x y Hx Hy).
      rewrite (source_alpha_of pb x y 0 0 0 255 Hpx). reflexivity.
    + intros x y r g b Hx Hy Hpx. rewrite (colorize_pixel pb rgb x y Hx Hy).
      rewrite (source_alpha_of pb x y r g b 0 Hpx). reflexivity.
Qed.

(** C5.  An image that cannot be loaded and is not in the cache: the call
    returns normally, has made no call on the context and leaves the
    cache as it was.  Nothing is drawn in place of the image. *)
Theorem unloadable_image_draws_nothing c theme settings cx cy radius path
    hours minutes h seconds :
  new_from_file path = None ->
  (forall key_color, Clock.cache_lookup c (path, key_color) = None) ->
  _draw_hand_image c theme settings cx cy radius path hours minutes h seconds
  = {| Clock.cache_after := c; Clock.ops := []; Clock.colorizations := 0 |}.
Proof.
  intros Hload Hmiss. unfold Clock._draw_hand_image.
  destruct (Clock.hand_color theme h ≫= hand_surface c path)
    as [[[[c' surface] pivot] built] | ] eqn:Hsurf; [ | reflexivity].
  apply bind_Some in Hsurf as (color & _ & Hsurf).
  destruct (hand_surface_cases _ _ _ _ _ _ _ Hsurf) as (key_color & _ & Hcase).
  destruct built.
  - destruct Hcase as (_ & _ & pb & rgb & Hpb & _). congruence.
  - destruct Hcase as (Hhit & _). rewrite Hmiss in Hhit. discriminate.
Qed.

End Rendering.

(** The hour hand of the image theme drawn twice from an empty cache;
    black hands drawn first and red asked for next; and the hour hand
    drawn in red for the first time, whose marker is at (10, 40), whose
    pixel (10, 0) is opaque black and whose pixel (0, 0) is transparent. *)
Lemma colorized_once_per_colour_witness :
  (let d1 := Clock._draw_hand_image Scenario.decodes [] Scenario.image_theme
               Scenario.settings 200 200 100 Scenario.hour_png 3 0 Theme.hour 0 in
   let d2 := Clock._draw_hand_image Scenario.decodes (Clock.cache_after d1)
               Scenario.image_theme Scenario.settings 200 200 100 Scenario.hour_png
               3 1 Theme.hour 0 in
   Clock.colorizations d1 = 1%nat
   /\ Clock.colorizations d2 = 0%nat /\ Clock.cache_after d2 = Clock.cache_after d1)
  /\ Clock.cache_lookup
       (Clock.cache_after
          (Clock._draw_hand_image Scenario.decodes [] Scenario.image_theme Scenario.settings
             200 200 100 Scenario.hour_png 3 0 Theme.hour 0))
       (Scenario.hour_png, [VFloat 1.0; VFloat 0.0; VFloat 0.0]) = None
  /\ (let d := Clock._draw_hand_image Scenario.decodes [] Scenario.red_image_theme
                 Scenario.settings 200 200 100 Scenario.hour_png 3 0 Theme.hour 0 in
      let red := (1.0%float, 0.0%float, 0.0%float) in
      Clock.colorizations d = 1%nat
      /\ Clock.cache_after d
         = [((Scenario.hour_png, [VFloat 1.0; VFloat 0.0; VFloat 0.0]),
             (Clock.colorize Scenario.marker_image red, (Clock.NInt 10, Clock.NInt 40)))]
      /\ Clock.surface_at (Clock.colorize Scenario.marker_image red) 10 0
         = Some {| Clock.px_color := red; Clock.px_alpha := 255 |}
      /\ Clock.surface_at (Clock.colorize Scenario.marker_image red) 0 0
         = Some {| Clock.px_color := red; Clock.px_alpha := 0 |}).
Proof.
  destruct (colorized_once_per_colour Scenario.decodes [] Scenario.hour_png Theme.hour
              200 200 100) as (Hsame & Hother & Hnew).
  split; [ | split].
  - cbv zeta.
    destruct (Hsame Scenario.image_theme Scenario.image_theme Scenario.settings
                Scenario.settings 3 0 0 3 1 0
                [VFloat 0; VFloat 0; VFloat 0] [VFloat 0; VFloat 0; VFloat 0])
      as [_ Hfirst]; [vm_compute; reflexivity .. | ].
    assert (Hran : Clock.colorizations
                     (Clock._draw_hand_image Scenario.decodes [] Scenario.image_theme
                        Scenario.settings 200 200 100 Scenario.hour_png 3 0 Theme.hour 0)
                   = 1%nat) by (vm_compute; reflexivity).
    split; [exact Hran | exact (Hfirst Hran)].
  - apply (Hother Scenario.image_theme Scenario.settings 3 0 0
             [VFloat 0; VFloat 0; VFloat 0] [VFloat 1.0; VFloat 0.0; VFloat 0.0]).
    + vm_compute. reflexivity.
    + vm_compute. reflexivity.
    + reflexivity.
  - cbv zeta.
    destruct (Hnew Scenario.red_image_theme Scenario.settings 3 0 0
                (Theme.rgb 1.0 0.0 0.0) [VFloat 1.0; VFloat 0.0; VFloat 0.0]
                Scenario.marker_image (Some (10, 40)) (1.0%float, 0.0%float, 0.0%float))
      as (Hran & Hcache & _ & Hblack & Hclear);
      [vm_compute; reflexivity | reflexivity | reflexivity | reflexivity
       | vm_compute; reflexivity | vm_compute; reflexivity | reflexivity | ].
    split; [exact Hran | ]. split; [exact Hcache | ]. split.
    + apply Hblack; [cbn; lia | cbn; lia | vm_compute; reflexivity].
    + apply (Hclear 0 0 0 0 0); [cbn; lia | cbn; lia | vm_compute; reflexivity].
Defined.

(** The hour hand when [hour.png] is there but cannot be decoded:
    [draw_hour_hand] returns having drawn nothing at all. *)
Lemma unloadable_image_draws_nothing_witness :
  Clock.draw_hour_hand (fun x => x) (fun x => x) Scenario.only_hour_png Scenario.corrupt
    Scenario.user_hands_dir Scenario.module_dir
    [] Scenario.image_theme Scenario.settings 200 200 100 3 0
  = Some {| Clock.cache_after := []; Clock.ops := []; Clock.colorizations := 0 |}.
Proof.
  unfold Clock.draw_hour_hand.
  assert (Hpath : Clock.resolve_hand_image_path Scenario.only_hour_png
                    Scenario.user_hands_dir Scenario.module_dir
                    Scenario.image_theme Theme.hour = Some (Some Scenario.hour_png))
    by (vm_compute; reflexivity).
  rewrite Hpath. cbn [mbind option_bind Clock.configured].
  rewrite bool_decide_eq_false_2 by discriminate. apply (f_equal Some).
  apply (unloadable_image_draws_nothing Scenario.corrupt [] Scenario.image_theme
           Scenario.settings 200 200 100 Scenario.hour_png 3 0 Theme.hour 0).
  - reflexivity.
  - intros key_color. reflexivity.
Defined.

End CacheFacts.

(** ** The pivot search *)

Module MarkerFacts.

#[local] Open Scope Z_scope.

(** A pixel the scan steps over is not the marker. *)
Lemma stepped_over_not_marker pb x y r g b :
  Clock.getitem (Clock.get_pixels pb)
    (y * Clock.get_rowstride pb + x * Clock.get_n_channels pb) = Some r ->
  Clock.getitem (Clock.get_pixels pb)
    (y * Clock.get_rowstride pb + x * Clock.get_n_channels pb + 1) = Some g ->
  Clock.getitem (Clock.get_pixels pb)
    (y * Clock.get_rowstride pb + x * Clock.get_n_channels pb + 2) = Some b ->
  (r =? 255) && (g =? 0) && (b =? 0) = false ->
  ~ Marker.is_marker pb x y.
Proof.
  intros Hr Hg Hb Htest. unfold Marker.is_marker, Clock.source_pixel.
  rewrite Hr, Hg, Hb. cbn [mbind option_bind].
  destruct (if Clock.get_has_alpha pb then _ else _) as [a | ];
    cbn [mbind option_bind]; [ | discriminate].
  intros [= -> -> -> ->]. discriminate.
Qed.

Lemma scan_row_spec pb y todo : forall x r,
  Clock.scan_row pb y x todo = Some r ->
  match r with
  | Some (x', y') =>
      y' = y /\ x <= x' < x + Z.of_nat todo
      /\ Marker.is_marker pb x' y
      /\ forall x'', x <= x'' < x' -> ~ Marker.is_marker pb x'' y
  | None => forall x'', x <= x'' < x + Z.of_nat todo -> ~ Marker.is_marker pb x'' y
  end.
Proof.
  induction todo as [ | n IH]; intros x r Hscan.
  - injection Hscan as <-. intros x'' Hx. lia.
  - cbn [Clock.scan_row] in Hscan.
    apply bind_Some in Hscan as (cr & Hr & Hscan).
    apply bind_Some in Hscan as (cg & Hg & Hscan).
    apply bind_Some in Hscan as (cb & Hb & Hscan).
    assert (Hnext : forall r0,
              Clock.scan_row pb y (x + 1) n = Some r0 ->
              ~ Marker.is_marker pb x y ->
              match r0 with
              | Some (x', y') =>
                  y' = y /\ x <= x' < x + Z.of_nat (S n)
                  /\ Marker.is_marker pb x' y
                  /\ forall x'', x <= x'' < x' -> ~ Marker.is_marker pb x'' y
              | None =>
                  forall x'', x <= x'' < x + Z.of_nat (S n) -> ~ Marker.is_marker pb x'' y
              end).
    { intros r0 Hrest Hhere. specialize (IH (x + 1) r0 Hrest).
      destruct r0 as [[x' y'] | ].
      - destruct IH as (-> & Hrange & Hmark & Hbefore).
        split; [reflexivity | ]. split; [lia | ]. split; [exact Hmark | ].
        intros x'' Hx''. destruct (decide (x'' = x)) as [-> | Hne];
          [exact Hhere | apply Hbefore; lia].
      - intros x'' Hx''. destruct (decide (x'' = x)) as [-> | Hne];
          [exact Hhere | apply IH; lia]. }
    destruct ((cr =? 255) && (cg =? 0) && (cb =? 0)) eqn:Htest.
    + apply andb_true_iff in Htest as [Htest Hbz].
      apply andb_true_iff in Htest as [Hrz Hgz].
      apply Z.eqb_eq in Hrz, Hgz, Hbz. subst cr cg cb.
      destruct (Clock.get_has_alpha pb) eqn:Halpha.
      * apply bind_Some in Hscan as (ca & Ha & Hscan).
        destruct (ca =? 255) eqn:Haz.
        -- apply Z.eqb_eq in Haz. subst ca. injection Hscan as <-.
           split; [reflexivity | ]. split; [lia | ]. split; [ | intros; lia].
           unfold Marker.is_marker, Clock.source_pixel.
           rewrite Hr, Hg, Hb, Halpha. cbn [mbind option_bind].
           rewrite Ha. reflexivity.
        -- apply (Hnext r Hscan).
           unfold Marker.is_marker, Clock.source_pixel.
           rewrite Hr, Hg, Hb, Halpha. cbn [mbind option_bind].
           rewrite Ha. cbn [mbind option_bind]. intros [= ->]. discriminate.
      * injection Hscan as <-.
        split; [reflexivity | ]. split; [lia | ]. split; [ | intros; lia].
        unfold Marker.is_marker, Clock.source_pixel.
        rewrite Hr, Hg, Hb, Halpha. reflexivity.
    + apply (Hnext r Hscan). apply (stepped_over_not_marker pb x y cr cg cb Hr Hg Hb Htest).
Qed.

Lemma scan_rows_spec pb todo : forall y r,
  Clock.scan_rows pb y todo = Some r ->
  match r with
  | Some (x', y') =>
      0 <= x' < Clock.get_width pb /\ y <= y' < y + Z.of_nat todo
      /\ Marker.is_marker pb x' y'
      /\ forall x'' y'', 0 <= x'' < Clock.get_width pb -> y <= y'' ->
           Marker.earlier x'' y'' x' y' -> ~ Marker.is_marker pb x'' y''
  | None =>
      forall x'' y'', 0 <= x'' < Clock.get_width pb -> y <= y'' < y + Z.of_nat todo ->
        ~ Marker.is_marker pb x'' y''
  end.
Proof.
  induction todo as [ | n IH]; intros y r Hscan.
  - injection Hscan as <-. intros x'' y'' _ Hy. lia.
  - cbn [Clock.scan_rows] in Hscan.
    destruct (Clock.scan_row pb y 0 (Z.to_nat (Clock.get_width pb)))
      as [[[x' y'] | ] | ] eqn:Hrow; [ | | discriminate].
    + injection Hscan as <-.
      pose proof (scan_row_spec pb y _ 0 _ Hrow) as (-> & Hrange & Hmark & Hbefore).
      split; [lia | ]. split; [lia | ]. split; [exact Hmark | ].
      intros x'' y'' Hx'' Hy'' [Hlt | [-> Hlt]]; [lia | apply Hbefore; lia].
    + pose proof (scan_row_spec pb y _ 0 _ Hrow) as Hnone.
      specialize (IH (y + 1) r Hscan). destruct r as [[x' y'] | ].
      * destruct IH as (Hx' & Hy' & Hmark & Hbefore).
        split; [exact Hx' | ]. split; [lia | ]. split; [exact Hmark | ].
        intros x'' y'' Hx'' Hy'' Hearly.
        destruct (decide (y'' = y)) as [-> | Hne];
          [apply Hnone; lia | apply Hbefore; [exact Hx'' | lia | exact Hearly]].
      * intros x'' y'' Hx'' Hy''.
        destruct (decide (y'' = y)) as [-> | Hne];
          [apply Hnone; lia | apply IH; [exact Hx'' | lia]].
Qed.

(** When the scan returns, it returns the first marker in reading order,
    or [None] exactly when no pixel of the image is a marker. *)
Theorem find_red_pixel_first (pb : Clock.Pixbuf) (found : option (Z * Z)) :
  Clock._find_red_pixel pb = Some found -> Marker.first_marker pb found.
Proof.
  unfold Clock._find_red_pixel. intros Hscan.
  pose proof (scan_rows_spec pb _ 0 found Hscan) as Hspec.
  destruct found as [[x y] | ]; unfold Marker.first_marker.
  - destruct Hspec as (Hx & Hy & Hmark & Hbefore).
    split; [exact Hx | ]. split; [lia | ]. split; [exact Hmark | ].
    intros x' y' Hx' Hy' Hearly. apply Hbefore; [exact Hx' | lia | exact Hearly].
  - intros x y Hx Hy. apply Hspec; [exact Hx | lia].
Qed.

(** The scan of the hand drawing with its marker at (10, 40). *)
Lemma find_red_pixel_first_witness :
  Marker.first_marker Scenario.marker_image (Some (10, 40)).
Proof.
  apply (find_red_pixel_first Scenario.marker_image (Some (10, 40))).
  vm_compute. reflexivity.
Defined.

(** The scan raises no IndexError on a buffer that holds every pixel of
    the image. *)
Lemma scan_row_returns pb y todo : forall x,
  (forall x', x <= x' < x + Z.of_nat todo -> is_Some (Clock.source_pixel pb x' y)) ->
  is_Some (Clock.scan_row pb y x todo).
Proof.
  induction todo as [ | n IH]; intros x Hbuf; [cbn; eauto | ].
  assert (Hrest : is_Some (Clock.scan_row pb y (x + 1) n)).
  { apply IH. intros x' Hx'. apply Hbuf. lia. }
  destruct (Hbuf x ltac:(lia)) as [[[[cr cg] cb] ca] Hpx].
  unfold Clock.source_pixel in Hpx.
  apply bind_Some in Hpx as (r & Hr & Hpx).
  apply bind_Some in Hpx as (g & Hg & Hpx).
  apply bind_Some in Hpx as (b & Hb & Hpx).
  apply bind_Some in Hpx as (a & Ha & Hpx).
  cbn [Clock.scan_row]. rewrite Hr. cbn [mbind option_bind].
  rewrite Hg. cbn [mbind option_bind]. rewrite Hb. cbn [mbind option_bind].
  destruct ((r =? 255) && (g =? 0) && (b =? 0)); [ | exact Hrest].
  destruct (Clock.get_has_alpha pb); [ | eauto].
  rewrite Ha. cbn [mbind option_bind]. destruct (a =? 255); [eauto | exact Hrest].
Qed.

Lemma scan_rows_returns pb todo : forall y,
  (forall x' y', 0 <= x' < Clock.get_width pb -> y <= y' < y + Z.of_nat todo ->
     is_Some (Clock.source_pixel pb x' y')) ->
  is_Some (Clock.scan_rows pb y todo).
Proof.
  induction todo as [ | n IH]; intros y Hbuf; [cbn; eauto | ].
  cbn [Clock.scan_rows].
  destruct (scan_row_returns pb y (Z.to_nat (Clock.get_width pb)) 0) as [r Hr].
  { intros x' Hx'. apply Hbuf; lia. }
  rewrite Hr. destruct r as [found | ]; [eauto | ].
  apply IH. intros x' y' Hx' Hy'. apply Hbuf; [exact Hx' | lia].
Qed.

Theorem find_red_pixel_returns (pb : Clock.Pixbuf) :
  (forall x y, 0 <= x < Clock.get_width pb -> 0 <= y < Clock.get_height pb ->
     is_Some (Clock.source_pixel pb x y)) ->
  exists found, Clock._find_red_pixel pb = Some found /\ Marker.first_marker pb found.
Proof.
  intros Hbuf.
  destruct (scan_rows_returns pb (Z.to_nat (Clock.get_height pb)) 0) as [found Hfound].
  { intros x' y' Hx' Hy'. apply Hbuf; [exact Hx' | lia]. }
  exists found. split; [exact Hfound | apply find_red_pixel_first, Hfound].
Qed.

(** The buffer of the hand drawing holds all of its 20 x 50 pixels. *)
Lemma marker_image_complete x y :
  0 <= x < 20 -> 0 <= y < 50 ->
  is_Some (Clock.source_pixel Scenario.marker_image x y).
Proof.
  intros Hx Hy.
  assert (Hall : forallb (fun y' =>
                   forallb (fun x' =>
                     bool_decide (is_Some (Clock.source_pixel Scenario.marker_image x' y')))
                     (seqZ 0 20)) (seqZ 0 50) = true) by (vm_compute; reflexivity).
  rewrite forallb_forall in Hall.
  specialize (Hall y). rewrite forallb_forall in Hall.
  eapply bool_decide_eq_true_1, Hall; apply list_elem_of_In, elem_of_seqZ; lia.
Qed.

Lemma find_red_pixel_returns_witness :
  exists found,
    Clock._find_red_pixel Scenario.marker_image = Some found
    /\ Marker.first_marker Scenario.marker_image found.
Proof.
  apply (find_red_pixel_returns Scenario.marker_image).
  exact marker_image_complete.
Defined.

End MarkerFacts.

(** ** Which image a hand is drawn from *)

Module HandImageFacts.
Import Py.

#[local] Open Scope string_scope.

Section Rendering.
Variable path_exists : string -> bool.
Variables user_hands_dir module_dir : string.

#[local] Abbreviation resolve_hand_image_path :=
  (Clock.resolve_hand_image_path path_exists user_hands_dir module_dir).

#[local] Abbreviation hand_dir_of := (HandSet.hand_dir_of user_hands_dir module_dir).

Lemma resolve_configured theme h source name :
  Theme.get (Theme.hand_name h +:+ "_hand_image_source") theme = Some (VStr source) ->
  Theme.get (Theme.hand_name h +:+ "_hand_image_name") theme = Some (VStr name) ->
  source <> "none" -> name <> "" ->
  resolve_hand_image_path theme h
  = Some (Dialogs.hand_path path_exists (hand_dir_of source name) h).
Proof.
  intros Hsource Hname Hsrc Hnm. unfold Clock.resolve_hand_image_path.
  rewrite Hsource. cbn [mbind option_bind]. rewrite Hname. cbn [mbind option_bind].
  cbn [py_eq truthy].
  rewrite (bool_decide_eq_false_2 (source = "none")) by exact Hsrc.
  rewrite (bool_decide_eq_false_2 (name = "")) by exact Hnm.
  cbn [negb orb]. unfold Dialogs.hand_path, HandSet.hand_dir_of.
  destruct (bool_decide (source = "user"));
    repeat (destruct (path_exists _); [reflexivity | ]); reflexivity.
Qed.

(** A hand with a source other than ['none'] and a name is drawn from the
    first file that exists among [processed/<hand>.png],
    [original/<hand>.png] and [<hand>.png] in the directory of the hand
    set, the user's for the source ['user'] and the program's for every
    other source; when none exists the hand has no image. *)
Theorem resolve_hand_image_path_order theme h source name :
  Theme.get (Theme.hand_name h +:+ "_hand_image_source") theme = Some (VStr source) ->
  Theme.get (Theme.hand_name h +:+ "_hand_image_name") theme = Some (VStr name) ->
  source <> "none" -> name <> "" ->
  let hand_dir := hand_dir_of source name in
  let file := Theme.hand_name h +:+ ".png" in
  resolve_hand_image_path theme h
  = Some (List.find path_exists
            [Os.join (Os.join hand_dir "processed") file;
             Os.join (Os.join hand_dir "original") file;
             Os.join hand_dir file]).
Proof.
  intros Hsource Hname Hsrc Hnm hand_dir file.
  rewrite (resolve_configured theme h source name Hsource Hname Hsrc Hnm).
  unfold Dialogs.hand_path. fold hand_dir. fold file. cbn [List.find].
  repeat (destruct (path_exists _); [reflexivity | ]). reflexivity.
Qed.

(** With the source ['none'], or with a name that is empty or [None], the
    hand has no image, whatever is on disk. *)
Theorem resolve_unconfigured theme h source name :
  Theme.get (Theme.hand_name h +:+ "_hand_image_source") theme = Some source ->
  Theme.get (Theme.hand_name h +:+ "_hand_image_name") theme = Some name ->
  py_eq source (VStr "none") = true \/ truthy name = false ->
  resolve_hand_image_path theme h = Some None.
Proof.
  intros Hsource Hname Hoff. unfold Clock.resolve_hand_image_path.
  rewrite Hsource. cbn [mbind option_bind]. rewrite Hname. cbn [mbind option_bind].
  replace (py_eq source (VStr "none") || negb (truthy name)) with true; [reflexivity | ].
  symmetry. apply orb_true_iff. destruct Hoff as [-> | ->]; auto.
Qed.

(** Whatever path is returned exists. *)
Theorem resolved_path_exists theme h p :
  resolve_hand_image_path theme h = Some (Some p) -> path_exists p = true.
Proof.
  unfold Clock.resolve_hand_image_path. intros Hres.
  apply bind_Some in Hres as (source & _ & Hres).
  apply bind_Some in Hres as (name & _ & Hres).
  destruct (py_eq source (VStr "none") || negb (truthy name)); [discriminate | ].
  destruct name as [ | | | | n | | ]; try discriminate.
  repeat match type of Hres with
         | (if path_exists ?q then _ else _) = _ =>
             destruct (path_exists q) eqn:?; [congruence | ]
         end.
  match type of Hres with
  | Some (if path_exists ?q then _ else _) = _ => destruct (path_exists q) eqn:?
  end; congruence.
Qed.

(** A hand set the picker offers is drawn from the files the picker
    shows: the path it lists for a hand is the path the renderer resolves
    for that hand once the set is chosen. *)
Theorem picker_agrees_with_renderer hand_dir paths theme h source name :
  Dialogs._get_hand_set_paths path_exists hand_dir = Some paths ->
  Theme.get (Theme.hand_name h +:+ "_hand_image_source") theme = Some (VStr source) ->
  Theme.get (Theme.hand_name h +:+ "_hand_image_name") theme = Some (VStr name) ->
  source <> "none" -> name <> "" ->
  hand_dir = hand_dir_of source name ->
  exists p,
    paths !! Theme.hand_name h = Some p
    /\ resolve_hand_image_path theme h = Some (Some p).
Proof.
  intros Hpaths Hsource Hname Hsrc Hnm ->.
  rewrite (resolve_configured theme h source name Hsource Hname Hsrc Hnm).
  unfold Dialogs._get_hand_set_paths in Hpaths. cbn [foldl] in Hpaths.
  destruct (Dialogs.hand_path path_exists (hand_dir_of source name) Theme.hour)
    as [ph | ] eqn:Hh; [ | discriminate Hpaths].
  destruct (Dialogs.hand_path path_exists (hand_dir_of source name) Theme.minute)
    as [pm | ] eqn:Hm; [ | discriminate Hpaths].
  destruct (Dialogs.hand_path path_exists (hand_dir_of source name) Theme.second)
    as [ps | ] eqn:Hs; [ | discriminate Hpaths].
  cbn [mbind option_bind] in Hpaths.
  case_bool_decide; [ | discriminate Hpaths].
  injection Hpaths as <-.
  destruct h; [exists ph | exists pm | exists ps]; (split; [reflexivity | ]);
    [rewrite Hh | rewrite Hm | rewrite Hs]; reflexivity.
Qed.

End Rendering.

(** The hour hand of the theme that uses the built-in set [classic]. *)
Lemma resolve_hand_image_path_order_witness :
  let hand_dir := HandSet.hand_dir_of Scenario.user_hands_dir Scenario.module_dir
                    "builtin" "classic" in
  Clock.resolve_hand_image_path Scenario.only_hour_png Scenario.user_hands_dir
    Scenario.module_dir Scenario.image_theme Theme.hour
  = Some (List.find Scenario.only_hour_png
            [Os.join (Os.join hand_dir "processed") "hour.png";
             Os.join (Os.join hand_dir "original") "hour.png";
             Os.join hand_dir "hour.png"]).
Proof.
  apply (resolve_hand_image_path_order Scenario.only_hour_png Scenario.user_hands_dir
           Scenario.module_dir Scenario.image_theme Theme.hour "builtin" "classic").
  - vm_compute. reflexivity.
  - vm_compute. reflexivity.
  - discriminate.
  - discriminate.
Defined.

(** The hour hand of a theme that still has the defaults: source
    ['none'], no name. *)
Lemma resolve_unconfigured_witness :
  Clock.resolve_hand_image_path Scenario.only_hour_png Scenario.user_hands_dir
    Scenario.module_dir Scenario.night Theme.hour = Some None.
Proof.
  apply (resolve_unconfigured Scenario.only_hour_png Scenario.user_hands_dir
           Scenario.module_dir Scenario.night Theme.hour (VStr "none") VNone).
  - vm_compute. reflexivity.
  - vm_compute. reflexivity.
  - left. reflexivity.
Defined.

Lemma resolved_path_exists_witness :
  Scenario.only_hour_png Scenario.hour_png = true.
Proof.
  apply (resolved_path_exists Scenario.only_hour_png Scenario.user_hands_dir
           Scenario.module_dir Scenario.image_theme Theme.hour Scenario.hour_png).
  vm_compute. reflexivity.
Defined.

(** The hour hand of the mixed set, as the picker lists it and as the
    renderer resolves it. *)
Lemma picker_agrees_with_renderer_witness :
  exists p,
    ({[ "hour" := "/opt/dsclock/assets/hands/classic/processed/hour.png";
        "minute" := "/opt/dsclock/assets/hands/classic/original/minute.png";
        "second" := "/opt/dsclock/assets/hands/classic/second.png" ]}
       : gmap string string) !! "hour" = Some p
    /\ Clock.resolve_hand_image_path Scenario.mixed_set Scenario.user_hands_dir
         Scenario.module_dir Scenario.image_theme Theme.hour = Some (Some p).
Proof.
  apply (picker_agrees_with_renderer Scenario.mixed_set Scenario.user_hands_dir
           Scenario.module_dir "/opt/dsclock/assets/hands/classic" _
           Scenario.image_theme Theme.hour "builtin" "classic").
  - vm_compute. reflexivity.
  - vm_compute. reflexivity.
  - vm_compute. reflexivity.
  - discriminate.
  - discriminate.
  - vm_compute. reflexivity.
Defined.

End HandImageFacts.

(** ** Reading and writing the store *)

Module StoreFacts.
Import Py.

#[local] Open Scope string_scope.

Section Class.
Variable DEFAULTS : gmap string Value.

(** After a [load] that returned [False] every declared key reads as its
    default and the store holds the defaults. *)
Theorem failed_load_gives_defaults fs b k d :
  (PropertyBag.load DEFAULTS fs b).2 = Some false ->
  DEFAULTS !! k = Some d ->
  PropertyBag.get DEFAULTS k VNone (PropertyBag.load DEFAULTS fs b).1 = Some d
  /\ PropertyBag._properties (PropertyBag.load DEFAULTS fs b).1 = DEFAULTS.
Proof.
  intros Hfail Hk.
  assert (Hreset : PropertyBag.load DEFAULTS fs b
                   = (PropertyBag.reset DEFAULTS b, Some false)).
  { revert Hfail. unfold PropertyBag.load.
    destruct (PropertyBag.file_path b) as [p | ]; [ | reflexivity].
    destruct (bool_decide (p = "") || negb (Os.path_exists fs p)); [reflexivity | ].
    destruct (Os.json_load p fs) as [loaded | | [ | c s] | | ];
      cbn [snd]; try discriminate; reflexivity. }
  rewrite Hreset. cbn [fst]. split; [ | reflexivity].
  unfold PropertyBag.get, PropertyBag.reset. cbn [PropertyBag._properties].
  rewrite Hk. reflexivity.
Qed.

Lemma load_keeps_path fs b :
  PropertyBag.file_path (PropertyBag.load DEFAULTS fs b).1 = PropertyBag.file_path b.
Proof.
  unfold PropertyBag.load.
  destruct (PropertyBag.file_path b) as [p | ] eqn:Hp; [ | exact Hp].
  destruct (bool_decide (p = "") || negb (Os.path_exists fs p)); [exact Hp | ].
  destruct (Os.json_load p fs) as [loaded | | [ | c s] | | ]; cbn; congruence.
Qed.

(** Whether [load] returns, and what, is decided by the path and the
    disk. *)
Lemma load_same_result fs b1 b2 :
  PropertyBag.file_path b1 = PropertyBag.file_path b2 ->
  (PropertyBag.load DEFAULTS fs b1).2 = (PropertyBag.load DEFAULTS fs b2).2.
Proof.
  intros Hpath. unfold PropertyBag.load. rewrite Hpath.
  destruct (PropertyBag.file_path b2) as [p | ]; [ | reflexivity].
  destruct (bool_decide (p = "") || negb (Os.path_exists fs p)); [reflexivity | ].
  destruct (Os.json_load p fs) as [loaded | | [ | c s] | | ]; reflexivity.
Qed.

Lemma load_returned_same fs b1 b2 :
  PropertyBag.file_path b1 = PropertyBag.file_path b2 ->
  (PropertyBag.load DEFAULTS fs b1).2 <> None ->
  PropertyBag.load DEFAULTS fs b1 = PropertyBag.load DEFAULTS fs b2.
Proof.
  intros Hpath. unfold PropertyBag.load, PropertyBag.reset. rewrite Hpath.
  destruct (PropertyBag.file_path b2) as [p | ]; [ | reflexivity].
  destruct (bool_decide (p = "") || negb (Os.path_exists fs p)); [reflexivity | ].
  destruct (Os.json_load p fs) as [loaded | | [ | c s] | | ];
    cbn [snd]; try reflexivity; congruence.
Qed.

(** A [load] that returns, [True] or [False], reads nothing of the object
    but its path: whatever was set since the last save is gone, and
    loading twice is loading once.  Whether a [load] returns or raises
    does not depend on the object either; one that raises is not covered
    here, and on bytes that are not text it keeps what was set. *)
Theorem load_forgets_memory fs b1 b2 :
  PropertyBag.file_path b1 = PropertyBag.file_path b2 ->
  (PropertyBag.load DEFAULTS fs b1).2 = (PropertyBag.load DEFAULTS fs b2).2
  /\ ((PropertyBag.load DEFAULTS fs b1).2 <> None ->
      PropertyBag.load DEFAULTS fs b1 = PropertyBag.load DEFAULTS fs b2
      /\ PropertyBag.load DEFAULTS fs (PropertyBag.load DEFAULTS fs b1).1
         = PropertyBag.load DEFAULTS fs b1)
  /\ (forall p, PropertyBag.file_path b1 = Some p -> p <> "" ->
        Os.files fs !! p = Some Os.Undecodable -> p ∉ Os.dirs fs ->
        PropertyBag.load DEFAULTS fs b1 = (b1, None)).
Proof.
  intros Hpath.
  split; [apply load_same_result, Hpath | ].
  split.
  - intros Hret. split; [apply load_returned_same; assumption | ].
    symmetry. apply load_returned_same; [symmetry; apply load_keeps_path | exact Hret].
  - intros p Hp Hne Hfile Hdir. unfold PropertyBag.load, Os.path_exists, Os.json_load.
    rewrite Hp, Hfile, (bool_decide_eq_false_2 _ Hne), (bool_decide_eq_false_2 _ Hdir).
    rewrite (bool_decide_eq_true_2 (is_Some (Some Os.Undecodable))) by eauto.
    reflexivity.
Qed.

(** A [set] that changes the value makes [get] return it; no [set]
    touches another key or the path. *)
Theorem set_then_get k v b b' :
  PropertyBag.set DEFAULTS k v b = Some b' ->
  (py_eq (PropertyBag.stored b k) v = false ->
     PropertyBag.get DEFAULTS k VNone b' = Some v)
  /\ (forall k', k' <> k ->
        PropertyBag._properties b' !! k' = PropertyBag._properties b !! k'
        /\ PropertyBag.get DEFAULTS k' VNone b' = PropertyBag.get DEFAULTS k' VNone b)
  /\ PropertyBag.file_path b' = PropertyBag.file_path b.
Proof.
  unfold PropertyBag.set, py_ne. intros Hset.
  destruct (DEFAULTS !! k) as [d | ] eqn:Hk; [ | discriminate].
  destruct (py_eq (PropertyBag.stored b k) v) eqn:Heq; cbn [negb] in Hset;
    injection Hset as <-.
  - split; [discriminate | ]. split; [ | reflexivity]. intros k' _. auto.
  - split; [ | split; [ | reflexivity]].
    + intros _. unfold PropertyBag.get. cbn [PropertyBag._properties].
      rewrite Hk, lookup_insert_eq. reflexivity.
    + intros k' Hne.
      assert (Hother : (<[k:=v]> (PropertyBag._properties b)) !! k'
                       = PropertyBag._properties b !! k')
        by (apply lookup_insert_ne; congruence).
      split; [exact Hother | ].
      unfold PropertyBag.get. cbn [PropertyBag._properties]. rewrite Hother. reflexivity.
Qed.

(** A store that has a value for every declared key keeps one through
    [set], through [load] whether it returns or raises, through [save],
    and in the copy that [duplicate] makes when it returns one (in a
    class whose constructor takes no [file_path] it raises); on such a
    store the [default] argument of [get] makes no difference. *)
Theorem store_stays_complete b :
  Store.complete DEFAULTS b ->
  (forall k v b', PropertyBag.set DEFAULTS k v b = Some b' -> Store.complete DEFAULTS b')
  /\ (forall fs, Store.complete DEFAULTS (PropertyBag.load DEFAULTS fs b).1)
  /\ (forall fs, Store.complete DEFAULTS (PropertyBag.save fs b).1.2)
  /\ (forall init_takes_file_path b',
        PropertyBag.duplicate init_takes_file_path b = Some b' ->
        Store.complete DEFAULTS b')
  /\ (forall k fallback, is_Some (DEFAULTS !! k) ->
        PropertyBag.get DEFAULTS k fallback b = Some (PropertyBag.stored b k)).
Proof.
  intros Hfull. repeat split.
  - intros k v b' Hset k' Hk'. unfold PropertyBag.set in Hset.
    destruct (DEFAULTS !! k); [ | discriminate].
    destruct (py_ne (PropertyBag.stored b k) v); injection Hset as <-;
      [ | apply Hfull, Hk'].
    cbn [PropertyBag._properties].
    destruct (decide (k = k')) as [-> | Hne];
      [rewrite lookup_insert_eq; eauto | rewrite lookup_insert_ne by exact Hne].
    apply Hfull, Hk'.
  - intros fs k Hk. unfold PropertyBag.load.
    destruct (PropertyBag.file_path b) as [p | ]; [ | exact Hk].
    destruct (bool_decide (p = "") || negb (Os.path_exists fs p)); [exact Hk | ].
    destruct (Os.json_load p fs) as [loaded | | [ | c s] | | ];
      cbn [fst]; try exact Hk; try (apply Hfull, Hk).
    cbn [PropertyBag._properties]. destruct Hk as [d Hd].
    destruct ((Json.decode <$> loaded) !! k) as [x | ] eqn:Hx.
    + exists x. apply lookup_union_Some_l, Hx.
    + exists d. rewrite lookup_union_r by exact Hx. exact Hd.
  - intros fs k Hk. unfold PropertyBag.save.
    destruct (PropertyBag.file_path b) as [p | ]; [ | apply Hfull, Hk].
    destruct (bool_decide (p = "")); [apply Hfull, Hk | ].
    destruct (Os.makedirs (Os.dirname p) fs) as [fs1 | ]; [ | apply Hfull, Hk].
    destruct (Os.open_w p fs1) as [fs2 | ]; [ | apply Hfull, Hk].
    destruct (bool_decide (p ∈ Os.write_errors fs2)); apply Hfull, Hk.
  - intros takes b' Hdup k Hk. unfold PropertyBag.duplicate in Hdup.
    destruct takes; [ | discriminate]. injection Hdup as <-. apply Hfull, Hk.
  - intros k fallback [d Hd]. unfold PropertyBag.get, PropertyBag.stored. rewrite Hd.
    destruct (Hfull k (ex_intro _ d Hd)) as [x ->].
    destruct fallback; reflexivity.
Qed.

Lemma init_complete path : Store.complete DEFAULTS (PropertyBag.__init__ DEFAULTS path).
Proof. intros k Hk. exact Hk. Qed.

End Class.

(** [save] changes no file but its own and removes no directory.  A
    [save] that returns [False] has either changed no file at all, or has
    opened its own file, cutting it, and could not write it. *)
Theorem save_touches_one_file (fs : Os.filesystem) (b : PropertyBag.t) :
  (forall p, PropertyBag.file_path b <> Some p ->
     Os.files (PropertyBag.save fs b).1.1 !! p = Os.files fs !! p)
  /\ ((PropertyBag.save fs b).2 = false ->
      Os.files (PropertyBag.save fs b).1.1 = Os.files fs
      \/ exists q, PropertyBag.file_path b = Some q
                   /\ q ∈ Os.write_errors fs
                   /\ Os.files (PropertyBag.save fs b).1.1
                      = <[q := Os.Unparsable]> (Os.files fs))
  /\ Os.dirs fs ⊆ Os.dirs (PropertyBag.save fs b).1.1.
Proof.
  unfold PropertyBag.save.
  destruct (PropertyBag.file_path b) as [q | ]; [ | cbn; auto].
  destruct (bool_decide (q = "")); [cbn; auto | ].
  destruct (Os.makedirs (Os.dirname q) fs) as [fs1 | ] eqn:Hmk; [ | cbn; auto].
  destruct (OsFacts.makedirs_dirs _ _ _ Hmk) as (Hfiles1 & Hdirs1 & _).
  assert (Herr1 : Os.write_errors fs1 = Os.write_errors fs).
  { unfold Os.makedirs in Hmk. destruct (bool_decide (Os.dirname q = "")); [discriminate | ].
    destruct (existsb _ _); [discriminate | ]. injection Hmk as <-. reflexivity. }
  destruct (Os.open_w q fs1) as [fs2 | ] eqn:Hopen.
  - destruct (OsFacts.open_w_files _ _ _ Hopen) as (Hfiles2 & Hdirs2 & _).
    assert (Herr2 : Os.write_errors fs2 = Os.write_errors fs1).
    { unfold Os.open_w in Hopen. destruct (bool_decide (q ∈ Os.dirs fs1)); [discriminate | ].
      destruct (negb _ && negb _); [discriminate | ]. injection Hopen as <-. reflexivity. }
    case_bool_decide as Herr; cbn [fst snd Os.dumped Os.files Os.dirs].
    + split; [ | split].
      * intros p Hp. rewrite Hfiles2, lookup_insert_ne by congruence.
        rewrite Hfiles1. reflexivity.
      * intros _. right. exists q. split; [reflexivity | ].
        split; [rewrite <- Herr1, <- Herr2; exact Herr | ].
        rewrite Hfiles2, Hfiles1. reflexivity.
      * rewrite Hdirs2, Hdirs1. apply union_subseteq_l.
    + split; [ | split; [discriminate | ]].
      * intros p Hp. rewrite lookup_insert_ne by congruence.
        rewrite Hfiles2, lookup_insert_ne by congruence. rewrite Hfiles1. reflexivity.
      * rewrite Hdirs2, Hdirs1. apply union_subseteq_l.
  - cbn [fst snd]. split; [intros p _; rewrite Hfiles1; reflexivity | ].
    split; [intros _; left; exact Hfiles1 | rewrite Hdirs1; apply union_subseteq_l].
Qed.

(** Saving the settings on the full disk: [save] returns [False] and the
    readable [settings.json] that was there is cut. *)
Lemma save_touches_one_file_witness :
  (PropertyBag.save Scenario.full_disk Scenario.edited_stored_settings).2 = false
  /\ Os.files (PropertyBag.save Scenario.full_disk Scenario.edited_stored_settings).1.1
       !! Scenario.settings_path = Some Os.Unparsable
  /\ Os.files Scenario.full_disk !! Scenario.settings_path
     = Some (Os.Document (list_to_map [("width", Json.JInt 640)])).
Proof.
  assert (Hfail : (PropertyBag.save Scenario.full_disk
                     Scenario.edited_stored_settings).2 = false)
    by (vm_compute; reflexivity).
  split; [exact Hfail | ]. split; [ | vm_compute; reflexivity].
  destruct (save_touches_one_file Scenario.full_disk Scenario.edited_stored_settings)
    as (_ & Hfalse & _).
  destruct (Hfalse Hfail) as [Hsame | (q & Hq & _ & Hcut)].
  - exfalso. assert (Hfile : Os.files (PropertyBag.save Scenario.full_disk
                                 Scenario.edited_stored_settings).1.1
                             !! Scenario.settings_path = Some Os.Unparsable)
      by (vm_compute; reflexivity).
    rewrite Hsame in Hfile. vm_compute in Hfile. discriminate Hfile.
  - injection Hq as <-. rewrite Hcut. apply lookup_insert_eq.
Defined.

(** The edited in-memory settings, loaded with no file to read. *)
Lemma failed_load_gives_defaults_witness :
  PropertyBag.get Settings.DEFAULTS "width" VNone
    (PropertyBag.load Settings.DEFAULTS Scenario.empty_disk Scenario.edited_settings).1
  = Some (VInt 400)
  /\ PropertyBag._properties
       (PropertyBag.load Settings.DEFAULTS Scenario.empty_disk Scenario.edited_settings).1
     = Settings.DEFAULTS.
Proof.
  apply (failed_load_gives_defaults Settings.DEFAULTS Scenario.empty_disk
           Scenario.edited_settings "width" (VInt 400)); reflexivity.
Defined.

(** The stored settings before and after an edit load alike from the
    readable [settings.json]. *)
Lemma load_forgets_memory_witness :
  PropertyBag.load Settings.DEFAULTS Scenario.disk_with_settings
    Scenario.edited_stored_settings
  = PropertyBag.load Settings.DEFAULTS Scenario.disk_with_settings Scenario.stored_settings
  /\ PropertyBag.load Settings.DEFAULTS Scenario.disk_with_garbled_settings
       Scenario.edited_stored_settings
     = (Scenario.edited_stored_settings, None).
Proof.
  split.
  - apply (load_forgets_memory Settings.DEFAULTS Scenario.disk_with_settings
             Scenario.edited_stored_settings Scenario.stored_settings eq_refl).
    vm_compute. discriminate.
  - apply (load_forgets_memory Settings.DEFAULTS Scenario.disk_with_garbled_settings
             Scenario.edited_stored_settings Scenario.stored_settings eq_refl)
      with (p := Scenario.settings_path).
    + reflexivity.
    + discriminate.
    + vm_compute. reflexivity.
    + apply (bool_decide_unpack _). vm_compute. exact I.
Defined.

(** Setting the width of fresh settings to 500. *)
Lemma set_then_get_witness :
  (py_eq (PropertyBag.stored (Settings.__init__ None) "width") (VInt 500) = false ->
     PropertyBag.get Settings.DEFAULTS "width" VNone Scenario.edited_settings
     = Some (VInt 500))
  /\ (forall k', k' <> "width" ->
        PropertyBag._properties Scenario.edited_settings !! k'
        = PropertyBag._properties (Settings.__init__ None) !! k'
        /\ PropertyBag.get Settings.DEFAULTS k' VNone Scenario.edited_settings
           = PropertyBag.get Settings.DEFAULTS k' VNone (Settings.__init__ None))
  /\ PropertyBag.file_path Scenario.edited_settings
     = PropertyBag.file_path (Settings.__init__ None).
Proof.
  apply (set_then_get Settings.DEFAULTS "width" (VInt 500) (Settings.__init__ None)
           Scenario.edited_settings).
  reflexivity.
Defined.

(** Fresh settings are complete, and stay so; there is no copy of them
    to speak of, since [Settings.duplicate] raises. *)
Lemma store_stays_complete_witness :
  (forall k v b', PropertyBag.set Settings.DEFAULTS k v (Settings.__init__ None) = Some b' ->
     Store.complete Settings.DEFAULTS b')
  /\ (forall fs,
        Store.complete Settings.DEFAULTS
          (PropertyBag.load Settings.DEFAULTS fs (Settings.__init__ None)).1)
  /\ (forall fs,
        Store.complete Settings.DEFAULTS
          (PropertyBag.save fs (Settings.__init__ None)).1.2)
  /\ (forall init_takes_file_path b',
        PropertyBag.duplicate init_takes_file_path (Settings.__init__ None) = Some b' ->
        Store.complete Settings.DEFAULTS b')
  /\ (forall k fallback, is_Some (Settings.DEFAULTS !! k) ->
        PropertyBag.get Settings.DEFAULTS k fallback (Settings.__init__ None)
        = Some (PropertyBag.stored (Settings.__init__ None) k))
  /\ Settings.duplicate (Settings.__init__ None) = None.
Proof.
  pose proof (store_stays_complete Settings.DEFAULTS (Settings.__init__ None)
                (init_complete Settings.DEFAULTS None))
    as (Hset & Hload & Hsave & Hdup & Hget).
  split; [exact Hset | ]. split; [exact Hload | ]. split; [exact Hsave | ].
  split; [exact Hdup | ]. split; [exact Hget | reflexivity].
Defined.

End StoreFacts.

(** ** Themes *)

Module ThemeFacts.
Import Py.

#[local] Open Scope string_scope.

(** [Theme.save] of a theme that is not the built-in one is the base
    class's [save] on its store. *)
Lemma theme_save_named fs t :
  Theme.name t <> "default" ->
  Theme.save fs t
  = ((PropertyBag.save fs (Theme.bag t)).1.1,
     Theme.with_bag t (PropertyBag.save fs (Theme.bag t)).1.2,
     (PropertyBag.save fs (Theme.bag t)).2).
Proof.
  intros Hname. unfold Theme.save. rewrite bool_decide_eq_false_2 by exact Hname.
  destruct (PropertyBag.save fs (Theme.bag t)) as [[fs' b] ok]. reflexivity.
Qed.

(** The built-in theme never touches the disk: [save] returns [False] and
    leaves disk and theme alone, [load] returns [True] with the defaults
    whatever the disk holds, and the theme has no file path. *)
Theorem default_theme_stays_in_memory (fs : Os.filesystem) (t : Theme.t) :
  Theme.name t = "default" ->
  Theme.save fs t = (fs, t, false)
  /\ (Theme.load fs t).2 = Some true
  /\ PropertyBag._properties (Theme.bag (Theme.load fs t).1) = Theme.DEFAULTS
  /\ PropertyBag._dirty (Theme.bag (Theme.load fs t).1) = false
  /\ forall themes_dir,
       PropertyBag.file_path (Theme.bag (Theme.__init__ "default" themes_dir)) = None.
Proof.
  intros Hname. unfold Theme.save, Theme.load.
  rewrite !bool_decide_eq_true_2 by exact Hname. cbn.
  repeat split. intros [d | ]; reflexivity.
Qed.

(** A theme edited and then duplicated under the name ['default']. *)
Lemma default_theme_stays_in_memory_witness :
  let t := Theme.duplicate "default" Scenario.red_image_theme in
  Theme.save Scenario.disk_with_old_theme t = (Scenario.disk_with_old_theme, t, false)
  /\ (Theme.load Scenario.disk_with_old_theme t).2 = Some true
  /\ PropertyBag._properties (Theme.bag (Theme.load Scenario.disk_with_old_theme t).1)
     = Theme.DEFAULTS
  /\ PropertyBag._dirty (Theme.bag (Theme.load Scenario.disk_with_old_theme t).1) = false
  /\ forall themes_dir,
       PropertyBag.file_path (Theme.bag (Theme.__init__ "default" themes_dir)) = None.
Proof.
  apply (default_theme_stays_in_memory Scenario.disk_with_old_theme
           (Theme.duplicate "default" Scenario.red_image_theme)).
  reflexivity.
Defined.

(** "Save theme as": duplicating a theme under a new name, saving the
    duplicate, and opening a theme of that name again finds every value
    of the original (tuples as lists), in a clean theme of the new name. *)
Theorem save_as_reopens (fs : Os.filesystem) (t : Theme.t) (new_name : string) :
  (Theme.save fs (Theme.duplicate new_name t)).2 = true ->
  let fs' := (Theme.save fs (Theme.duplicate new_name t)).1.1 in
  let reopened := Theme.load fs' (Theme.__init__ new_name (Theme.themes_dir t)) in
  reopened.2 = Some true
  /\ Theme.name reopened.1 = new_name
  /\ PropertyBag._dirty (Theme.bag reopened.1) = false
  /\ Spec.reproduces (PropertyBag._properties (Theme.bag t))
       (PropertyBag._properties (Theme.bag reopened.1)).
Proof.
  intros Hok. cbv zeta.
  assert (Hname : new_name <> "default").
  { intros ->. unfold Theme.save in Hok. cbn in Hok. discriminate. }
  assert (Hdupname : Theme.name (Theme.duplicate new_name t) <> "default") by exact Hname.
  rewrite (theme_save_named fs _ Hdupname) in Hok |- *.
  cbn [fst snd] in Hok |- *.
  set (dup := Theme.bag (Theme.duplicate new_name t)) in *.
  destruct (Persistence.save_ok fs dup Hok) as (p & fs1 & fs2 & Hpath & Hp & _ & _ & _).
  pose proof (Persistence.saved_file_readable fs dup p Hok Hpath) as Hread.
  assert (Hfresh : PropertyBag.file_path
                     (Theme.bag (Theme.__init__ new_name (Theme.themes_dir t))) = Some p).
  { rewrite <- Hpath. reflexivity. }
  rewrite (Persistence.theme_load_parsed _
             (Theme.__init__ new_name (Theme.themes_dir t)) p _ Hname Hfresh Hp Hread).
  cbn [fst snd Theme.with_bag Theme.name Theme.bag PropertyBag._dirty
       PropertyBag._properties Theme.__init__].
  split; [reflexivity | ]. split; [reflexivity | ]. split; [reflexivity | ].
  intros k v Hk.
  assert (Hk' : PropertyBag._properties dup !! k = Some v) by exact Hk.
  rewrite Persistence.migrate_present.
  - apply Persistence.reproduces_overlay, Hk'.
  - rewrite !lookup_fmap, Hk'. cbn. eauto.
Qed.

(** The red theme saved as [dusk] on the disk that holds [night.json]. *)
Lemma save_as_reopens_witness :
  let fs' := (Theme.save Scenario.disk_with_old_theme
                (Theme.duplicate "dusk" Scenario.red_image_theme)).1.1 in
  let reopened := Theme.load fs' (Theme.__init__ "dusk"
                                    (Theme.themes_dir Scenario.red_image_theme)) in
  reopened.2 = Some true
  /\ Theme.name reopened.1 = "dusk"
  /\ PropertyBag._dirty (Theme.bag reopened.1) = false
  /\ Spec.reproduces (PropertyBag._properties (Theme.bag Scenario.red_image_theme))
       (PropertyBag._properties (Theme.bag reopened.1)).
Proof.
  apply (save_as_reopens Scenario.disk_with_old_theme Scenario.red_image_theme "dusk").
  vm_compute. reflexivity.
Defined.

End ThemeFacts.

(** ** The list of themes *)

Module ThemeListFacts.

#[local] Open Scope string_scope.

Lemma chars_of_append (a b : string) :
  list_ascii_of_string (a +:+ b)
  = (list_ascii_of_string a ++ list_ascii_of_string b)%list.
Proof. induction a as [ | c a IH]; simpl; [reflexivity | f_equal; exact IH]. Qed.

Lemma string_of_chars_inj (a b : string) :
  list_ascii_of_string a = list_ascii_of_string b -> a = b.
Proof.
  intros Heq. rewrite <- (string_of_list_ascii_of_string a),
                      <- (string_of_list_ascii_of_string b), Heq. reflexivity.
Qed.

(** A file name ends in [.json] exactly when it is a theme name followed
    by [.json], and cutting its last five characters gives that name. *)
Lemma endswith_json (f : string) :
  ThemeList.endswith f ".json" = true <-> f = ThemeList.drop_last 5 f +:+ ".json".
Proof.
  unfold ThemeList.endswith, ThemeList.drop_last. rewrite bool_decide_eq_true. split.
  - intros [k Hk]. apply string_of_chars_inj.
    rewrite chars_of_append, list_ascii_of_string_of_list_ascii, Hk.
    rewrite length_app. cbn [length list_ascii_of_string].
    replace (length k + 5 - 5)%nat with (length k) by lia.
    rewrite take_app_length. reflexivity.
  - intros Hf. exists (take (length (list_ascii_of_string f) - 5) (list_ascii_of_string f)).
    rewrite Hf at 1. rewrite chars_of_append, list_ascii_of_string_of_list_ascii.
    reflexivity.
Qed.

Lemma drop_last_json (n : string) : ThemeList.drop_last 5 (n +:+ ".json") = n.
Proof.
  unfold ThemeList.drop_last. rewrite chars_of_append, length_app.
  cbn [length list_ascii_of_string].
  replace (length (list_ascii_of_string n) + 5 - 5)%nat
    with (length (list_ascii_of_string n)) by lia.
  rewrite take_app_length. apply string_of_list_ascii_of_string.
Qed.

Lemma endswith_json_name (n : string) : ThemeList.endswith (n +:+ ".json") ".json" = true.
Proof. apply endswith_json. rewrite drop_last_json. reflexivity. Qed.

(** What the loop collects: what it started with, and the names other
    than ['default'] of the [.json] files listed. *)
Lemma collected (names : list string) : forall (themes : list string) (n : string),
  n ∈ foldl ThemeList.add_theme themes names
  <-> n ∈ themes \/ (n <> "default" /\ n +:+ ".json" ∈ names).
Proof.
  induction names as [ | f names IH]; intros themes n; cbn [foldl].
  - split; [auto | intros [H | [_ H]]; [exact H | ]]. apply elem_of_nil in H. contradiction.
  - rewrite IH. unfold ThemeList.add_theme.
    destruct (ThemeList.endswith f ".json") eqn:Hend.
    + apply endswith_json in Hend. case_bool_decide as Hdef.
      * split; [intros [H | [Hn H]]; [auto | right; split; [exact Hn | ]; right; exact H] | ].
        intros [H | [Hn H]]; [auto | ].
        apply elem_of_cons in H as [H | H]; [ | auto].
        exfalso. apply Hn. rewrite <- H in Hdef. rewrite drop_last_json in Hdef. exact Hdef.
      * rewrite elem_of_app, list_elem_of_singleton. split.
        -- intros [[H | ->] | [Hn H]]; [auto | | right; split; [exact Hn | right; exact H]].
           right. split; [exact Hdef | ]. apply elem_of_cons. left. symmetry. exact Hend.
        -- intros [H | [Hn H]]; [auto | ].
           apply elem_of_cons in H as [H | H]; [ | auto].
           left. right. rewrite <- H. rewrite drop_last_json. reflexivity.
    + split; [intros [H | [Hn H]]; [auto | right; split; [exact Hn | right; exact H]] | ].
      intros [H | [Hn H]]; [auto | ].
      apply elem_of_cons in H as [H | H]; [ | auto].
      rewrite <- H, endswith_json_name in Hend. discriminate.
Qed.

#[local] Instance str_le_total : Total ThemeList.str_le.
Proof. intros a b. apply String.leb_total. Qed.

(** [list_available_themes] returns its names in ascending order, always
    with ['default'] among them; besides ['default'] it returns exactly
    the names [n] for which the themes directory lists a file [n.json],
    and nothing when the directory is not given, does not exist or cannot
    be listed. *)
Theorem list_available_themes_spec (path_exists : string -> bool)
    (listdir : string -> option (list string)) (themes_dir : option string) :
  let themes := ThemeList.list_available_themes path_exists listdir themes_dir in
  Sorted ThemeList.str_le themes
  /\ "default" ∈ themes
  /\ forall n, n ∈ themes <->
       n = "default"
       \/ exists d filenames,
            themes_dir = Some d /\ d <> "" /\ path_exists d = true
            /\ listdir d = Some filenames /\ n +:+ ".json" ∈ filenames.
Proof.
  cbv zeta. unfold ThemeList.list_available_themes.
  assert (Hone : Sorted ThemeList.str_le ["default"]) by (repeat constructor).
  assert (Hbase : forall n, n ∈ ["default"] <-> n = "default")
    by (intros n; apply list_elem_of_singleton).
  destruct themes_dir as [d | ].
  2:{ split; [exact Hone | ]. split; [apply Hbase; reflexivity | ].
      intros n. rewrite Hbase. split; [auto | ].
      intros [H | (d & fs & Hd & _)]; [exact H | discriminate]. }
  case_bool_decide as Hd; cbn [orb].
  { split; [exact Hone | ]. split; [apply Hbase; reflexivity | ].
    intros n. rewrite Hbase. split; [auto | ].
    intros [H | (d' & fs & [= <-] & Hne & _)]; [exact H | contradiction]. }
  destruct (path_exists d) eqn:Hex; cbn [negb].
  2:{ split; [exact Hone | ]. split; [apply Hbase; reflexivity | ].
      intros n. rewrite Hbase. split; [auto | ].
      intros [H | (d' & fs & [= <-] & _ & Hex' & _)]; [exact H | congruence]. }
  destruct (listdir d) as [filenames | ] eqn:Hls; unfold ThemeList.sorted.
  - split; [apply Sorted_merge_sort, _ | ].
    assert (Hmem : forall n, n ∈ merge_sort ThemeList.str_le
                                   (foldl ThemeList.add_theme ["default"] filenames)
                    <-> n = "default" \/ (n <> "default" /\ n +:+ ".json" ∈ filenames)).
    { intros n. rewrite merge_sort_Permutation, collected, Hbase. reflexivity. }
    split; [apply Hmem; auto | ].
    intros n. rewrite Hmem. split.
    + intros [H | [_ H]]; [auto | ]. right. exists d, filenames. auto.
    + intros [H | (d' & fs & [= <-] & _ & _ & Hls' & H)]; [auto | ].
      rewrite Hls in Hls'. injection Hls' as <-.
      destruct (decide (n = "default")); auto.
  - split; [apply Sorted_merge_sort, _ | ].
    assert (Hmem : forall n, n ∈ merge_sort ThemeList.str_le ["default"] <-> n = "default").
    { intros n. rewrite merge_sort_Permutation. apply Hbase. }
    split; [apply Hmem; reflexivity | ].
    intros n. rewrite Hmem. split; [auto | ].
    intros [H | (d' & fs & [= <-] & _ & _ & Hls' & _)]; [exact H | congruence].
Qed.

End ThemeListFacts.

(** ** The hand image validator *)


(** ** The hand image validator *)

Module ValidatorFacts.
Import Validator.

#[local] Open Scope Z_scope.

(** Two nested loops over columns inside rows are one loop in reading
    order. *)
Lemma nested_loops {S : Type} (f : S -> Z -> Z -> S) (xs ys : list Z) : forall s : S,
  foldl (fun s y => foldl (fun s x => f s x y) s xs) s ys
  = foldl (fun s (c : Z * Z) => f s c.1 c.2) s (y ← ys; x ← xs; [(x, y)]).
Proof.
  induction ys as [ | y ys IH]; intros s; [reflexivity | ].
  cbn [foldl mbind list_bind]. rewrite foldl_app, <- IH. f_equal.
  clear IH. revert s. induction xs as [ | x xs IHx]; intros s; [reflexivity | ].
  cbn [foldl mbind list_bind app]. apply IHx.
Qed.

Lemma in_reading_order (w h x y : Z) :
  (x, y) ∈ reading_order w h <-> 0 <= x < w /\ 0 <= y < h.
Proof.
  unfold reading_order. rewrite list_elem_of_bind. split.
  - intros (y' & Hin & Hy'). apply list_elem_of_bind in Hin as (x' & Hin & Hx').
    apply list_elem_of_singleton in Hin. injection Hin as -> ->.
    apply elem_of_seqZ in Hx', Hy'. lia.
  - intros [Hx Hy]. exists y. split; [ | apply elem_of_seqZ; lia].
    apply list_elem_of_bind. exists x. split; [ | apply elem_of_seqZ; lia].
    apply list_elem_of_singleton. reflexivity.
Qed.

Lemma reading_order_NoDup (w h : Z) : NoDup (reading_order w h).
Proof.
  unfold reading_order. apply NoDup_bind; [ | | apply NoDup_seqZ].
  - intros y1 y2 c _ _ H1 H2.
    apply list_elem_of_bind in H1 as (x1 & H1 & _), H2 as (x2 & H2 & _).
    apply list_elem_of_singleton in H1, H2. congruence.
  - intros y _. apply NoDup_bind; [ | | apply NoDup_seqZ].
    + intros x1 x2 c _ _ H1 H2. apply list_elem_of_singleton in H1, H2. congruence.
    + intros x _. apply NoDup_singleton.
Qed.

(** *** The search for red pixels *)

Lemma find_red_flat (m : gmap (Z * Z) pil_pixel) (cs : list (Z * Z)) : forall acc,
  (forall c, c ∈ cs -> is_Some (m !! c)) ->
  foldl (fun red_pixels (c : Z * Z) =>
           found ← red_pixels;
           pixel ← m !! (c.1, c.2);
           if is_red pixel then Some (found ++ [(c.1, c.2)]) else Some found)
        (Some acc) cs
  = Some (acc ++ List.filter (red_at m) cs).
Proof.
  match goal with |- forall acc, _ -> foldl ?F _ _ = _ => set (step := F) end.
  induction cs as [ | [x y] cs IH]; intros acc Hall; cbn [foldl List.filter].
  - rewrite app_nil_r. reflexivity.
  - destruct (Hall (x, y) ltac:(left)) as [px Hpx].
    assert (Hrest : forall c, c ∈ cs -> is_Some (m !! c))
      by (intros c Hc; apply Hall; right; exact Hc).
    assert (Hstep : step (Some acc) (x, y)
                    = Some (if is_red px then acc ++ [(x, y)] else acc)).
    { unfold step. cbn [mbind option_bind fst snd]. rewrite Hpx. cbn [mbind option_bind].
      destruct (is_red px); reflexivity. }
    rewrite Hstep, (IH _ Hrest). unfold red_at at 2. rewrite Hpx. cbn [from_option].
    destruct (is_red px); [rewrite <- app_assoc | ]; reflexivity.
Qed.

Lemma find_red_pixel_filter (img : Image) :
  (forall x y, 0 <= x < (size img).1 -> 0 <= y < (size img).2 ->
     is_Some (pixels img !! (x, y))) ->
  find_red_pixel img
  = Some (List.filter (red_at (pixels img)) (reading_order (size img).1 (size img).2)).
Proof.
  intros Hall. destruct img as [[w h] m]. cbn [size pixels fst snd] in *.
  unfold find_red_pixel. cbn [size pixels].
  rewrite (nested_loops
             (fun red_pixels x y =>
                found ← red_pixels;
                pixel ← m !! (x, y);
                if is_red pixel then Some (found ++ [(x, y)]) else Some found)).
  apply (find_red_flat m (reading_order w h) []).
  intros [x y] Hc. apply in_reading_order in Hc as [Hx Hy]. apply Hall; assumption.
Qed.

Lemma marker_listed (m : gmap (Z * Z) pil_pixel) (w h x y : Z) :
  (x, y) ∈ List.filter (red_at m) (reading_order w h)
  <-> 0 <= x < w /\ 0 <= y < h
      /\ exists pixel, m !! (x, y) = Some pixel /\ is_red pixel = true.
Proof.
  rewrite list_elem_of_In, filter_In, <- list_elem_of_In, in_reading_order.
  unfold red_at. split.
  - intros [[Hx Hy] Hredpx]. split; [exact Hx | ]. split; [exact Hy | ].
    destruct (m !! (x, y)) as [px | ]; [eauto | discriminate].
  - intros (Hx & Hy & px & -> & Hredpx). auto.
Qed.

(** [find_red_pixel] on an image that has a pixel at each of its
    coordinates returns the coordinates of its red pixels, and only
    those, in the order the loops meet them: row by row from the top,
    each row from the left. *)
Theorem find_red_pixel_lists_markers (img : Image) :
  (forall x y, 0 <= x < (size img).1 -> 0 <= y < (size img).2 ->
     is_Some (pixels img !! (x, y))) ->
  find_red_pixel img
  = Some (List.filter (red_at (pixels img)) (reading_order (size img).1 (size img).2))
  /\ forall x y red_pixels,
       find_red_pixel img = Some red_pixels ->
       ((x, y) ∈ red_pixels <->
        0 <= x < (size img).1 /\ 0 <= y < (size img).2
        /\ exists pixel, pixels img !! (x, y) = Some pixel /\ is_red pixel = true).
Proof.
  intros Hall. pose proof (find_red_pixel_filter img Hall) as Hfind.
  split; [exact Hfind | ].
  intros x y red_pixels Hred. rewrite Hfind in Hred. injection Hred as <-.
  apply marker_listed.
Qed.

(** *** The processing loop *)

Lemma process_flat (tolerance : Z) (cs : list (Z * Z)) :
  NoDup cs -> forall m : gmap (Z * Z) pil_pixel,
  (forall c, c ∈ cs -> exists r g b a, m !! c = Some (RGBA r g b a)) ->
  exists m',
    foldl (fun state (c : Z * Z) => pixels ← state; process_pixel tolerance pixels c.1 c.2)
          (Some m) cs = Some m'
    /\ forall c, m' !! c = if decide (c ∈ cs) then processed tolerance <$> m !! c
                           else m !! c.
Proof.
  match goal with |- _ -> forall m, _ -> exists m', foldl ?F _ _ = _ /\ _ =>
    set (step := F) end.
  induction cs as [ | [x y] cs IH]; intros Hnodup m Hall.
  - exists m. split; [reflexivity | ]. intros c.
    destruct (decide (c ∈ [])) as [Hin | _]; [ | reflexivity].
    apply elem_of_nil in Hin. contradiction.
  - apply NoDup_cons in Hnodup as [Hfresh Hnodup].
    destruct (Hall (x, y) ltac:(left)) as (r & g & b & a & Hpx).
    assert (Hstep : step (Some m) (x, y)
                    = Some (<[(x, y) := processed tolerance (RGBA r g b a)]> m)).
    { unfold step. cbn [mbind option_bind fst snd]. unfold process_pixel.
      rewrite Hpx. cbn [mbind option_bind processed].
      destruct ((r =? 255) && (g =? 0) && (b =? 0) && (a =? 255));
        [rewrite insert_id by exact Hpx; reflexivity | ].
      destruct (is_black_pixel r g b tolerance); reflexivity. }
    destruct (IH Hnodup (<[(x, y) := processed tolerance (RGBA r g b a)]> m))
      as (m' & Hfold & Hm').
    { intros c Hc. rewrite lookup_insert_ne by (intros <-; contradiction).
      apply Hall. right. exact Hc. }
    exists m'. split; [cbn [foldl]; rewrite Hstep; exact Hfold | ].
    intros c. rewrite Hm'.
    destruct (decide (c = (x, y))) as [-> | Hne].
    + rewrite decide_False by exact Hfresh. rewrite decide_True by left.
      rewrite lookup_insert_eq, Hpx. reflexivity.
    + rewrite lookup_insert_ne by congruence.
      destruct (decide (c ∈ cs)) as [Hin | Hout].
      * rewrite decide_True by (right; exact Hin). reflexivity.
      * rewrite decide_False; [reflexivity | ].
        intros Hin. apply elem_of_cons in Hin as [Heq | Hin]; contradiction.
Qed.

(** On an RGBA image the loop runs to its end; it keeps the size, writes
    to no coordinate outside the image, and leaves at every coordinate
    inside what the pixel there was turned into: a red pixel itself, a
    pixel within the tolerance pure black with its alpha, any other pixel
    nothing (pure black with alpha zero). *)
Lemma process_pixels_outcome (tolerance : Z) (img : Image) :
  is_rgba img ->
  exists out,
    process_pixels tolerance img = Some out
    /\ size out = size img
    /\ (forall x y, 0 <= x < (size img).1 -> 0 <= y < (size img).2 ->
          pixels out !! (x, y) = processed tolerance <$> pixels img !! (x, y))
    /\ (forall x y, ~ (0 <= x < (size img).1 /\ 0 <= y < (size img).2) ->
          pixels out !! (x, y) = pixels img !! (x, y)).
Proof.
  intros Hrgba. destruct img as [[w h] m]. cbn [size pixels fst snd] in *.
  destruct (process_flat tolerance (reading_order w h) (reading_order_NoDup w h) m)
    as (m' & Hfold & Hm').
  { intros [x y] Hc. apply in_reading_order in Hc as [Hx Hy]. apply Hrgba; assumption. }
  exists {| size := (w, h); pixels := m' |}. split.
  - unfold process_pixels. cbn [size pixels].
    rewrite (nested_loops
               (fun state x y => pixels ← state; process_pixel tolerance pixels x y)).
    cbv beta. unfold reading_order in Hfold. rewrite Hfold. reflexivity.
  - cbn [size pixels]. split; [reflexivity | ]. split.
    + intros x y Hx Hy. rewrite Hm'.
      rewrite decide_True by (apply in_reading_order; auto). reflexivity.
    + intros x y Hout. rewrite Hm'.
      rewrite decide_False by (rewrite in_reading_order; exact Hout). reflexivity.
Qed.

Lemma hand_image_is_rgba : is_rgba ValidatorScenario.hand_image.
Proof.
  intros x y Hx Hy. cbn [size ValidatorScenario.hand_image fst snd] in Hx, Hy.
  assert (Hxs : x = 0 \/ x = 1) by lia. assert (Hys : y = 0 \/ y = 1) by lia.
  destruct Hxs as [-> | ->], Hys as [-> | ->]; vm_compute; eauto.
Qed.

Lemma hand_image_processed_is_rgba : is_rgba ValidatorScenario.hand_image_processed.
Proof.
  intros x y Hx Hy. cbn [size ValidatorScenario.hand_image_processed fst snd] in Hx, Hy.
  assert (Hxs : x = 0 \/ x = 1) by lia. assert (Hys : y = 0 \/ y = 1) by lia.
  destruct Hxs as [-> | ->], Hys as [-> | ->]; vm_compute; eauto.
Qed.

Lemma is_rgba_present (img : Image) :
  is_rgba img ->
  forall x y, 0 <= x < (size img).1 -> 0 <= y < (size img).2 ->
    is_Some (pixels img !! (x, y)).
Proof.
  intros Hrgba x y Hx Hy. destruct (Hrgba x y Hx Hy) as (r & g & b & a & ->). eauto.
Qed.

Lemma find_red_pixel_lists_markers_witness :
  find_red_pixel ValidatorScenario.hand_image = Some [(0, 0)].
Proof.
  destruct (find_red_pixel_lists_markers ValidatorScenario.hand_image
              (is_rgba_present _ hand_image_is_rgba)) as [-> _].
  vm_compute. reflexivity.
Defined.

(** *** What becomes of one pixel *)

Lemma is_red_processed (tolerance : Z) (pixel : pil_pixel) :
  is_red (processed tolerance pixel) = is_red pixel.
Proof.
  destruct pixel as [r g b | r g b a]; [reflexivity | ].
  cbn [processed].
  destruct ((r =? 255) && (g =? 0) && (b =? 0) && (a =? 255)) eqn:Hred; [reflexivity | ].
  unfold is_red at 2. cbn [channels]. rewrite Hred.
  destruct (is_black_pixel r g b tolerance); reflexivity.
Qed.

Lemma processed_red (tolerance : Z) (pixel : pil_pixel) :
  is_red pixel = true -> processed tolerance pixel = pixel.
Proof.
  destruct pixel as [r g b | r g b a]; [reflexivity | ].
  unfold is_red. cbn [channels processed]. intros ->. reflexivity.
Qed.

Lemma processed_not_red (tolerance : Z) (r g b a : Z) :
  is_red (RGBA r g b a) = false ->
  exists a', processed tolerance (RGBA r g b a) = RGBA 0 0 0 a'
             /\ (a' = a \/ a' = 0).
Proof.
  unfold is_red. cbn [channels processed]. intros ->.
  destruct (is_black_pixel r g b tolerance); eauto.
Qed.

Lemma processed_idempotent (tolerance : Z) (pixel : pil_pixel) :
  0 <= tolerance ->
  processed tolerance (processed tolerance pixel) = processed tolerance pixel.
Proof.
  intros Htol. destruct pixel as [r g b | r g b a]; [reflexivity | ].
  cbn [processed].
  destruct ((r =? 255) && (g =? 0) && (b =? 0) && (a =? 255)) eqn:Hred.
  - cbn [processed]. rewrite Hred. reflexivity.
  - assert (Hblack : is_black_pixel 0 0 0 tolerance = true).
    { unfold is_black_pixel. apply Z.leb_le in Htol. rewrite Htol. reflexivity. }
    destruct (is_black_pixel r g b tolerance); cbn [processed];
      rewrite Hblack; reflexivity.
Qed.

Lemma is_rgba_processed (tolerance : Z) (img out : Image) :
  is_rgba img ->
  size out = size img ->
  (forall x y, 0 <= x < (size img).1 -> 0 <= y < (size img).2 ->
     pixels out !! (x, y) = processed tolerance <$> pixels img !! (x, y)) ->
  is_rgba out.
Proof.
  intros Hrgba Hsize Hin x y Hx Hy. rewrite Hsize in Hx, Hy.
  rewrite (Hin x y Hx Hy). destruct (Hrgba x y Hx Hy) as (r & g & b & a & ->).
  cbn [fmap option_fmap option_map processed].
  destruct ((r =? 255) && (g =? 0) && (b =? 0) && (a =? 255)); [eauto | ].
  destruct (is_black_pixel r g b tolerance); eauto.
Qed.

Lemma same_markers (tolerance : Z) (m m' : gmap (Z * Z) pil_pixel) (cs : list (Z * Z)) :
  (forall c, c ∈ cs -> m' !! c = processed tolerance <$> m !! c) ->
  List.filter (red_at m') cs = List.filter (red_at m) cs.
Proof.
  induction cs as [ | c cs IH]; intros Hsame; [reflexivity | ].
  cbn [List.filter].
  assert (Hc : red_at m' c = red_at m c).
  { unfold red_at. rewrite (Hsame c) by left.
    destruct (m !! c) as [px | ]; [ | reflexivity].
    cbn [fmap option_fmap option_map from_option]. apply is_red_processed. }
  rewrite Hc, IH; [reflexivity | ].
  intros c' Hc'. apply Hsame. right. exact Hc'.
Qed.

(** *** The whole of [process_image] *)

Lemma processed_keeps_markers (tolerance : Z) (img out : Image) :
  is_rgba img ->
  size out = size img ->
  (forall x y, 0 <= x < (size img).1 -> 0 <= y < (size img).2 ->
     pixels out !! (x, y) = processed tolerance <$> pixels img !! (x, y)) ->
  find_red_pixel out
  = Some (List.filter (red_at (pixels img)) (reading_order (size img).1 (size img).2)).
Proof.
  intros Hrgba Hsize Hin.
  assert (Hrgba' : is_rgba out) by exact (is_rgba_processed tolerance img out Hrgba Hsize Hin).
  rewrite (find_red_pixel_filter out (is_rgba_present out Hrgba')), Hsize.
  rewrite (same_markers tolerance (pixels img) (pixels out)); [reflexivity | ].
  intros [x y] Hc. apply in_reading_order in Hc as [Hx Hy]. apply Hin; assumption.
Qed.

(** On an RGBA image [process_image] fails exactly when the image has no
    red pixel or more than one.  When it succeeds the saved image has the
    size of the original and the same single red pixel at the same place,
    every other pixel of it is pure black (with the alpha it had, or with
    alpha zero), and [find_red_pixel] finds in the saved image the one
    marker of the original. *)
Theorem process_image_outcome (tolerance : Z) (img : Image) :
  is_rgba img ->
  match process_image tolerance img with
  | None =>
      length (List.filter (red_at (pixels img))
                (reading_order (size img).1 (size img).2)) <> 1%nat
  | Some out =>
      exists px py,
        find_red_pixel img = Some [(px, py)]
        /\ size out = size img
        /\ pixels out !! (px, py) = pixels img !! (px, py)
        /\ (forall x y, 0 <= x < (size img).1 -> 0 <= y < (size img).2 ->
              (x, y) <> (px, py) ->
              exists a, pixels out !! (x, y) = Some (RGBA 0 0 0 a))
        /\ find_red_pixel out = Some [(px, py)]
  end.
Proof.
  intros Hrgba.
  pose proof (find_red_pixel_filter img (is_rgba_present img Hrgba)) as Hfind.
  destruct (process_pixels_outcome tolerance img Hrgba)
    as (out & Hout & Hsize & Hin & Hrest).
  pose proof (processed_keeps_markers tolerance img out Hrgba Hsize Hin) as Hagain.
  pose proof (fun x y => marker_listed (pixels img) (size img).1 (size img).2 x y) as Hmem.
  unfold process_image. rewrite Hfind. cbn [mbind option_bind].
  destruct (List.filter (red_at (pixels img)) (reading_order (size img).1 (size img).2))
    as [ | [px py] [ | second more]] eqn:Hmarkers.
  - cbn [length]. lia.
  - rewrite Hout. exists px, py.
    assert (Hpivot : 0 <= px < (size img).1 /\ 0 <= py < (size img).2
                     /\ exists pixel, pixels img !! (px, py) = Some pixel
                                      /\ is_red pixel = true).
    { apply (proj1 (Hmem px py)). left. }
    destruct Hpivot as (Hpx & Hpy & pixel & Hpixel & Hred).
    split; [reflexivity | ]. split; [exact Hsize | ]. split.
    { rewrite (Hin px py Hpx Hpy), Hpixel.
      cbn [fmap option_fmap option_map]. rewrite processed_red by exact Hred.
      reflexivity. }
    split; [ | exact Hagain].
    intros x y Hx Hy Hother. rewrite (Hin x y Hx Hy).
    destruct (Hrgba x y Hx Hy) as (r & g & b & a & Hxy). rewrite Hxy.
    cbn [fmap option_fmap option_map].
    destruct (is_red (RGBA r g b a)) eqn:Hredxy.
    + exfalso. apply Hother.
      assert (Hin' : (x, y) ∈ [(px, py)]) by (apply (proj2 (Hmem x y)); eauto 6).
      apply list_elem_of_singleton in Hin'. exact Hin'.
    + destruct (processed_not_red tolerance r g b a Hredxy) as (a' & -> & _). eauto.
  - cbn [length]. lia.
Qed.

Lemma process_image_outcome_witness :
  process_image 100 ValidatorScenario.hand_image
  = Some ValidatorScenario.hand_image_processed
  /\ find_red_pixel ValidatorScenario.hand_image_processed = Some [(0, 0)].
Proof.
  pose proof (process_image_outcome 100 ValidatorScenario.hand_image hand_image_is_rgba)
    as Houtcome.
  assert (Hrun : process_image 100 ValidatorScenario.hand_image
                 = Some ValidatorScenario.hand_image_processed)
    by (vm_compute; reflexivity).
  rewrite Hrun in Houtcome. destruct Houtcome as (px & py & Hfind & _ & _ & _ & Hagain).
  split; [exact Hrun | ].
  assert (Hpivot : find_red_pixel ValidatorScenario.hand_image = Some [(0, 0)])
    by (vm_compute; reflexivity).
  rewrite Hpivot in Hfind. injection Hfind as <- <-. exact Hagain.
Defined.

(** With a tolerance that is not negative, processing an image that was
    already processed changes nothing: the validator can be run again on
    its own output. *)
Theorem process_image_idempotent (tolerance : Z) (img out : Image) :
  0 <= tolerance ->
  is_rgba img ->
  process_image tolerance img = Some out ->
  process_image tolerance out = Some out.
Proof.
  intros Htol Hrgba Hrun.
  pose proof (find_red_pixel_filter img (is_rgba_present img Hrgba)) as Hfind.
  destruct (process_pixels_outcome tolerance img Hrgba)
    as (out0 & Hout0 & Hsize & Hin & Hrest).
  pose proof (processed_keeps_markers tolerance img out0 Hrgba Hsize Hin) as Hagain.
  unfold process_image in Hrun |- *. rewrite Hfind in Hrun.
  cbn [mbind option_bind] in Hrun.
  destruct (List.filter (red_at (pixels img)) (reading_order (size img).1 (size img).2))
    as [ | pivot [ | second more]]; try discriminate Hrun.
  assert (Hsame : out0 = out) by congruence. subst out0.
  rewrite Hagain. cbn [mbind option_bind].
  assert (Hrgba' : is_rgba out) by exact (is_rgba_processed tolerance img out Hrgba Hsize Hin).
  destruct (process_pixels_outcome tolerance out Hrgba')
    as (out' & Hout' & Hsize' & Hin' & Hrest').
  rewrite Hout'. f_equal. destruct out' as [size' pixels'], out as [size0 pixels0].
  cbn [size pixels] in *. subst size'. f_equal.
  apply map_eq. intros [x y].
  destruct (decide (0 <= x < size0.1 /\ 0 <= y < size0.2)) as [[Hx Hy] | Hout].
  - rewrite (Hin' x y Hx Hy). rewrite Hsize in Hx, Hy. rewrite (Hin x y Hx Hy).
    destruct (pixels img !! (x, y)) as [pixel | ]; [ | reflexivity].
    cbn [fmap option_fmap option_map]. rewrite processed_idempotent by exact Htol.
    reflexivity.
  - apply Hrest'. exact Hout.
Qed.

Lemma process_image_idempotent_witness :
  process_image 100 ValidatorScenario.hand_image_processed
  = Some ValidatorScenario.hand_image_processed.
Proof.
  apply (process_image_idempotent 100 ValidatorScenario.hand_image).
  - lia.
  - exact hand_image_is_rgba.
  - vm_compute. reflexivity.
Defined.

End ValidatorFacts.
